(** * Kwokker_Algorithm3: the trading strategy of src/trading/Kwokker_Algorithm3.py

    Shallow embedding of the [Strategy] class and its engine callbacks.

    Modelling conventions.
    - Python floats are idealised as the real numbers [R]; [math.floor] is
      [Zfloor], [math.tanh], [math.exp] and [math.sqrt] are the functions of
      the same name of the Reals library.  Rounding is not modelled.
      [math.exp] raises OverflowError when its result is beyond the float
      range, and that is modelled: [_sigmoid], [_win_prob] and [_fair] are
      partial, and a callback ends by returning or by raising.  Scores are
      taken to be within the float range, so [float(home - away)] returns.
    - The two price -> quantity dicts are association lists with unique keys,
      in insertion order, with Python's replace-in-place on assignment.
    - The platform functions [place_market_order], [place_limit_order] and
      [cancel_order] are effects: every procedure returns the new state
      together with the list of commands it issued, in order.  The value that
      [place_limit_order] returns is supplied by the platform, so it is a
      parameter ([reply]); so is the reading of [time.monotonic()] ([now]). *)

From Stdlib Require Import Reals Lra Lia ZArith List String Bool Zfloor.
Import ListNotations.
Open Scope R_scope.

Module Kwokker.

(** ** Enumerations and platform commands *)

Inductive Side : Set := BUY | SELL.

Inductive Ticker : Set := TEAM_A.

Definition Ticker_eqb (a b : Ticker) : bool :=
  match a, b with TEAM_A, TEAM_A => true end.

(** One constructor per platform function, arguments in the source's order. *)
Inductive Command : Type :=
| place_market_order (side : Side) (ticker : Ticker) (quantity : R)
| place_limit_order (side : Side) (ticker : Ticker) (quantity price : R) (ioc : bool)
| cancel_order (ticker : Ticker) (order_id : Z).

(** What a call of [place_limit_order] hands back: an [int], or anything
    else (the source tests [isinstance(oid, int)]). *)
Inductive Reply : Type :=
| ReplyInt (oid : Z)
| ReplyOther.

(** ** Comparisons on floats, as booleans *)

Definition Rleb (x y : R) : bool := if Rle_dec x y then true else false.
Definition Rltb (x y : R) : bool := if Rlt_dec x y then true else false.
Definition Reqb (x y : R) : bool := if Req_dec_T x y then true else false.

Infix "<=?" := Rleb (at level 70) : R_scope.
Infix "<?" := Rltb (at level 70) : R_scope.

(** ** Tunables *)

Definition MAX_POS : R := 800.
Definition RISK_PCT : R := 0.007.
Definition MAX_SPREAD_TO_CROSS : R := 2.
Definition PASSIVE_IMPROVE : R := 0.1.
Definition MIN_QTY_LVL : R := 1.
Definition HOME_ADV : R := 1.
Definition BASE_EDGE : R := 0.9.
Definition INIT_COOLDOWN : R := 3.
Definition CLOSE_OUT_BUFFER : R := 2.
Definition GAME_LEN1 : R := 2400.
Definition GAME_LEN2 : R := 2880.

(** ** Python dicts keyed by price *)

Definition Book : Type := list (R * R).

Fixpoint dict_get (d : Book) (p : R) : option R :=
  match d with
  | [] => None
  | (k, q) :: d' => if Reqb k p then Some q else dict_get d' p
  end.

(** [d[p] = q] *)
Fixpoint dict_set (d : Book) (p q : R) : Book :=
  match d with
  | [] => [(p, q)]
  | (k, q') :: d' => if Reqb k p then (k, q) :: d' else (k, q') :: dict_set d' p q
  end.

(** [d.pop(p, None)] *)
Definition dict_pop (d : Book) (p : R) : Book :=
  filter (fun kv => negb (Reqb (fst kv) p)) d.

Definition keys (d : Book) : list R := map fst d.

Fixpoint insert_asc (x : R) (l : list R) : list R :=
  match l with
  | [] => [x]
  | y :: l' => if x <=? y then x :: l else y :: insert_asc x l'
  end.

(** [sorted(l)] *)
Definition sorted (l : list R) : list R := fold_right insert_asc [] l.

(** [sorted(l, reverse=True)] *)
Definition sorted_reverse (l : list R) : list R := rev (sorted l).

(** First price of [ps] whose level in [d] holds at least [MIN_QTY_LVL]. *)
Definition first_level (d : Book) (ps : list R) : option R :=
  find (fun p => match dict_get d p with
                 | Some q => MIN_QTY_LVL <=? q
                 | None => false
                 end) ps.

(** ** The strategy object *)

Record Strategy : Type := mkStrategy {
  _bids : Book;
  _asks : Book;
  capital : R;
  pos : R;
  t : R;
  home : Z;
  away : Z;
  lead : R;
  momentum : R;
  _seen_event : bool;
  _start : R;
  _work_bid : option Z;
  _work_ask : option Z
}.

Definition set_bids (s : Strategy) (b : Book) : Strategy :=
  mkStrategy b (_asks s) (capital s) (pos s) (t s) (home s) (away s) (lead s)
             (momentum s) (_seen_event s) (_start s) (_work_bid s) (_work_ask s).

Definition set_asks (s : Strategy) (a : Book) : Strategy :=
  mkStrategy (_bids s) a (capital s) (pos s) (t s) (home s) (away s) (lead s)
             (momentum s) (_seen_event s) (_start s) (_work_bid s) (_work_ask s).

Definition set_account (s : Strategy) (c p : R) : Strategy :=
  mkStrategy (_bids s) (_asks s) c p (t s) (home s) (away s) (lead s)
             (momentum s) (_seen_event s) (_start s) (_work_bid s) (_work_ask s).

Definition set_t (s : Strategy) (x : R) : Strategy :=
  mkStrategy (_bids s) (_asks s) (capital s) (pos s) x (home s) (away s) (lead s)
             (momentum s) (_seen_event s) (_start s) (_work_bid s) (_work_ask s).

Definition set_game (s : Strategy) (h a : Z) (l m : R) (seen : bool) : Strategy :=
  mkStrategy (_bids s) (_asks s) (capital s) (pos s) (t s) h a l m seen
             (_start s) (_work_bid s) (_work_ask s).

Definition set_work_bid (s : Strategy) (w : option Z) : Strategy :=
  mkStrategy (_bids s) (_asks s) (capital s) (pos s) (t s) (home s) (away s) (lead s)
             (momentum s) (_seen_event s) (_start s) w (_work_ask s).

Definition set_work_ask (s : Strategy) (w : option Z) : Strategy :=
  mkStrategy (_bids s) (_asks s) (capital s) (pos s) (t s) (home s) (away s) (lead s)
             (momentum s) (_seen_event s) (_start s) (_work_bid s) w.

(** [reset_state]; [now] is the value read from [time.monotonic()]. *)
Definition reset_state (now : R) : Strategy :=
  {| _bids := []; _asks := [];
     capital := 100000; pos := 0;
     t := GAME_LEN2; home := 0%Z; away := 0%Z; lead := 0; momentum := 0;
     _seen_event := false;
     _start := now; _work_bid := None; _work_ask := None |}.

(** ** Helpers *)

Definition _clamp_price (p : R) : R := Rmin 100 (Rmax 0 p).

(** The largest finite float, (2 - 2^-52) * 2^1023. *)
Definition FLOAT_MAX : R := (2 - / 2 ^ 52) * 2 ^ 1023.

(** [math.exp]: an OverflowError ([None]) when the result is beyond the
    float range, that is, above the largest float (rounding at the boundary
    is not modelled). *)
Definition math_exp (x : R) : option R :=
  if FLOAT_MAX <? exp x then None else Some (exp x).

Definition _sigmoid (x : R) : option R :=
  match math_exp (- x) with
  | Some e => Some (1 / (1 + e))
  | None => None
  end.

Definition _best_bid (s : Strategy) : option R :=
  match _bids s with
  | [] => None
  | _ => first_level (_bids s) (sorted_reverse (keys (_bids s)))
  end.

Definition _best_ask (s : Strategy) : option R :=
  match _asks s with
  | [] => None
  | _ => first_level (_asks s) (sorted (keys (_asks s)))
  end.

Definition _mid (s : Strategy) : option R :=
  match _best_bid s, _best_ask s with
  | Some bb, Some aa => Some (0.5 * (bb + aa))
  | _, _ => None
  end.

Definition _edge_threshold (s : Strategy) : R :=
  let late_fac := 1 - 0.55 * (1 - tanh (Rmax (t s) 0 / 600)) in
  Rmax 0.2 (BASE_EDGE * late_fac).

Definition _win_prob (s : Strategy) : option R :=
  let t := Rmax (t s) 0 in
  let scale := 1 / sqrt (t / 60 + 1) in
  let xlead := lead s * scale in
  let xhome := HOME_ADV * scale in
  let xmom := momentum s * (1 + (1 - tanh (t / 600))) in
  let logit := 0.18 * xlead + 0.20 * xhome + 0.10 * xmom in
  match _sigmoid logit with
  | Some p => Some (Rmax 0.01 (Rmin 0.99 p))
  | None => None
  end.

Definition _fair (s : Strategy) : option R :=
  match _win_prob s with
  | Some p => Some (100 * p)
  | None => None
  end.

Definition _size_for_edge (s : Strategy) (edge ref_price : R) : R :=
  if ref_price <=? 0 then 0 else
  let budget := capital s * RISK_PCT in
  let base := Rmax 1 (budget / Rmax 1 ref_price) in
  let sz := base * (0.5 + Rmin 1.5 (Rabs edge / 2)) in
  let urg := 1 + (1 - tanh (Rmax (t s) 0 / 800)) in
  let sz := sz * urg in
  let sz := Rmin sz (MAX_POS * 0.25) in
  Rmax 0 (IZR (Zfloor sz)).

(** Commands issued for a handle that is not [None]. *)
Definition cancel_if (w : option Z) : list Command :=
  match w with
  | Some oid => [cancel_order TEAM_A oid]
  | None => []
  end.

Definition _cancel_working (s : Strategy) : Strategy * list Command :=
  (set_work_ask (set_work_bid s None) None,
   cancel_if (_work_bid s) ++ cancel_if (_work_ask s)).

Definition _flatten_all (s : Strategy) : Strategy * list Command :=
  let '(s', cs) := _cancel_working s in
  (s', cs ++
       (if 1 <=? Rabs (pos s) then
          if 0 <? pos s
          then [place_market_order SELL TEAM_A (IZR (Zfloor (pos s)))]
          else [place_market_order BUY TEAM_A (IZR (Zfloor (- pos s)))]
        else [])).

(** [isinstance(oid, int) and oid >= 0] *)
Definition valid_oid (r : Reply) : option Z :=
  match r with
  | ReplyInt oid => if (0 <=? oid)%Z then Some oid else None
  | ReplyOther => None
  end.

(** ** How a call ends *)

(** A call returns, or an OverflowError leaves it.  Either way the outcome
    carries the state the call leaves behind and the commands it has issued
    up to that point. *)
Inductive Outcome : Type :=
| Returned (r : Strategy * list Command)
| Raised (r : Strategy * list Command).

Definition effects (o : Outcome) : Strategy * list Command :=
  match o with
  | Returned r => r
  | Raised r => r
  end.

(** Where a pair is expected, an outcome stands for its effects. *)
Coercion effects : Outcome >-> prod.

(** ** The decision engine *)

Section Engine.

(** [now]: the reading of [time.monotonic()] during this callback.
    [reply side quantity price]: what the platform returns for the resting
    [place_limit_order] of this callback. *)
Variable now : R.
Variable reply : Side -> R -> R -> Reply.

(** Late-game inventory safety: [Some] when one of the two unwinds fires. *)
Definition late_unwind (s : Strategy) (bb aa fair : R) : option (list Command) :=
  if t s <? 60 then
    if (0.5 <? pos s) && (fair <? bb) then
      Some [place_market_order SELL TEAM_A (IZR (Zfloor (Rmax 1 (pos s * 0.25))))]
    else if (pos s <? -0.5) && (aa <? fair) then
      Some [place_market_order BUY TEAM_A (IZR (Zfloor (Rmax 1 (- pos s * 0.25))))]
    else None
  else None.

Definition buy_qty (s : Strategy) (e_buy md : R) : R :=
  Rmin (_size_for_edge s e_buy md) (MAX_POS - pos s).

Definition sell_qty (s : Strategy) (e_sell md : R) : R :=
  Rmin (_size_for_edge s e_sell md) (pos s + MAX_POS).

(** Crossing the spread with an IOC order: [Some] when a branch returns. *)
Definition cross (s : Strategy) (allow_cross : bool) (bb aa md e_buy e_sell thr : R)
  : option (Strategy * list Command) :=
  if allow_cross && (thr <? e_buy) && (pos s <? MAX_POS) && (1 <=? buy_qty s e_buy md)
  then
    let '(s', cs) := _cancel_working s in
    Some (s', cs ++ [place_limit_order BUY TEAM_A (buy_qty s e_buy md) aa true])
  else if allow_cross && (thr <? e_sell) && (- MAX_POS <? pos s)
          && (1 <=? sell_qty s e_sell md)
  then
    let '(s', cs) := _cancel_working s in
    Some (s', cs ++ [place_limit_order SELL TEAM_A (sell_qty s e_sell md) bb true])
  else None.

(** The handle kept after a resting placement: the new identifier when it is
    a non-negative int, the previous handle otherwise. *)
Definition new_handle (old : option Z) (r : Reply) : option Z :=
  match valid_oid r with
  | Some oid => Some oid
  | None => old
  end.

Definition passive_buy (s : Strategy) (bb md e_buy : R) : Strategy * list Command :=
  let px := _clamp_price (bb + PASSIVE_IMPROVE) in
  let q := buy_qty s e_buy md in
  if 1 <=? q then
    (set_work_bid (set_work_ask s None) (new_handle (_work_bid s) (reply BUY q px)),
     cancel_if (_work_bid s) ++ cancel_if (_work_ask s)
       ++ [place_limit_order BUY TEAM_A q px false])
  else (s, []).

Definition passive_sell (s : Strategy) (aa md e_sell : R) : Strategy * list Command :=
  let px := _clamp_price (aa - PASSIVE_IMPROVE) in
  let q := sell_qty s e_sell md in
  if 1 <=? q then
    (set_work_ask (set_work_bid s None) (new_handle (_work_ask s) (reply SELL q px)),
     cancel_if (_work_ask s) ++ cancel_if (_work_bid s)
       ++ [place_limit_order SELL TEAM_A q px false])
  else (s, []).

(** Maintain a single passive on the dominant side. *)
Definition passive (s : Strategy) (bb aa md e_buy e_sell thr : R)
  : Strategy * list Command :=
  if (e_sell <? e_buy) && (thr <? e_buy) && (pos s <? MAX_POS) then
    passive_buy s bb md e_buy
  else if (thr <? e_sell) && (- MAX_POS <? pos s) then
    passive_sell s aa md e_sell
  else _cancel_working s.

Definition _try_trade (high_impact : bool) (s : Strategy) : Outcome :=
  if now - _start s <? INIT_COOLDOWN then Returned (s, []) else
  match _best_bid s, _best_ask s, _mid s with
  | Some bb, Some aa, Some md =>
      let spread := Rmax 0 (aa - bb) in
      match _fair s with
      | None => Raised (s, [])
      | Some fair =>
          let thr := _edge_threshold s in
          let e_buy := fair - aa in
          let e_sell := bb - fair in
          match late_unwind s bb aa fair with
          | Some cs => Returned (s, cs)
          | None =>
              let allow_cross := (spread <=? MAX_SPREAD_TO_CROSS) || high_impact in
              match cross s allow_cross bb aa md e_buy e_sell thr with
              | Some r => Returned r
              | None => Returned (passive s bb aa md e_buy e_sell thr)
              end
          end
      end
  | _, _, _ => Returned (s, [])
  end.

(** ** Engine callbacks *)

Definition on_trade_update (ticker : Ticker) (side : Side) (quantity price : R)
    (s : Strategy) : Outcome :=
  Returned (s, []).

(** The book write of [on_orderbook_update], before the re-evaluation. *)
Definition apply_update (side : Side) (quantity price : R) (s : Strategy) : Strategy :=
  let price := _clamp_price price in
  match side with
  | BUY => if quantity <=? 0 then set_bids s (dict_pop (_bids s) price)
           else set_bids s (dict_set (_bids s) price quantity)
  | SELL => if quantity <=? 0 then set_asks s (dict_pop (_asks s) price)
            else set_asks s (dict_set (_asks s) price quantity)
  end.

Definition on_orderbook_update (ticker : Ticker) (side : Side) (quantity price : R)
    (s : Strategy) : Outcome :=
  if negb (Ticker_eqb ticker TEAM_A) then Returned (s, []) else
  _try_trade false (apply_update side quantity price s).

Definition on_account_update (ticker : Ticker) (side : Side)
    (price quantity capital_remaining : R) (s : Strategy) : Outcome :=
  let p := pos s + (match side with BUY => quantity | SELL => - quantity end) in
  let s1 := set_account s capital_remaining p in
  let '(s2, c2) :=
    match _work_bid s1 with
    | Some oid => if 0 <? pos s1 then (set_work_bid s1 None, [cancel_order TEAM_A oid])
                  else (s1, [])
    | None => (s1, [])
    end in
  let '(s3, c3) :=
    match _work_ask s2 with
    | Some oid => if pos s2 <? 0 then (set_work_ask s2 None, [cancel_order TEAM_A oid])
                  else (s2, [])
    | None => (s2, [])
    end in
  Returned (s3, c2 ++ c3).

(** The arguments of [on_game_event_update]. *)
Record GameEvent : Type := mkGameEvent {
  event_type : string;
  home_away : string;
  home_score : Z;
  away_score : Z;
  player_name : option string;
  substituted_player_name : option string;
  shot_type : option string;
  assist_player : option string;
  rebound_type : option string;
  coordinate_x : option R;
  coordinate_y : option R;
  time_seconds : option R
}.

(** Time/format inference. *)
Definition infer_time (time_seconds : option R) (s : Strategy) : Strategy :=
  match time_seconds with
  | None => s
  | Some x =>
      let s1 := if x <=? GAME_LEN1 + 1 then set_t s x else s in
      if x <=? GAME_LEN2 + 1 then set_t s1 (Rmax (t s1) x) else s1
  end.

(** Scores and momentum. *)
Definition update_scores (h a : Z) (s : Strategy) : Strategy :=
  let prev_lead := lead s in
  let l := IZR (h - a) in
  if _seen_event s then
    let dlead := l - prev_lead in
    let a' := 0.2 in
    set_game s h a l ((1 - a') * momentum s + a' * dlead) true
  else set_game s h a l 0 true.

Definition opt_string_eqb (o : option string) (x : string) : bool :=
  match o with
  | Some y => String.eqb y x
  | None => false
  end.

Definition high_impact_of (e : GameEvent) (s : Strategy) : bool :=
  if String.eqb (event_type e) "SCORE" then
    opt_string_eqb (shot_type e) "THREE_POINT" || (t s <? 30)
  else if String.eqb (event_type e) "TURNOVER" || String.eqb (event_type e) "STEAL"
          || String.eqb (event_type e) "FOUL" then
    t s <? 45
  else false.

Definition on_game_event_update (e : GameEvent) (s : Strategy)
  : Outcome :=
  let s1 := infer_time (time_seconds e) s in
  let s2 := update_scores (home_score e) (away_score e) s1 in
  if String.eqb (event_type e) "END_GAME" then
    let '(_, cs) := _flatten_all s2 in
    Returned (reset_state now, cs)
  else if t s2 <=? CLOSE_OUT_BUFFER then
    Returned (_flatten_all s2)
  else
    _try_trade (high_impact_of e s2) s2.

(** The book rebuilt by [on_orderbook_snapshot]: one side. *)
Definition load_side (levels : list (R * R)) : Book :=
  fold_left (fun d pq => if MIN_QTY_LVL <=? snd pq
                         then dict_set d (_clamp_price (fst pq)) (snd pq)
                         else d)
            levels [].

Definition apply_snapshot (bids asks : list (R * R)) (s : Strategy) : Strategy :=
  set_asks (set_bids s (load_side bids)) (load_side asks).

Definition on_orderbook_snapshot (ticker : Ticker) (bids asks : list (R * R))
    (s : Strategy) : Outcome :=
  if negb (Ticker_eqb ticker TEAM_A) then Returned (s, []) else
  _try_trade false (apply_snapshot bids asks s).

End Engine.

(** ** Vocabulary of the statements *)

(** What [_sigmoid], [_win_prob] and [_fair] return when they return: the
    same expressions with [exp] for [math.exp]. *)
Definition sigmoid_value (x : R) : R := 1 / (1 + exp (- x)).

Definition win_prob_value (s : Strategy) : R :=
  let t := Rmax (t s) 0 in
  let scale := 1 / sqrt (t / 60 + 1) in
  let xlead := lead s * scale in
  let xhome := HOME_ADV * scale in
  let xmom := momentum s * (1 + (1 - tanh (t / 600))) in
  let logit := 0.18 * xlead + 0.20 * xhome + 0.10 * xmom in
  Rmax 0.01 (Rmin 0.99 (sigmoid_value logit)).

Definition fair_value (s : Strategy) : R := 100 * win_prob_value s.

(** The argument [_win_prob] passes to [_sigmoid]. *)
Definition logit (s : Strategy) : R :=
  let t := Rmax (t s) 0 in
  let scale := 1 / sqrt (t / 60 + 1) in
  let xlead := lead s * scale in
  let xhome := HOME_ADV * scale in
  let xmom := momentum s * (1 + (1 - tanh (t / 600))) in
  0.18 * xlead + 0.20 * xhome + 0.10 * xmom.

(** The three factors of [_size_for_edge], named. *)
Definition size_base (s : Strategy) (ref_price : R) : R :=
  Rmax 1 (capital s * RISK_PCT / Rmax 1 ref_price).

Definition edge_factor (edge : R) : R := 0.5 + Rmin 1.5 (Rabs edge / 2).

Definition urgency (s : Strategy) : R := 1 + (1 - tanh (Rmax (t s) 0 / 800)).

(** The sizing rule in the words of the specification: base size
    capital x 0.007 / price, a factor proportional to |edge| kept within
    [0.5, 2.0] (so reaching 2.0 at |edge| = 2.0), the urgency multiplier, the
    cap at 25% of the position limit, and the floor. *)
Definition spec_edge_factor (edge : R) : R := Rmax 0.5 (Rmin 2 (Rabs edge)).

Definition spec_size_for_edge (s : Strategy) (edge ref_price : R) : R :=
  if ref_price <=? 0 then 0 else
  IZR (Zfloor (Rmin (MAX_POS * 0.25)
                    (capital s * RISK_PCT / ref_price
                     * spec_edge_factor edge * urgency s))).

(** A freshly reset strategy whose clock has run down to [x]. *)
Definition at_time (x : R) : Strategy := set_t (reset_state 0) x.
(** Kinds of command. *)
Definition is_market (c : Command) : bool :=
  match c with place_market_order _ _ _ => true | _ => false end.

Definition is_limit (c : Command) : bool :=
  match c with place_limit_order _ _ _ _ _ => true | _ => false end.

Definition is_cancel (c : Command) : bool :=
  match c with cancel_order _ _ => true | _ => false end.

(** Every stored price lies in [0, 100], as [_clamp_price] leaves it. *)
Definition book_in_range (s : Strategy) : Prop :=
  Forall (fun kv => 0 <= fst kv <= 100) (_bids s) /\
  Forall (fun kv => 0 <= fst kv <= 100) (_asks s).

(** A book with one bid and one ask of quantity 1. *)
Definition with_book (s : Strategy) (bid ask : R) : Strategy :=
  set_asks (set_bids s [(bid, 1)]) [(ask, 1)].

(** A game event of type [ty] with the given scores and reported time, and
    every optional descriptor absent. *)
Definition plain_event (ty : string) (h a : Z) (ts : option R) : GameEvent :=
  mkGameEvent ty "home" h a None None None None None None None ts.

(** A platform that answers every resting placement with identifier 1. *)
Definition reply_1 (_ : Side) (_ _ : R) : Reply := ReplyInt 1.

(** [s'] differs from [s] at most in the two working-order handles. *)
Definition same_but_handles (s s' : Strategy) : Prop :=
  _bids s' = _bids s /\ _asks s' = _asks s /\ capital s' = capital s /\
  pos s' = pos s /\ t s' = t s /\ home s' = home s /\ away s' = away s /\
  lead s' = lead s /\ momentum s' = momentum s /\
  _seen_event s' = _seen_event s /\ _start s' = _start s.

(** A freshly reset strategy that tracks working orders 5 (buy) and 7 (sell). *)
Definition working_both : Strategy :=
  set_work_ask (set_work_bid (reset_state 0) (Some 5%Z)) (Some 7%Z).

(** A long position of 5 with 1.5 time units left and an empty book. *)
Definition late_long : Strategy := set_account (at_time 1.5) 100000 5.

(** As [late_long], tracking working orders 5 (buy) and 7 (sell). *)
Definition late_long_working : Strategy :=
  set_work_ask (set_work_bid late_long (Some 5%Z)) (Some 7%Z).

(** Working orders 5 and 7 against a book of bid 0 and ask 100. *)
Definition quiet_book : Strategy := with_book working_both 0 100.

(** A freshly reset strategy facing a bid of 0 and an ask of 0.05. *)
Definition cheap_ask : Strategy := with_book (reset_state 0) 0 0.05.

(** No time left, home side 40 points ahead, bid 45 and ask 55. *)
Definition strong_lead : Strategy :=
  with_book (set_game (at_time 0) 40 0 40 0 true) 45 55.

(** As [strong_lead], tracking working orders 5 (buy) and 7 (sell). *)
Definition strong_lead_working : Strategy :=
  set_work_ask (set_work_bid strong_lead (Some 5%Z)) (Some 7%Z).

(** A freshly reset strategy facing a bid of 45 and an ask of 55. *)
Definition open_book : Strategy := with_book (reset_state 0) 45 55.

(** A SCORE event 30 units before the end, the home side 5000 behind. *)
Definition deficit_event : GameEvent := plain_event "SCORE" 0 5000 (Some 30).

(** The state in which that event, delivered to [open_book], is evaluated. *)
Definition deficit_state : Strategy :=
  update_scores 0 5000 (infer_time (Some 30) open_book).

(** The dict of one side of the book. *)
Definition side_book (side : Side) (s : Strategy) : Book :=
  match side with BUY => _bids s | SELL => _asks s end.

Definition opposite (side : Side) : Side :=
  match side with BUY => SELL | SELL => BUY end.

(** The test of [_best_bid] and [_best_ask] on one price of a dict. *)
Definition live_level (d : Book) (p : R) : bool :=
  match dict_get d p with
  | Some q => MIN_QTY_LVL <=? q
  | None => false
  end.

(** [ascending l]: every element is at most every later one. *)
Fixpoint ascending (l : list R) : Prop :=
  match l with
  | [] => True
  | x :: l' => (forall y, In y l' -> x <= y) /\ ascending l'
  end.

(** The snapshot entries that end up at price [p]: enough quantity, and a
    price that clamps to [p]. *)
Definition snapshot_hit (p : R) (pq : R * R) : bool :=
  (MIN_QTY_LVL <=? snd pq) && Reqb (_clamp_price (fst pq)) p.

(** ** The platform driving the callbacks *)

(** One call of a callback, with its arguments. *)
Inductive Event : Type :=
| TradeUpdate (ticker : Ticker) (side : Side) (quantity price : R)
| OrderbookUpdate (ticker : Ticker) (side : Side) (quantity price : R)
| AccountUpdate (ticker : Ticker) (side : Side) (price quantity capital_remaining : R)
| GameEventUpdate (e : GameEvent)
| OrderbookSnapshot (ticker : Ticker) (bids asks : list (R * R)).

(** An event together with the clock reading and the platform's answer to a
    resting placement during its callback. *)
Record Delivery : Type := mkDelivery {
  clock : R;
  answer : Side -> R -> R -> Reply;
  event : Event
}.

Definition deliver (d : Delivery) (s : Strategy) : Outcome :=
  match event d with
  | TradeUpdate tk sd q p => on_trade_update tk sd q p s
  | OrderbookUpdate tk sd q p => on_orderbook_update (clock d) (answer d) tk sd q p s
  | AccountUpdate tk sd p q c => on_account_update tk sd p q c s
  | GameEventUpdate e => on_game_event_update (clock d) (answer d) e s
  | OrderbookSnapshot tk bids asks =>
      on_orderbook_snapshot (clock d) (answer d) tk bids asks s
  end.

(** The callbacks run one after the other, each to its end; the platform
    goes on calling on the same object after a callback has raised (a
    platform that stops at the first exception reaches a subset of these
    states). *)
Fixpoint run (ds : list Delivery) (s : Strategy) : Strategy * list Command :=
  match ds with
  | [] => (s, [])
  | d :: ds' =>
      let '(s1, c1) := effects (deliver d s) in
      let '(s2, c2) := run ds' s1 in
      (s2, c1 ++ c2)
  end.

(** A side of the book as the callbacks keep it: no price twice, every price
    within [0, 100], every quantity positive. *)
Definition side_ok (d : Book) : Prop :=
  NoDup (keys d) /\ Forall (fun kv => 0 <= fst kv <= 100 /\ 0 < snd kv) d.

Definition state_ok (s : Strategy) : Prop :=
  side_ok (_bids s) /\ side_ok (_asks s) /\
  t s <= GAME_LEN2 + 1 /\ lead s = IZR (home s - away s).

(** The commands of a list that place an order. *)
Definition orders (cs : list Command) : list Command :=
  filter (fun c => negb (is_cancel c)) cs.

(** Long 10 with 30 units left, bid 99.5 and ask 100. *)
Definition closing_long : Strategy :=
  with_book (set_account (at_time 30) 100000 10) 99.5 100.


(** * Verification *)

(** ** Boolean comparisons *)

Lemma Rleb_true x y : (x <=? y) = true <-> x <= y.
Proof. unfold Rleb; destruct (Rle_dec x y); split; intros; try easy. Qed.

Lemma Rleb_false x y : (x <=? y) = false <-> y < x.
Proof.
  unfold Rleb; destruct (Rle_dec x y); split; intros; try easy; lra.
Qed.

Lemma Rltb_true x y : (x <? y) = true <-> x < y.
Proof. unfold Rltb; destruct (Rlt_dec x y); split; intros; try easy. Qed.

Lemma Rltb_false x y : (x <? y) = false <-> y <= x.
Proof.
  unfold Rltb; destruct (Rlt_dec x y); split; intros; try easy; lra.
Qed.

Lemma Reqb_true x y : Reqb x y = true <-> x = y.
Proof. unfold Reqb; destruct (Req_dec_T x y); split; intros; try easy. Qed.

Lemma Reqb_false x y : Reqb x y = false <-> x <> y.
Proof. unfold Reqb; destruct (Req_dec_T x y); split; intros; try easy. Qed.

(** Turn every boolean comparison among the hypotheses into its proposition. *)
Ltac reflect_cmp :=
  repeat match goal with
    | H : (_ <=? _) = true |- _ => apply Rleb_true in H
    | H : (_ <=? _) = false |- _ => apply Rleb_false in H
    | H : (_ <? _) = true |- _ => apply Rltb_true in H
    | H : (_ <? _) = false |- _ => apply Rltb_false in H
    | H : (_ && _) = true |- _ => apply andb_true_iff in H; destruct H
    | H : (_ || _) = false |- _ => apply orb_false_iff in H; destruct H
    end.

(** Decide a boolean comparison between concrete or bounded reals. *)
Ltac cmp_true := first [ apply Rleb_true | apply Rltb_true ]; try lra.
Ltac cmp_false := first [ apply Rleb_false | apply Rltb_false ]; try lra.

(** ** The hyperbolic tangent schedule *)

Lemma tanh_exp x : tanh x = 1 - 2 / (exp (2 * x) + 1).
Proof.
  unfold tanh, sinh, cosh.
  replace (2 * x) with (x + x) by lra.
  rewrite exp_plus, exp_Ropp.
  pose proof (exp_pos x) as Hx.
  field. split; nra.
Qed.

Lemma tanh_lt_1 x : tanh x < 1.
Proof.
  rewrite tanh_exp.
  pose proof (exp_pos (2 * x)) as Hx.
  assert (0 < 2 / (exp (2 * x) + 1)) by (apply Rdiv_lt_0_compat; lra).
  lra.
Qed.

Lemma tanh_0 : tanh 0 = 0.
Proof. rewrite tanh_exp, Rmult_0_r, exp_0. lra. Qed.

Lemma tanh_le x y : x <= y -> tanh x <= tanh y.
Proof.
  intros Hxy. rewrite !tanh_exp.
  pose proof (exp_pos (2 * x)) as Hx.
  assert (Hexp : exp (2 * x) <= exp (2 * y)).
  { destruct Hxy as [Hlt | ->]; [left; apply exp_increasing; lra | right; reflexivity]. }
  assert (/ (exp (2 * y) + 1) <= / (exp (2 * x) + 1)).
  { apply Rinv_le_contravar; lra. }
  unfold Rdiv. lra.
Qed.

Lemma tanh_nonneg x : 0 <= x -> 0 <= tanh x.
Proof. intros Hx. rewrite <- tanh_0. now apply tanh_le. Qed.

(** The late-game schedule [1 - tanh(max(t, 0) / h)] lies in (0, 1]. *)
Lemma schedule_bounds x h : 0 < h -> 0 < 1 - tanh (Rmax x 0 / h) <= 1.
Proof.
  intros Hh. split.
  - pose proof (tanh_lt_1 (Rmax x 0 / h)). lra.
  - assert (0 <= tanh (Rmax x 0 / h)); [| lra].
    apply tanh_nonneg. apply Rmult_le_pos.
    + apply Rmax_r.
    + left. now apply Rinv_0_lt_compat.
Qed.

Lemma schedule_mono x y h :
  0 < h -> x <= y -> 1 - tanh (Rmax y 0 / h) <= 1 - tanh (Rmax x 0 / h).
Proof.
  intros Hh Hxy.
  assert (tanh (Rmax x 0 / h) <= tanh (Rmax y 0 / h)); [| lra].
  apply tanh_le. apply Rmult_le_compat_r.
  - left. now apply Rinv_0_lt_compat.
  - apply Rle_max_compat_r. exact Hxy.
Qed.

(** ** The logistic function *)

Lemma sigmoid_bounds x : 0 < sigmoid_value x < 1.
Proof.
  unfold sigmoid_value. pose proof (exp_pos (- x)) as H.
  split.
  - apply Rdiv_lt_0_compat; lra.
  - apply Rmult_lt_reg_r with (1 + exp (- x)); [lra |].
    unfold Rdiv. rewrite Rmult_assoc, Rinv_l by lra. lra.
Qed.

Lemma sigmoid_le x y : x <= y -> sigmoid_value x <= sigmoid_value y.
Proof.
  intros Hxy. unfold sigmoid_value.
  pose proof (exp_pos (- y)) as Hy.
  assert (exp (- y) <= exp (- x)).
  { destruct Hxy as [Hlt | ->]; [left; apply exp_increasing; lra | right; reflexivity]. }
  unfold Rdiv. rewrite !Rmult_1_l.
  apply Rinv_le_contravar; lra.
Qed.

(** ** Fair value *)

Lemma time_scale_pos x : 0 < 1 / sqrt (Rmax x 0 / 60 + 1).
Proof.
  apply Rdiv_lt_0_compat; [lra |].
  apply sqrt_lt_R0. pose proof (Rmax_r x 0). lra.
Qed.

Lemma win_prob_bounds s : 0.01 <= win_prob_value s <= 0.99.
Proof.
  unfold win_prob_value. cbv zeta. split.
  - apply Rmax_l.
  - apply Rmax_lub; [lra | apply Rmin_l].
Qed.

Lemma fair_bounds s : 1 <= fair_value s <= 99.
Proof. unfold fair_value. pose proof (win_prob_bounds s). lra. Qed.

Lemma win_prob_mono s1 s2 :
  t s1 = t s2 -> lead s1 <= lead s2 -> momentum s1 <= momentum s2 ->
  win_prob_value s1 <= win_prob_value s2.
Proof.
  intros Ht Hl Hm. unfold win_prob_value. cbv zeta. rewrite Ht.
  pose proof (time_scale_pos (t s2)) as Hsc.
  pose proof (schedule_bounds (t s2) 600 ltac:(lra)) as [Hlo _].
  set (sc := 1 / sqrt (Rmax (t s2) 0 / 60 + 1)) in *.
  set (boost := 1 + (1 - tanh (Rmax (t s2) 0 / 600))).
  assert (Hboost : 0 < boost) by (unfold boost; lra).
  apply Rle_max_compat_l. apply Rle_min_compat_l. apply sigmoid_le.
  assert (lead s1 * sc <= lead s2 * sc) by (apply Rmult_le_compat_r; lra).
  assert (momentum s1 * boost <= momentum s2 * boost)
    by (apply Rmult_le_compat_r; lra).
  lra.
Qed.

Lemma logit_mono s1 s2 :
  t s1 = t s2 -> lead s1 <= lead s2 -> momentum s1 <= momentum s2 ->
  logit s1 <= logit s2.
Proof.
  intros Ht Hl Hm. unfold logit. cbv zeta. rewrite Ht.
  pose proof (time_scale_pos (t s2)) as Hsc.
  pose proof (schedule_bounds (t s2) 600 ltac:(lra)) as [Hlo _].
  set (sc := 1 / sqrt (Rmax (t s2) 0 / 60 + 1)) in *.
  set (boost := 1 + (1 - tanh (Rmax (t s2) 0 / 600))).
  assert (Hboost : 0 < boost) by (unfold boost; lra).
  assert (lead s1 * sc <= lead s2 * sc) by (apply Rmult_le_compat_r; lra).
  assert (momentum s1 * boost <= momentum s2 * boost)
    by (apply Rmult_le_compat_r; lra).
  lra.
Qed.

(** ** Edge threshold (C9) *)

Lemma edge_threshold_eq s :
  _edge_threshold s = BASE_EDGE * (1 - 0.55 * (1 - tanh (Rmax (t s) 0 / 600))).
Proof.
  unfold _edge_threshold, BASE_EDGE. cbv zeta.
  pose proof (schedule_bounds (t s) 600 ltac:(lra)) as [Hlo Hhi].
  apply Rmax_right. lra.
Qed.

(** C9.  The threshold at an earlier remaining time is at most the threshold
    at a later one; it is the base 0.9 times a factor between 0.45 and 1 given
    by the tanh schedule over 600 units; and it is never below 0.2. *)
Theorem edge_threshold_schedule :
  (forall s1 s2, t s1 <= t s2 -> _edge_threshold s1 <= _edge_threshold s2) /\
  (forall s, _edge_threshold s
             = BASE_EDGE * (1 - 0.55 * (1 - tanh (Rmax (t s) 0 / 600)))
             /\ BASE_EDGE * (1 - 0.55) <= _edge_threshold s < BASE_EDGE) /\
  (forall s, 0.2 <= _edge_threshold s).
Proof.
  split; [| split].
  - intros s1 s2 Ht. rewrite !edge_threshold_eq. unfold BASE_EDGE.
    pose proof (schedule_mono (t s1) (t s2) 600 ltac:(lra) Ht). lra.
  - intros s. split; [apply edge_threshold_eq |].
    rewrite edge_threshold_eq. unfold BASE_EDGE.
    pose proof (schedule_bounds (t s) 600 ltac:(lra)). lra.
  - intros s. unfold _edge_threshold. cbv zeta. apply Rmax_l.
Qed.

(** ** Position sizing (C2) *)

Lemma urgency_bounds s : 1 < urgency s <= 2.
Proof.
  unfold urgency. pose proof (schedule_bounds (t s) 800 ltac:(lra)). lra.
Qed.

Lemma urgency_mono s1 s2 : t s1 <= t s2 -> urgency s2 <= urgency s1.
Proof.
  intros Ht. unfold urgency.
  pose proof (schedule_mono (t s1) (t s2) 800 ltac:(lra) Ht). lra.
Qed.

Lemma urgency_at_0 s : t s = 0 -> urgency s = 2.
Proof.
  intros Ht. unfold urgency. rewrite Ht.
  rewrite Rmax_left by lra.
  replace (0 / 800) with 0 by lra. rewrite tanh_0. lra.
Qed.

Lemma edge_factor_bounds e : 0.5 <= edge_factor e <= 2.
Proof.
  unfold edge_factor. pose proof (Rabs_pos e).
  pose proof (Rmin_l 1.5 (Rabs e / 2)).
  assert (0 <= Rmin 1.5 (Rabs e / 2)) by (apply Rmin_glb; lra).
  lra.
Qed.

Lemma edge_factor_saturates e : edge_factor e = 2 <-> 3 <= Rabs e.
Proof.
  unfold edge_factor. split; intros H.
  - destruct (Rle_dec 1.5 (Rabs e / 2)) as [Hle | Hgt]; [lra |].
    rewrite Rmin_right in H by lra. lra.
  - rewrite Rmin_left by lra. lra.
Qed.

Lemma size_base_ge_1 s p : 1 <= size_base s p.
Proof. apply Rmax_l. Qed.

Lemma size_base_plain s p :
  1 <= p -> p <= capital s * RISK_PCT -> size_base s p = capital s * RISK_PCT / p.
Proof.
  intros Hp Hb. unfold size_base. rewrite (Rmax_right 1 p) by lra.
  apply Rmax_right.
  apply Rmult_le_reg_r with p; [lra |].
  unfold Rdiv. rewrite Rmult_assoc, Rinv_l by lra. lra.
Qed.

Lemma raw_size_ge_half s e p : 0.5 <= size_base s p * edge_factor e * urgency s.
Proof.
  pose proof (size_base_ge_1 s p). pose proof (edge_factor_bounds e).
  pose proof (urgency_bounds s).
  assert (0.5 <= size_base s p * edge_factor e) by nra.
  nra.
Qed.

Lemma size_for_edge_eq s e p :
  0 < p ->
  _size_for_edge s e p
  = IZR (Zfloor (Rmin (size_base s p * edge_factor e * urgency s) (MAX_POS * 0.25))).
Proof.
  intros Hp. unfold _size_for_edge.
  replace (p <=? 0) with false by (symmetry; cmp_false).
  cbv zeta. fold (size_base s p) (edge_factor e) (urgency s).
  apply Rmax_right. apply IZR_le. apply Zfloor_lub.
  pose proof (raw_size_ge_half s e p). unfold MAX_POS.
  apply Rmin_glb; lra.
Qed.

Lemma size_for_edge_nonpos s e p : p <= 0 -> _size_for_edge s e p = 0.
Proof.
  intros Hp. unfold _size_for_edge.
  replace (p <=? 0) with true by (symmetry; cmp_true). reflexivity.
Qed.

(** C2, as the code has it.  A non-positive reference price gives 0.
    Otherwise the size is the floor of min(base * f * u, cap), where
    base = max(1, capital * 0.007 / max(1, p)) (which is capital * 0.007 / p
    whenever 1 <= p <= capital * 0.007), f = 0.5 + min(1.5, |e| / 2) lies in
    [0.5, 2] and equals 2 exactly when |e| >= 3, u = 1 + (1 - tanh(max(t, 0) /
    800)) lies in (1, 2] and does not decrease as the remaining time shrinks,
    and cap = 800 * 0.25 = 200. *)
Theorem size_for_edge_characterised (s : Strategy) (e p : R) :
  (p <= 0 -> _size_for_edge s e p = 0) /\
  (0 < p ->
   _size_for_edge s e p
   = IZR (Zfloor (Rmin (size_base s p * edge_factor e * urgency s) (MAX_POS * 0.25)))) /\
  (1 <= p -> p <= capital s * RISK_PCT ->
   size_base s p = capital s * RISK_PCT / p) /\
  0.5 <= edge_factor e <= 2 /\
  (edge_factor e = 2 <-> 3 <= Rabs e) /\
  1 < urgency s <= 2 /\
  (forall s', t s <= t s' -> urgency s' <= urgency s) /\
  MAX_POS * 0.25 = 200.
Proof.
  repeat split.
  - apply size_for_edge_nonpos.
  - apply size_for_edge_eq.
  - apply size_base_plain.
  - apply edge_factor_bounds.
  - apply edge_factor_bounds.
  - apply edge_factor_saturates.
  - apply edge_factor_saturates.
  - apply urgency_bounds.
  - apply urgency_bounds.
  - intros s'. apply urgency_mono.
  - unfold MAX_POS. lra.
Qed.

(** Evaluate [Rmax], [Rmin] and [Rabs] on arguments that [lra] can compare. *)
Ltac calc_R :=
  repeat match goal with
    | |- context [Rabs ?a] =>
        first [ rewrite (Rabs_pos_eq a) by lra | rewrite (Rabs_left1 a) by lra ]
    | |- context [Rmax ?a ?b] =>
        first [ rewrite (Rmax_left a b) by lra | rewrite (Rmax_right a b) by lra ]
    | |- context [Rmin ?a ?b] =>
        first [ rewrite (Rmin_left a b) by lra | rewrite (Rmin_right a b) by lra ]
    end;
  try lra.

Lemma Zfloor_IZR_eq (z : Z) (x : R) : x = IZR z -> IZR (Zfloor x) = IZR z.
Proof. intros ->. now rewrite ZfloorZ. Qed.

(** C2, counterexample.  With capital 100000 and no time left, an edge of 2.0
    against a reference price of 50 is sized 42 by the code (edge factor 1.5),
    where the rule as worded gives 56 (edge factor 2.0 at |edge| = 2.0); and
    with capital 1000, edge 0 and reference price 0.5 the code gives 7 where
    capital * 0.007 / price gives 14. *)
Lemma size_for_edge_counterexample :
  edge_factor 2 = 1.5 /\
  _size_for_edge (at_time 0) 2 50 = 42 /\
  spec_size_for_edge (at_time 0) 2 50 = 56 /\
  _size_for_edge (set_account (at_time 0) 1000 0) 0 0.5 = 7 /\
  spec_size_for_edge (set_account (at_time 0) 1000 0) 0 0.5 = 14 /\
  _size_for_edge (at_time 0) 2 50 <> spec_size_for_edge (at_time 0) 2 50.
Proof.
  assert (Hf : edge_factor 2 = 1.5) by (unfold edge_factor; calc_R).
  assert (Hu : urgency (at_time 0) = 2) by (apply urgency_at_0; reflexivity).
  assert (Hu' : urgency (set_account (at_time 0) 1000 0) = 2)
    by (apply urgency_at_0; reflexivity).
  assert (H42 : _size_for_edge (at_time 0) 2 50 = 42).
  { rewrite size_for_edge_eq by lra. rewrite Hf, Hu.
    apply Zfloor_IZR_eq.
    unfold size_base, MAX_POS, RISK_PCT. simpl capital. calc_R. }
  assert (H56 : spec_size_for_edge (at_time 0) 2 50 = 56).
  { unfold spec_size_for_edge.
    replace (50 <=? 0) with false by (symmetry; cmp_false).
    rewrite Hu. apply Zfloor_IZR_eq.
    unfold spec_edge_factor, MAX_POS, RISK_PCT. simpl capital. calc_R. }
  repeat split; trivial.
  - rewrite size_for_edge_eq by lra. rewrite Hu'.
    apply Zfloor_IZR_eq.
    unfold size_base, edge_factor, MAX_POS, RISK_PCT. simpl capital. calc_R.
  - unfold spec_size_for_edge.
    replace (0.5 <=? 0) with false by (symmetry; cmp_false).
    rewrite Hu'. apply Zfloor_IZR_eq.
    unfold spec_edge_factor, MAX_POS, RISK_PCT. simpl capital. calc_R.
  - rewrite H42, H56. lra.
Qed.

(** ** Time inference (C3) *)

Lemma infer_time_cases x s :
  t (infer_time (Some x) s)
  = if x <=? GAME_LEN1 + 1 then x
    else if x <=? GAME_LEN2 + 1 then Rmax (t s) x else t s.
Proof.
  unfold infer_time, GAME_LEN1, GAME_LEN2.
  destruct (x <=? 2400 + 1) eqn:H1; destruct (x <=? 2880 + 1) eqn:H2;
    reflect_cmp; simpl; try reflexivity; try lra.
  apply Rmax_left. lra.
Qed.

Lemma infer_time_frame ts s :
  let s' := infer_time ts s in
  _bids s' = _bids s /\ _asks s' = _asks s /\ capital s' = capital s /\
  pos s' = pos s /\ _start s' = _start s /\
  _work_bid s' = _work_bid s /\ _work_ask s' = _work_ask s /\
  _seen_event s' = _seen_event s /\ lead s' = lead s /\ momentum s' = momentum s.
Proof.
  destruct ts as [x |]; cbn; [| repeat split].
  destruct (x <=? GAME_LEN1 + 1), (x <=? GAME_LEN2 + 1); cbn; repeat split.
Qed.

Lemma update_scores_frame h a s :
  let s' := update_scores h a s in
  _bids s' = _bids s /\ _asks s' = _asks s /\ capital s' = capital s /\
  pos s' = pos s /\ _start s' = _start s /\ t s' = t s /\
  _work_bid s' = _work_bid s /\ _work_ask s' = _work_ask s.
Proof.
  unfold update_scores. destruct (_seen_event s); cbn; repeat split.
Qed.

(** ** The decision engine, case by case *)

Lemma same_but_handles_refl s : same_but_handles s s.
Proof. repeat split. Qed.

Lemma cancel_working_frame s : same_but_handles s (fst (_cancel_working s)).
Proof. repeat split. Qed.

Lemma mid_of_bests s bb aa :
  _best_bid s = Some bb -> _best_ask s = Some aa -> _mid s = Some (0.5 * (bb + aa)).
Proof. intros Hb Ha. unfold _mid. now rewrite Hb, Ha. Qed.

(** [_fair] raises exactly when [math.exp] overflows on the negated logit,
    and returns [fair_value] otherwise. *)
Lemma sigmoid_cases x :
  _sigmoid x = if FLOAT_MAX <? exp (- x) then None else Some (sigmoid_value x).
Proof. unfold _sigmoid, math_exp. now destruct (FLOAT_MAX <? exp (- x)). Qed.

Lemma win_prob_cases s :
  _win_prob s
  = if FLOAT_MAX <? exp (- logit s) then None else Some (win_prob_value s).
Proof.
  unfold _win_prob, win_prob_value, logit. cbv zeta. rewrite sigmoid_cases.
  now destruct (FLOAT_MAX <? exp _).
Qed.

Lemma fair_cases s :
  _fair s = if FLOAT_MAX <? exp (- logit s) then None else Some (fair_value s).
Proof.
  unfold _fair, fair_value. rewrite win_prob_cases.
  now destruct (FLOAT_MAX <? exp _).
Qed.

Lemma fair_Some s f : _fair s = Some f -> f = fair_value s.
Proof.
  rewrite fair_cases. destruct (FLOAT_MAX <? exp _); [discriminate |].
  now intros [= <-].
Qed.

Lemma fair_Some_bounds s f : _fair s = Some f -> 1 <= f <= 99.
Proof. intros H. rewrite (fair_Some s f H). apply fair_bounds. Qed.

Lemma float_max_ge_1 : 1 <= FLOAT_MAX.
Proof.
  unfold FLOAT_MAX.
  assert (H52 : 1 <= 2 ^ 52) by (apply pow_R1_Rle; lra).
  assert (H1023 : 1 <= 2 ^ 1023) by (apply pow_R1_Rle; lra).
  assert (Hi : / 2 ^ 52 <= 1).
  { rewrite <- Rinv_1. apply Rinv_le_contravar; lra. }
  assert (1 <= 2 - / 2 ^ 52) by lra.
  replace 1 with (1 * 1) by lra. apply Rmult_le_compat; lra.
Qed.

(** No overflow while the logit is not negative: [exp] is then at most 1. *)
Lemma fair_returns s : 0 <= logit s -> _fair s = Some (fair_value s).
Proof.
  intros H. rewrite fair_cases.
  replace (FLOAT_MAX <? exp (- logit s)) with false; [reflexivity |].
  symmetry. apply Rltb_false.
  pose proof float_max_ge_1.
  assert (exp (- logit s) <= 1); [| lra].
  rewrite <- exp_0. destruct (Req_dec (logit s) 0) as [-> | Hne].
  - rewrite Ropp_0. lra.
  - left. apply exp_increasing. lra.
Qed.

Lemma logit_nonneg s : 0 <= lead s -> 0 <= momentum s -> 0 <= logit s.
Proof.
  intros Hl Hm. unfold logit, HOME_ADV. cbv zeta.
  pose proof (time_scale_pos (t s)) as Hsc.
  pose proof (schedule_bounds (t s) 600 ltac:(lra)) as [Hlo _].
  set (sc := 1 / sqrt (Rmax (t s) 0 / 60 + 1)) in *.
  set (boost := 1 + (1 - tanh (Rmax (t s) 0 / 600))).
  assert (0 < boost) by (unfold boost; lra).
  assert (0 <= lead s * sc) by (apply Rmult_le_pos; lra).
  assert (0 <= momentum s * boost) by (apply Rmult_le_pos; lra).
  lra.
Qed.

Lemma fair_returns_ahead s :
  0 <= lead s -> 0 <= momentum s -> _fair s = Some (fair_value s).
Proof. intros Hl Hm. apply fair_returns. now apply logit_nonneg. Qed.

(** The shape of one evaluation: nothing at all (also when [_fair] raises),
    a late unwind, a cross, or the passive stage. *)
Lemma try_trade_inv now reply hi s s' cs :
  effects (_try_trade now reply hi s) = (s', cs) ->
  (s' = s /\ cs = []) \/
  exists bb aa,
    _best_bid s = Some bb /\ _best_ask s = Some aa /\
    (INIT_COOLDOWN <= now - _start s /\ _fair s = Some (fair_value s)) /\
    ((late_unwind s bb aa (fair_value s) = Some cs /\ s' = s) \/
     (late_unwind s bb aa (fair_value s) = None /\
      cross s ((Rmax 0 (aa - bb) <=? MAX_SPREAD_TO_CROSS) || hi) bb aa
            (0.5 * (bb + aa)) (fair_value s - aa) (bb - fair_value s) (_edge_threshold s)
      = Some (s', cs)) \/
     (late_unwind s bb aa (fair_value s) = None /\
      cross s ((Rmax 0 (aa - bb) <=? MAX_SPREAD_TO_CROSS) || hi) bb aa
            (0.5 * (bb + aa)) (fair_value s - aa) (bb - fair_value s) (_edge_threshold s)
      = None /\
      passive reply s bb aa (0.5 * (bb + aa)) (fair_value s - aa) (bb - fair_value s)
              (_edge_threshold s) = (s', cs))).
Proof.
  unfold _try_trade.
  destruct (now - _start s <? INIT_COOLDOWN) eqn:Hcool.
  { intros [= <- <-]. now left. }
  destruct (_best_bid s) as [bb |] eqn:Hbb; [| intros [= <- <-]; now left].
  destruct (_best_ask s) as [aa |] eqn:Haa; [| intros [= <- <-]; now left].
  rewrite (mid_of_bests s bb aa Hbb Haa). cbv zeta.
  destruct (_fair s) as [f |] eqn:Hf; [| intros [= <- <-]; now left].
  pose proof (fair_Some s f Hf) as ->.
  intros H. right. exists bb, aa. reflect_cmp.
  repeat split; trivial.
  destruct (late_unwind s bb aa (fair_value s)) as [cs' |] eqn:Hlate.
  { injection H as <- <-. now left. }
  right.
  destruct (cross s _ bb aa _ _ _ _) as [r |] eqn:Hcross.
  - left. cbn [effects] in H. subst r. now split.
  - right. now repeat split.
Qed.

(** How one evaluation ends: with an OverflowError, nothing changed and
    nothing issued, exactly when it gets as far as [_fair] and [_fair] raises. *)
Lemma try_trade_exit now reply hi s :
  (INIT_COOLDOWN <= now - _start s /\ _best_bid s <> None /\ _best_ask s <> None
   /\ _fair s = None /\ _try_trade now reply hi s = Raised (s, [])) \/
  ((now - _start s < INIT_COOLDOWN \/ _best_bid s = None \/ _best_ask s = None
    \/ _fair s <> None)
   /\ _try_trade now reply hi s = Returned (effects (_try_trade now reply hi s))).
Proof.
  unfold _try_trade.
  destruct (now - _start s <? INIT_COOLDOWN) eqn:Hcool; reflect_cmp.
  { right. split; [now left | reflexivity]. }
  destruct (_best_bid s) as [bb |] eqn:Hbb; [| right; split; [auto | reflexivity]].
  destruct (_best_ask s) as [aa |] eqn:Haa; [| right; split; [auto | reflexivity]].
  rewrite (mid_of_bests s bb aa Hbb Haa). cbv zeta.
  destruct (_fair s) as [f |] eqn:Hf.
  - right. split; [do 3 right; discriminate |].
    destruct (late_unwind s bb aa f); [reflexivity |].
    now destruct (cross s _ bb aa _ _ _ _).
  - left. repeat split; auto; discriminate.
Qed.

Lemma late_unwind_market s bb aa fair cs :
  late_unwind s bb aa fair = Some cs -> Forall (fun c => is_market c = true) cs.
Proof.
  unfold late_unwind.
  destruct (t s <? 60); [| discriminate].
  destruct ((0.5 <? pos s) && (fair <? bb)).
  { intros [= <-]. now repeat constructor. }
  destruct ((pos s <? -0.5) && (aa <? fair)); [| discriminate].
  intros [= <-]. now repeat constructor.
Qed.

(** A cross that fires. *)
Lemma cross_Some s allow bb aa md e_buy e_sell thr s' cs :
  cross s allow bb aa md e_buy e_sell thr = Some (s', cs) ->
  allow = true /\ s' = fst (_cancel_working s) /\
  ((thr < e_buy /\ pos s < MAX_POS /\ 1 <= buy_qty s e_buy md /\
    cs = snd (_cancel_working s)
           ++ [place_limit_order BUY TEAM_A (buy_qty s e_buy md) aa true]) \/
   (thr < e_sell /\ - MAX_POS < pos s /\ 1 <= sell_qty s e_sell md /\
    cs = snd (_cancel_working s)
           ++ [place_limit_order SELL TEAM_A (sell_qty s e_sell md) bb true])).
Proof.
  unfold cross.
  destruct (allow && (thr <? e_buy) && (pos s <? MAX_POS)
            && (1 <=? buy_qty s e_buy md)) eqn:Hb.
  { intros [= <- <-]. reflect_cmp. repeat split; trivial. left. now repeat split. }
  destruct (allow && (thr <? e_sell) && (- MAX_POS <? pos s)
            && (1 <=? sell_qty s e_sell md)) eqn:Hs; [| discriminate].
  intros [= <- <-]. reflect_cmp. repeat split; trivial. right. now repeat split.
Qed.

(** No cross fired: each cross condition fails. *)
Lemma cross_None s allow bb aa md e_buy e_sell thr :
  cross s allow bb aa md e_buy e_sell thr = None ->
  (allow && (thr <? e_buy) && (pos s <? MAX_POS) && (1 <=? buy_qty s e_buy md)) = false /\
  (allow && (thr <? e_sell) && (- MAX_POS <? pos s) && (1 <=? sell_qty s e_sell md)) = false.
Proof.
  unfold cross.
  destruct (allow && (thr <? e_buy) && (pos s <? MAX_POS)
            && (1 <=? buy_qty s e_buy md)); [discriminate |].
  destruct (allow && (thr <? e_sell) && (- MAX_POS <? pos s)
            && (1 <=? sell_qty s e_sell md)); [discriminate |].
  now split.
Qed.

(** The passive stage: a resting buy, a resting sell, only cancels, or nothing. *)
Lemma passive_inv reply s bb aa md e_buy e_sell thr s' cs :
  passive reply s bb aa md e_buy e_sell thr = (s', cs) ->
  (e_sell < e_buy /\ thr < e_buy /\ pos s < MAX_POS /\ 1 <= buy_qty s e_buy md /\
   (s', cs) = passive_buy reply s bb md e_buy /\
   cs = cancel_if (_work_bid s) ++ cancel_if (_work_ask s)
          ++ [place_limit_order BUY TEAM_A (buy_qty s e_buy md)
                                (_clamp_price (bb + PASSIVE_IMPROVE)) false]) \/
  (~ (e_sell < e_buy /\ thr < e_buy /\ pos s < MAX_POS) /\
   thr < e_sell /\ - MAX_POS < pos s /\ 1 <= sell_qty s e_sell md /\
   (s', cs) = passive_sell reply s aa md e_sell /\
   cs = cancel_if (_work_ask s) ++ cancel_if (_work_bid s)
          ++ [place_limit_order SELL TEAM_A (sell_qty s e_sell md)
                                (_clamp_price (aa - PASSIVE_IMPROVE)) false]) \/
  (Forall (fun c => is_cancel c = true) cs /\ same_but_handles s s').
Proof.
  unfold passive.
  destruct ((e_sell <? e_buy) && (thr <? e_buy) && (pos s <? MAX_POS)) eqn:Hb.
  - reflect_cmp. unfold passive_buy. cbv zeta.
    destruct (1 <=? buy_qty s e_buy md) eqn:Hq.
    + intros Heq. left. reflect_cmp. injection Heq as <- <-.
      repeat split; trivial.
    + intros [= <- <-]. right; right. split; [constructor | apply same_but_handles_refl].
  - assert (Hnb : ~ (e_sell < e_buy /\ thr < e_buy /\ pos s < MAX_POS)).
    { intros (H1 & H2 & H3).
      apply Rltb_true in H1, H2, H3. rewrite H1, H2, H3 in Hb. discriminate. }
    destruct ((thr <? e_sell) && (- MAX_POS <? pos s)) eqn:Hs.
    + reflect_cmp. unfold passive_sell. cbv zeta.
      destruct (1 <=? sell_qty s e_sell md) eqn:Hq.
      * intros Heq. right; left. reflect_cmp. injection Heq as <- <-.
        repeat split; trivial.
      * intros [= <- <-]. right; right.
        split; [constructor | apply same_but_handles_refl].
    + intros [= <- <-]. right; right. split.
      * unfold cancel_if. destruct (_work_bid s), (_work_ask s); repeat constructor.
      * apply cancel_working_frame.
Qed.

(** An evaluation never touches the book, the account or the game state. *)
Lemma try_trade_frame now reply hi s :
  same_but_handles s (fst (_try_trade now reply hi s)).
Proof.
  destruct (effects (_try_trade now reply hi s)) as [s' cs] eqn:H. cbn [fst].
  apply try_trade_inv in H.
  destruct H as [[-> _] | (bb & aa & _ & _ & _ & [[_ ->] | [[_ H] | (_ & _ & H)]])].
  - apply same_but_handles_refl.
  - apply same_but_handles_refl.
  - apply cross_Some in H. destruct H as (_ & -> & _). apply cancel_working_frame.
  - apply passive_inv in H.
    destruct H as [(_ & _ & _ & Hq & H & _) | [(_ & _ & _ & Hq & H & _) | [_ H]]];
      trivial.
    + unfold passive_buy in H. cbv zeta in H.
      replace (1 <=? buy_qty s (fair_value s - aa) (0.5 * (bb + aa))) with true in H
        by (symmetry; cmp_true).
      injection H as -> _. repeat split.
    + unfold passive_sell in H. cbv zeta in H.
      replace (1 <=? sell_qty s (bb - fair_value s) (0.5 * (bb + aa))) with true in H
        by (symmetry; cmp_true).
      injection H as -> _. repeat split.
Qed.

Lemma flatten_all_frame s : same_but_handles s (fst (_flatten_all s)).
Proof. unfold _flatten_all. cbn. repeat split. Qed.

(** The clock after a game event that is not END_GAME. *)
Lemma game_event_time now reply e s :
  event_type e <> "END_GAME"%string ->
  t (fst (on_game_event_update now reply e s)) = t (infer_time (time_seconds e) s).
Proof.
  intros Hty. unfold on_game_event_update. cbv zeta.
  apply String.eqb_neq in Hty. rewrite Hty.
  set (s1 := infer_time (time_seconds e) s).
  set (s2 := update_scores (home_score e) (away_score e) s1).
  assert (Ht2 : t s2 = t s1) by apply update_scores_frame.
  destruct (t s2 <=? CLOSE_OUT_BUFFER).
  - cbn [effects].
    pose proof (flatten_all_frame s2) as F. unfold same_but_handles in F.
    destruct F as (_ & _ & _ & _ & -> & _). exact Ht2.
  - pose proof (try_trade_frame now reply (high_impact_of e s2) s2) as F.
    unfold same_but_handles in F.
    destruct F as (_ & _ & _ & _ & -> & _). exact Ht2.
Qed.

(** C3, as the code has it.  For a game event other than END_GAME reporting
    time x: if x <= 2401 the stored time becomes x (whatever it was before);
    if 2401 < x <= 2881 it becomes the maximum of the stored time and x; if
    x > 2881 it is left as it was. *)
Theorem time_inference_rule now reply e s x :
  time_seconds e = Some x ->
  event_type e <> "END_GAME"%string ->
  let t' := t (fst (on_game_event_update now reply e s)) in
  (x <= GAME_LEN1 + 1 -> t' = x) /\
  (GAME_LEN1 + 1 < x <= GAME_LEN2 + 1 -> t' = Rmax (t s) x) /\
  (GAME_LEN2 + 1 < x -> t' = t s).
Proof.
  intros Hx Hty t'. unfold t'. clear t'.
  rewrite game_event_time by exact Hty. rewrite Hx, infer_time_cases.
  unfold GAME_LEN1, GAME_LEN2.
  repeat split; intros H.
  - replace (x <=? 2400 + 1) with true by (symmetry; cmp_true). reflexivity.
  - replace (x <=? 2400 + 1) with false by (symmetry; cmp_false).
    replace (x <=? 2880 + 1) with true by (symmetry; cmp_true). reflexivity.
  - replace (x <=? 2400 + 1) with false by (symmetry; cmp_false).
    replace (x <=? 2880 + 1) with false by (symmetry; cmp_false). reflexivity.
Qed.

(** C3, counterexample.  Right after a reset the stored time is 2880.  A
    SCORE event reporting 100 is plausible under both formats, and the stored
    time becomes 100, not the maximum of 2880 and 100. *)
Lemma time_inference_counterexample :
  100 <= GAME_LEN1 + 1 /\ 100 <= GAME_LEN2 + 1 /\
  t (reset_state 0) = 2880 /\
  t (fst (on_game_event_update 10 reply_1 (plain_event "SCORE" 0 0 (Some 100))
                               (reset_state 0))) = 100 /\
  t (fst (on_game_event_update 10 reply_1 (plain_event "SCORE" 0 0 (Some 100))
                               (reset_state 0)))
  <> Rmax (t (reset_state 0)) 100.
Proof.
  assert (H : t (fst (on_game_event_update 10 reply_1
                        (plain_event "SCORE" 0 0 (Some 100)) (reset_state 0))) = 100).
  { rewrite game_event_time by discriminate.
    cbn [plain_event time_seconds]. rewrite infer_time_cases.
    unfold GAME_LEN1.
    replace (100 <=? 2400 + 1) with true by (symmetry; cmp_true). reflexivity. }
  unfold GAME_LEN1, GAME_LEN2. repeat split; try lra; trivial.
  rewrite H. cbn [reset_state t]. unfold GAME_LEN2. calc_R.
Qed.

(** ** Account fills (C4) *)

Lemma on_account_update_eq ticker side price quantity cap s :
  let p := pos s + match side with BUY => quantity | SELL => - quantity end in
  on_account_update ticker side price quantity cap s
  = Returned
      (mkStrategy (_bids s) (_asks s) cap p (t s) (home s) (away s) (lead s)
         (momentum s) (_seen_event s) (_start s)
         (if 0 <? p then None else _work_bid s)
         (if p <? 0 then None else _work_ask s),
       (if 0 <? p then cancel_if (_work_bid s) else [])
         ++ (if p <? 0 then cancel_if (_work_ask s) else [])).
Proof.
  intros p. subst p. unfold on_account_update.
  destruct s as [b a c ps ts h aw l m se st wb wa].
  cbn [set_account pos _work_bid _work_ask _bids _asks capital t home away lead
       momentum _seen_event _start].
  set (p := ps + match side with BUY => quantity | SELL => - quantity end).
  destruct wb as [ob |], wa as [oa |];
    destruct (0 <? p) eqn:H1; cbn; destruct (p <? 0) eqn:H2; cbn;
    try reflexivity; reflect_cmp; lra.
Qed.

(** C4, as the code has it.  After an account update the position is the old
    one plus the quantity (buy) or minus it (sell).  If it is strictly
    positive, the working buy handle is cleared, with a cancel command when
    there was one, and the sell handle is left alone; if it is strictly
    negative, the same with the sides exchanged. *)
Theorem account_update_handles ticker side price quantity cap s :
  let r := on_account_update ticker side price quantity cap s in
  pos (fst r) = pos s + match side with BUY => quantity | SELL => - quantity end /\
  capital (fst r) = cap /\
  (0 < pos (fst r) ->
   _work_bid (fst r) = None /\ _work_ask (fst r) = _work_ask s /\
   snd r = cancel_if (_work_bid s)) /\
  (pos (fst r) < 0 ->
   _work_ask (fst r) = None /\ _work_bid (fst r) = _work_bid s /\
   snd r = cancel_if (_work_ask s)).
Proof.
  intros r. unfold r. clear r. rewrite on_account_update_eq. cbn [effects].
  cbn [fst snd pos capital _work_bid _work_ask].
  set (p := pos s + match side with BUY => quantity | SELL => - quantity end).
  split; [reflexivity |]. split; [reflexivity |].
  split; intros Hp.
  - replace (0 <? p) with true by (symmetry; cmp_true).
    replace (p <? 0) with false by (symmetry; cmp_false).
    repeat split. apply app_nil_r.
  - replace (0 <? p) with false by (symmetry; cmp_false).
    replace (p <? 0) with true by (symmetry; cmp_true).
    repeat split.
Qed.

(** C4, counterexample.  Flat, with working orders 5 (buy) and 7 (sell), a buy
    fill of 1 makes the position 1: the sell handle 7 is still tracked, and a
    cancel command is issued, for the buy order 5. *)
Lemma account_update_counterexample :
  pos working_both = 0 /\
  0 < pos (fst (on_account_update TEAM_A BUY 50 1 99950 working_both)) /\
  _work_ask (fst (on_account_update TEAM_A BUY 50 1 99950 working_both)) = Some 7%Z /\
  snd (on_account_update TEAM_A BUY 50 1 99950 working_both) = [cancel_order TEAM_A 5].
Proof.
  rewrite on_account_update_eq. cbn [effects].
  cbn [fst snd pos _work_ask _work_bid working_both set_work_ask set_work_bid
       reset_state].
  replace (0 <? 0 + 1) with true by (symmetry; cmp_true).
  replace (0 + 1 <? 0) with false by (symmetry; cmp_false).
  repeat split; try lra.
Qed.

(** ** END_GAME twice (C10) *)

Lemma flatten_all_small_pos s :
  Rabs (pos s) < 1 ->
  snd (_flatten_all s) = cancel_if (_work_bid s) ++ cancel_if (_work_ask s).
Proof.
  intros H. unfold _flatten_all. cbn.
  replace (1 <=? Rabs (pos s)) with false by (symmetry; cmp_false).
  apply app_nil_r.
Qed.

Lemma end_game_resets now reply e s :
  event_type e = "END_GAME"%string ->
  on_game_event_update now reply e s
  = Returned
      (reset_state now,
       snd (_flatten_all (update_scores (home_score e) (away_score e)
                                        (infer_time (time_seconds e) s)))).
Proof.
  intros Hty. unfold on_game_event_update. cbv zeta.
  rewrite Hty. cbn [String.eqb Ascii.eqb Bool.eqb]. cbn.
  reflexivity.
Qed.

(** C10.  [_flatten_all] issues no market order while the position is below 1
    in magnitude.  An END_GAME event leaves the reset state; a second END_GAME
    event right after it issues no command at all and leaves the reset state
    again: capital 100000, position 0, empty book, remaining time 2880,
    momentum 0 (only the cooldown start is read again from the clock). *)
Theorem end_game_twice now1 now2 reply1 reply2 e1 e2 s :
  event_type e1 = "END_GAME"%string ->
  event_type e2 = "END_GAME"%string ->
  (forall s0, Rabs (pos s0) < 1 ->
              Forall (fun c => is_market c = false) (snd (_flatten_all s0))) /\
  fst (on_game_event_update now1 reply1 e1 s) = reset_state now1 /\
  on_game_event_update now2 reply2 e2 (reset_state now1)
  = Returned (reset_state now2, []) /\
  capital (reset_state now2) = 100000 /\ pos (reset_state now2) = 0 /\
  _bids (reset_state now2) = [] /\ _asks (reset_state now2) = [] /\
  t (reset_state now2) = GAME_LEN2 /\ momentum (reset_state now2) = 0.
Proof.
  intros H1 H2. split; [| split; [| split]].
  - intros s0 Hs0. rewrite flatten_all_small_pos by exact Hs0.
    destruct (_work_bid s0), (_work_ask s0); repeat constructor.
  - now rewrite end_game_resets.
  - rewrite end_game_resets by exact H2. do 2 f_equal.
    rewrite flatten_all_small_pos.
    + pose proof (update_scores_frame (home_score e2) (away_score e2)
                    (infer_time (time_seconds e2) (reset_state now1))) as F.
      pose proof (infer_time_frame (time_seconds e2) (reset_state now1)) as G.
      cbv zeta in F, G.
      destruct F as (_ & _ & _ & _ & _ & _ & -> & ->).
      destruct G as (_ & _ & _ & _ & _ & -> & -> & _). reflexivity.
    + pose proof (update_scores_frame (home_score e2) (away_score e2)
                    (infer_time (time_seconds e2) (reset_state now1))) as F.
      pose proof (infer_time_frame (time_seconds e2) (reset_state now1)) as G.
      cbv zeta in F, G.
      destruct F as (_ & _ & _ & -> & _).
      destruct G as (_ & _ & _ & -> & _). cbn. calc_R.
  - repeat split.
Qed.

(** ** Close-out near the end (C6) *)

Lemma try_trade_no_bids now reply hi s :
  _bids s = [] -> _try_trade now reply hi s = Returned (s, []).
Proof.
  intros Hb. unfold _try_trade.
  destruct (now - _start s <? INIT_COOLDOWN); [reflexivity |].
  unfold _best_bid. rewrite Hb. reflexivity.
Qed.

Lemma try_trade_no_asks now reply hi s :
  _asks s = [] -> _try_trade now reply hi s = Returned (s, []).
Proof.
  intros Ha. unfold _try_trade.
  destruct (now - _start s <? INIT_COOLDOWN); [reflexivity |].
  unfold _best_ask. rewrite Ha. now destruct (_best_bid s).
Qed.

Lemma flatten_all_eq s :
  _flatten_all s
  = (set_work_ask (set_work_bid s None) None,
     cancel_if (_work_bid s) ++ cancel_if (_work_ask s)
       ++ (if 1 <=? Rabs (pos s)
           then [place_market_order (if 0 <? pos s then SELL else BUY) TEAM_A
                                    (IZR (Zfloor (Rabs (pos s))))]
           else [])).
Proof.
  unfold _flatten_all, _cancel_working. rewrite <- app_assoc.
  do 3 f_equal.
  destruct (1 <=? Rabs (pos s)); [| reflexivity].
  destruct (0 <? pos s) eqn:Hp; reflect_cmp.
  - now rewrite Rabs_pos_eq by lra.
  - now rewrite Rabs_left1 by lra.
Qed.

Lemma close_out_flattens now reply e s :
  event_type e <> "END_GAME"%string ->
  t (infer_time (time_seconds e) s) <= CLOSE_OUT_BUFFER ->
  on_game_event_update now reply e s
  = Returned (_flatten_all (update_scores (home_score e) (away_score e)
                                          (infer_time (time_seconds e) s))).
Proof.
  intros Hty Ht. unfold on_game_event_update. cbv zeta.
  apply String.eqb_neq in Hty. rewrite Hty.
  set (s1 := infer_time (time_seconds e) s) in *.
  set (s2 := update_scores (home_score e) (away_score e) s1).
  assert (Ht2 : t s2 = t s1) by apply update_scores_frame.
  replace (t s2 <=? CLOSE_OUT_BUFFER) with true by (symmetry; cmp_true).
  reflexivity.
Qed.

(** When the stored time after the event's own time inference is at most 2:
    in particular when it was at most 2 and the event reports no time, or
    when the event reports a time of at most 2. *)
Lemma close_out_due ts s :
  (ts = None /\ t s <= CLOSE_OUT_BUFFER) \/
  (exists x, ts = Some x /\ x <= CLOSE_OUT_BUFFER) ->
  t (infer_time ts s) <= CLOSE_OUT_BUFFER.
Proof.
  unfold CLOSE_OUT_BUFFER. intros [[-> H] | (x & -> & H)]; [exact H |].
  rewrite infer_time_cases. unfold GAME_LEN1.
  replace (x <=? 2400 + 1) with true by (symmetry; cmp_true). exact H.
Qed.

(** C6, as the code has it.  For a game event other than END_GAME after whose
    time inference the stored time is at most 2, the commands are: a cancel
    for each working order that exists (buy first), then, if the position is
    at least 1 in magnitude, one market order on the closing side for the
    floor of that magnitude.  No limit order is placed, and the state is not
    reset: book, capital, position and cooldown start are kept, the clock and
    the scores are those of the event, and both handles are cleared. *)
Theorem close_out_on_game_event now reply e s :
  event_type e <> "END_GAME"%string ->
  t (infer_time (time_seconds e) s) <= CLOSE_OUT_BUFFER ->
  let r := on_game_event_update now reply e s in
  snd r = cancel_if (_work_bid s) ++ cancel_if (_work_ask s)
            ++ (if 1 <=? Rabs (pos s)
                then [place_market_order (if 0 <? pos s then SELL else BUY) TEAM_A
                                         (IZR (Zfloor (Rabs (pos s))))]
                else []) /\
  Forall (fun c => is_limit c = false) (snd r) /\
  _bids (fst r) = _bids s /\ _asks (fst r) = _asks s /\
  capital (fst r) = capital s /\ pos (fst r) = pos s /\
  _start (fst r) = _start s /\
  t (fst r) = t (infer_time (time_seconds e) s) /\
  home (fst r) = home_score e /\ away (fst r) = away_score e /\
  _work_bid (fst r) = None /\ _work_ask (fst r) = None.
Proof.
  intros Hty Ht r. unfold r. clear r.
  rewrite close_out_flattens by assumption. cbn [effects]. rewrite flatten_all_eq.
  pose proof (update_scores_frame (home_score e) (away_score e)
                (infer_time (time_seconds e) s)) as F.
  pose proof (infer_time_frame (time_seconds e) s) as G.
  cbv zeta in F, G.
  destruct F as (Fb & Fa & Fc & Fp & Fs & Ft & Fwb & Fwa).
  destruct G as (Gb & Ga & Gc & Gp & Gs & Gwb & Gwa & _).
  cbn [fst snd]. rewrite Fp, Gp, Fwb, Gwb, Fwa, Gwa.
  split; [reflexivity |]. split.
  { apply Forall_app. split; [| apply Forall_app; split].
    - destruct (_work_bid s); repeat constructor.
    - destruct (_work_ask s); repeat constructor.
    - destruct (1 <=? Rabs (pos s)); repeat constructor. }
  cbn. rewrite Fb, Gb, Fa, Ga, Fc, Gc, Fp, Gp, Fs, Gs, Ft.
  repeat split; unfold update_scores;
    destruct (_seen_event (infer_time (time_seconds e) s)); reflexivity.
Qed.

(** C6, counterexample.  Long 5 with 1.5 units left.  A SCORE event reporting
    2000 arrives: the stored time becomes 2000, the close-out does not fire
    and, the book being empty, no command at all is issued.  A book delta
    (bid 50 for 10) arrives instead: the evaluation runs, finds no ask and
    issues nothing.  Either way the position of 5 is not flattened. *)
Lemma close_out_counterexample :
  t late_long <= CLOSE_OUT_BUFFER /\ 1 <= Rabs (pos late_long) /\
  event_type (plain_event "SCORE" 0 0 (Some 2000)) <> "END_GAME"%string /\
  snd (on_game_event_update 10 reply_1 (plain_event "SCORE" 0 0 (Some 2000)) late_long)
  = [] /\
  snd (on_orderbook_update 10 reply_1 TEAM_A BUY 10 50 late_long) = [].
Proof.
  split; [unfold CLOSE_OUT_BUFFER; cbn; lra |].
  split; [cbn; calc_R |]. split; [discriminate |]. split.
  - unfold on_game_event_update. cbv zeta.
    cbn [plain_event event_type time_seconds home_score away_score].
    replace (String.eqb "SCORE" "END_GAME") with false by reflexivity.
    set (s1 := infer_time (Some 2000) late_long).
    set (s2 := update_scores 0 0 s1).
    destruct (update_scores_frame 0 0 s1) as (Fb & _ & _ & _ & _ & Ft & _).
    destruct (infer_time_frame (Some 2000) late_long) as (Gb & _).
    fold s1 in Gb. fold s2 in Fb, Ft.
    assert (Ht : t s2 = 2000).
    { rewrite Ft. unfold s1. rewrite infer_time_cases. unfold GAME_LEN1.
      replace (2000 <=? 2400 + 1) with true by (symmetry; cmp_true). reflexivity. }
    rewrite Ht.
    replace (2000 <=? CLOSE_OUT_BUFFER) with false
      by (symmetry; unfold CLOSE_OUT_BUFFER; cmp_false).
    rewrite try_trade_no_bids; [reflexivity |].
    rewrite Fb, Gb. reflexivity.
  - unfold on_orderbook_update. cbn [Ticker_eqb negb].
    rewrite try_trade_no_asks; [reflexivity |].
    unfold apply_update. cbv zeta.
    replace (10 <=? 0) with false by (symmetry; cmp_false). reflexivity.
Qed.

(** ** The book *)

Lemma Reqb_refl x : Reqb x x = true.
Proof. now apply Reqb_true. Qed.

Lemma best_bid_with_book s bid ask : _best_bid (with_book s bid ask) = Some bid.
Proof.
  unfold _best_bid, first_level, MIN_QTY_LVL. cbn.
  rewrite Reqb_refl.
  replace (1 <=? 1) with true by (symmetry; cmp_true). reflexivity.
Qed.

Lemma best_ask_with_book s bid ask : _best_ask (with_book s bid ask) = Some ask.
Proof.
  unfold _best_ask, first_level, MIN_QTY_LVL. cbn.
  rewrite Reqb_refl.
  replace (1 <=? 1) with true by (symmetry; cmp_true). reflexivity.
Qed.

Lemma in_insert_asc x y l : In x (insert_asc y l) -> x = y \/ In x l.
Proof.
  induction l as [| z l IH]; cbn.
  - intros [<- | []]. now left.
  - destruct (y <=? z); cbn.
    + intros [<- | H]; [now left | now right].
    + intros [<- | H]; [right; now left |].
      destruct (IH H) as [-> | H']; [now left | right; now right].
Qed.

Lemma in_sorted x l : In x (sorted l) -> In x l.
Proof.
  induction l as [| y l IH]; cbn; [trivial |].
  intros H. apply in_insert_asc in H. destruct H as [-> | H]; [now left |].
  right. now apply IH.
Qed.

Lemma first_level_in d ps p : first_level d ps = Some p -> In p ps.
Proof. unfold first_level. intros H. now apply find_some in H. Qed.

Lemma key_in_range (d : Book) p :
  Forall (fun kv => 0 <= fst kv <= 100) d -> In p (keys d) -> 0 <= p <= 100.
Proof.
  intros Hd Hp. unfold keys in Hp. apply in_map_iff in Hp.
  destruct Hp as (kv & <- & Hin).
  rewrite Forall_forall in Hd. now apply Hd.
Qed.

(** The best prices of a book in range are in range. *)
Lemma best_bid_in_range s bb :
  book_in_range s -> _best_bid s = Some bb -> 0 <= bb <= 100.
Proof.
  intros [Hb _] H. unfold _best_bid in H.
  destruct (_bids s) as [| kv d] eqn:E; [discriminate |].
  apply first_level_in in H. unfold sorted_reverse in H.
  apply in_rev in H. apply in_sorted in H.
  now apply key_in_range with (d := kv :: d).
Qed.

Lemma best_ask_in_range s aa :
  book_in_range s -> _best_ask s = Some aa -> 0 <= aa <= 100.
Proof.
  intros [_ Ha] H. unfold _best_ask in H.
  destruct (_asks s) as [| kv d] eqn:E; [discriminate |].
  apply first_level_in in H. apply in_sorted in H.
  now apply key_in_range with (d := kv :: d).
Qed.

Lemma clamp_price_range p : 0 <= _clamp_price p <= 100.
Proof.
  unfold _clamp_price. split.
  - apply Rmin_glb; [lra | apply Rmax_l].
  - apply Rmin_l.
Qed.

Lemma clamp_price_id p : 0 <= p <= 100 -> _clamp_price p = p.
Proof. intros H. unfold _clamp_price. calc_R. Qed.

Lemma dict_set_in_range d p q :
  Forall (fun kv => 0 <= fst kv <= 100) d -> 0 <= p <= 100 ->
  Forall (fun kv => 0 <= fst kv <= 100) (dict_set d p q).
Proof.
  intros Hd Hp. induction d as [| [k q'] d IH]; cbn.
  - constructor; [exact Hp | constructor].
  - inversion Hd as [| ? ? Hk Hd']; subst.
    destruct (Reqb k p); constructor; auto.
Qed.

Lemma dict_pop_in_range d p :
  Forall (fun kv => 0 <= fst kv <= 100) d ->
  Forall (fun kv => 0 <= fst kv <= 100) (dict_pop d p).
Proof.
  intros Hd. unfold dict_pop. rewrite Forall_forall in *.
  intros kv Hin. apply filter_In in Hin. now apply Hd.
Qed.

Lemma load_side_in_range levels :
  Forall (fun kv => 0 <= fst kv <= 100) (load_side levels).
Proof.
  unfold load_side.
  assert (H : forall d, Forall (fun kv => 0 <= fst kv <= 100) d ->
    Forall (fun kv => 0 <= fst kv <= 100)
      (fold_left (fun d pq => if MIN_QTY_LVL <=? snd pq
                              then dict_set d (_clamp_price (fst pq)) (snd pq)
                              else d) levels d)).
  { induction levels as [| pq levels IH]; cbn; intros d Hd; [exact Hd |].
    apply IH. destruct (MIN_QTY_LVL <=? snd pq); [| exact Hd].
    apply dict_set_in_range; [exact Hd | apply clamp_price_range]. }
  apply H. constructor.
Qed.

(** The book stays in range: it is after a reset, and every callback keeps it. *)
Lemma book_in_range_reset now : book_in_range (reset_state now).
Proof. split; constructor. Qed.

Lemma book_in_range_frame s s' :
  same_but_handles s s' -> book_in_range s -> book_in_range s'.
Proof.
  intros (Hb & Ha & _) [H1 H2]. unfold book_in_range. now rewrite Hb, Ha.
Qed.

Lemma book_in_range_update now reply ticker side q p s :
  book_in_range s -> book_in_range (fst (on_orderbook_update now reply ticker side q p s)).
Proof.
  intros [Hb Ha]. unfold on_orderbook_update. destruct ticker. cbn [Ticker_eqb negb].
  apply book_in_range_frame with (s := apply_update side q p s);
    [apply try_trade_frame |].
  unfold apply_update. cbv zeta.
  pose proof (clamp_price_range p) as Hp.
  destruct side; destruct (q <=? 0); split; cbn;
    auto using dict_set_in_range, dict_pop_in_range.
Qed.

Lemma book_in_range_snapshot now reply ticker bids asks s :
  book_in_range s ->
  book_in_range (fst (on_orderbook_snapshot now reply ticker bids asks s)).
Proof.
  intros _. unfold on_orderbook_snapshot. destruct ticker. cbn [Ticker_eqb negb].
  apply book_in_range_frame with (s := apply_snapshot bids asks s);
    [apply try_trade_frame |].
  split; cbn; apply load_side_in_range.
Qed.

Lemma book_in_range_account ticker side price q cap s :
  book_in_range s ->
  book_in_range (fst (on_account_update ticker side price q cap s)).
Proof. intros H. rewrite on_account_update_eq. cbn [effects]. exact H. Qed.

Lemma book_in_range_game_event now reply e s :
  book_in_range s -> book_in_range (fst (on_game_event_update now reply e s)).
Proof.
  intros H. unfold on_game_event_update. cbv zeta.
  set (s2 := update_scores _ _ _).
  assert (H2 : book_in_range s2).
  { destruct (update_scores_frame (home_score e) (away_score e)
                (infer_time (time_seconds e) s)) as (Fb & Fa & _).
    destruct (infer_time_frame (time_seconds e) s) as (Gb & Ga & _).
    destruct H as [Hb Ha]. unfold book_in_range, s2. now rewrite Fb, Fa, Gb, Ga. }
  destruct (String.eqb (event_type e) "END_GAME").
  - destruct (_flatten_all s2). apply book_in_range_reset.
  - destruct (t s2 <=? CLOSE_OUT_BUFFER).
    + apply book_in_range_frame with (s := s2); [apply flatten_all_frame | exact H2].
    + apply book_in_range_frame with (s := s2); [apply try_trade_frame | exact H2].
Qed.

(** ** Control flow of the callbacks (C1) *)

Lemma edge_threshold_pos s : 0.2 <= _edge_threshold s.
Proof. unfold _edge_threshold. cbv zeta. apply Rmax_l. Qed.

(** With the best bid at most 1 and the best ask at least 99 there is no edge
    on either side: away from the last minute the evaluation only cancels. *)
Lemma try_trade_no_edge now reply hi s bb aa f :
  INIT_COOLDOWN <= now - _start s ->
  _best_bid s = Some bb -> _best_ask s = Some aa ->
  _fair s = Some f ->
  60 <= t s -> bb <= 1 -> 99 <= aa ->
  _try_trade now reply hi s = Returned (_cancel_working s).
Proof.
  intros Hcool Hbb Haa Hfair Ht Hb Ha. unfold _try_trade.
  replace (now - _start s <? INIT_COOLDOWN) with false by (symmetry; cmp_false).
  rewrite Hbb, Haa, (mid_of_bests s bb aa Hbb Haa), Hfair. cbv zeta.
  pose proof (fair_Some_bounds s f Hfair) as Hf.
  pose proof (edge_threshold_pos s) as Hthr.
  unfold late_unwind.
  replace (t s <? 60) with false by (symmetry; cmp_false).
  unfold cross, passive.
  replace (_edge_threshold s <? f - aa) with false by (symmetry; cmp_false).
  replace (_edge_threshold s <? bb - f) with false by (symmetry; cmp_false).
  rewrite !andb_false_r. cbn [andb]. reflexivity.
Qed.

(** C1, as the code has it.  The book-delta and snapshot callbacks write the
    book and then always run the evaluation (not high-impact).  A game event
    other than END_GAME, with more than 2 units left after its time
    inference, updates the game state and then runs the evaluation with its
    high-impact flag.  The trade-print callback does nothing.  The account
    callback stores capital and position and issues cancels only; it runs no
    evaluation.  An evaluation leaves book, account and game state alone. *)
Theorem callbacks_control_flow now reply s :
  (forall ticker side q p,
      on_orderbook_update now reply ticker side q p s
      = _try_trade now reply false (apply_update side q p s)) /\
  (forall ticker bids asks,
      on_orderbook_snapshot now reply ticker bids asks s
      = _try_trade now reply false (apply_snapshot bids asks s)) /\
  (forall e,
      event_type e <> "END_GAME"%string ->
      CLOSE_OUT_BUFFER < t (infer_time (time_seconds e) s) ->
      on_game_event_update now reply e s
      = _try_trade now reply
          (high_impact_of e (update_scores (home_score e) (away_score e)
                                           (infer_time (time_seconds e) s)))
          (update_scores (home_score e) (away_score e)
                         (infer_time (time_seconds e) s))) /\
  (forall ticker side q p, on_trade_update ticker side q p s = Returned (s, [])) /\
  (forall ticker side p q cap,
      Forall (fun c => is_cancel c = true)
             (snd (on_account_update ticker side p q cap s)) /\
      capital (fst (on_account_update ticker side p q cap s)) = cap /\
      pos (fst (on_account_update ticker side p q cap s))
      = pos s + match side with BUY => q | SELL => - q end) /\
  (forall hi, same_but_handles s (fst (_try_trade now reply hi s))).
Proof.
  split; [| split; [| split; [| split; [| split]]]].
  - intros [] side q p. reflexivity.
  - intros [] bids asks. reflexivity.
  - intros e Hty Ht. unfold on_game_event_update. cbv zeta.
    apply String.eqb_neq in Hty. rewrite Hty.
    set (s1 := infer_time (time_seconds e) s) in *.
    set (s2 := update_scores (home_score e) (away_score e) s1).
    assert (Ht2 : t s2 = t s1) by apply update_scores_frame.
    replace (t s2 <=? CLOSE_OUT_BUFFER) with false by (symmetry; cmp_false).
    reflexivity.
  - reflexivity.
  - intros ticker side p q cap. rewrite on_account_update_eq. cbn [effects]. cbn [fst snd capital pos].
    repeat split.
    apply Forall_app. split.
    + destruct (0 <? _); [destruct (_work_bid s) |]; repeat constructor.
    + destruct (_ <? 0); [destruct (_work_ask s) |]; repeat constructor.
  - intros hi. apply try_trade_frame.
Qed.

(** C1, counterexample.  With working orders 5 and 7 and a book of bid 0 and
    ask 100, an evaluation would cancel both orders; the trade-print callback
    issues nothing and leaves both handles in place. *)
Lemma trade_print_counterexample :
  snd (_try_trade 10 reply_1 false quiet_book)
  = [cancel_order TEAM_A 5; cancel_order TEAM_A 7] /\
  on_trade_update TEAM_A BUY 1 50 quiet_book = Returned (quiet_book, []) /\
  snd (on_trade_update TEAM_A BUY 1 50 quiet_book)
  <> snd (_try_trade 10 reply_1 false quiet_book).
Proof.
  assert (H : _try_trade 10 reply_1 false quiet_book
              = Returned (_cancel_working quiet_book)).
  { apply try_trade_no_edge with (bb := 0) (aa := 100) (f := fair_value quiet_book).
    - unfold INIT_COOLDOWN. cbn. lra.
    - apply best_bid_with_book.
    - apply best_ask_with_book.
    - apply fair_returns_ahead; cbn; lra.
    - cbn. unfold GAME_LEN2. lra.
    - lra.
    - lra. }
  rewrite H. cbn. repeat split. discriminate.
Qed.

(** ** Where a limit order comes from *)

Lemma not_in_cancel_if side tk q px ioc w :
  ~ In (place_limit_order side tk q px ioc) (cancel_if w).
Proof. destruct w; cbn; [intros [H | []]; discriminate | intros []]. Qed.

Lemma in_market_not_limit side tk q px ioc cs :
  Forall (fun c => is_market c = true) cs ->
  ~ In (place_limit_order side tk q px ioc) cs.
Proof.
  intros H Hin. rewrite Forall_forall in H. apply H in Hin. discriminate.
Qed.

Lemma in_cancel_not_limit side tk q px ioc cs :
  Forall (fun c => is_cancel c = true) cs ->
  ~ In (place_limit_order side tk q px ioc) cs.
Proof.
  intros H Hin. rewrite Forall_forall in H. apply H in Hin. discriminate.
Qed.

Lemma in_app_single (c x : Command) l : In c (l ++ [x]) -> In c l \/ c = x.
Proof.
  intros H. apply in_app_or in H. destruct H as [H | [H | []]]; [now left | now right].
Qed.

Lemma not_in_cancel_working side tk q px ioc s :
  ~ In (place_limit_order side tk q px ioc) (snd (_cancel_working s)).
Proof.
  cbn. intros H. apply in_app_or in H.
  destruct H as [H | H]; now apply not_in_cancel_if in H.
Qed.

(** Every limit order of an evaluation is the IOC order of a cross that fired
    or the resting order of the passive stage, under the tests written there. *)
Lemma limit_order_origin now reply hi s side q px ioc :
  In (place_limit_order side TEAM_A q px ioc) (snd (_try_trade now reply hi s)) ->
  exists bb aa,
    _best_bid s = Some bb /\ _best_ask s = Some aa /\
    _fair s = Some (fair_value s) /\
    let md := 0.5 * (bb + aa) in
    let e_buy := fair_value s - aa in
    let e_sell := bb - fair_value s in
    let thr := _edge_threshold s in
    let allow := (Rmax 0 (aa - bb) <=? MAX_SPREAD_TO_CROSS) || hi in
    (side = BUY /\ ioc = true /\ allow = true /\ thr < e_buy /\ pos s < MAX_POS /\
     q = buy_qty s e_buy md /\ 1 <= q /\ px = aa /\
     _try_trade now reply hi s
     = Returned
         (fst (_cancel_working s),
          snd (_cancel_working s) ++ [place_limit_order BUY TEAM_A q px true])) \/
    (side = SELL /\ ioc = true /\ allow = true /\ thr < e_sell /\ - MAX_POS < pos s /\
     q = sell_qty s e_sell md /\ 1 <= q /\ px = bb /\
     _try_trade now reply hi s
     = Returned
         (fst (_cancel_working s),
          snd (_cancel_working s) ++ [place_limit_order SELL TEAM_A q px true])) \/
    (side = BUY /\ ioc = false /\ allow = false /\
     e_sell < e_buy /\ thr < e_buy /\ pos s < MAX_POS /\
     q = buy_qty s e_buy md /\ 1 <= q /\ px = _clamp_price (bb + PASSIVE_IMPROVE) /\
     _try_trade now reply hi s
     = Returned
         (set_work_bid (set_work_ask s None)
                       (new_handle (_work_bid s) (reply BUY q px)),
          cancel_if (_work_bid s) ++ cancel_if (_work_ask s)
            ++ [place_limit_order BUY TEAM_A q px false])) \/
    (side = SELL /\ ioc = false /\ allow = false /\
     thr < e_sell /\ - MAX_POS < pos s /\
     q = sell_qty s e_sell md /\ 1 <= q /\ px = _clamp_price (aa - PASSIVE_IMPROVE) /\
     _try_trade now reply hi s
     = Returned
         (set_work_ask (set_work_bid s None)
                       (new_handle (_work_ask s) (reply SELL q px)),
          cancel_if (_work_ask s) ++ cancel_if (_work_bid s)
            ++ [place_limit_order SELL TEAM_A q px false])).
Proof.
  destruct (effects (_try_trade now reply hi s)) as [s' cs] eqn:E. cbn [snd]. intros Hin.
  pose proof E as E0. apply try_trade_inv in E.
  destruct E as [[_ ->] | (bb & aa & Hbb & Haa & [_ Hfair] & E)]; [destruct Hin |].
  assert (HR : _try_trade now reply hi s = Returned (s', cs)).
  { destruct (try_trade_exit now reply hi s) as [(_ & _ & _ & Hn & _) | [_ HR]].
    - congruence.
    - rewrite HR, E0. reflexivity. }
  clear E0.
  exists bb, aa. split; [exact Hbb |]. split; [exact Haa |]. split; [exact Hfair |].
  cbv zeta.
  destruct E as [[E _] | [[_ E] | (_ & En & E)]].
  - apply late_unwind_market in E. now apply in_market_not_limit in Hin.
  - apply cross_Some in E.
    destruct E as (Hal & -> & [(H1 & H2 & H3 & ->) | (H1 & H2 & H3 & ->)]);
      apply in_app_single in Hin; destruct Hin as [Hin | Hin];
      try (now apply not_in_cancel_working in Hin).
    + injection Hin as -> -> ->. left. now repeat split.
    + injection Hin as -> -> ->. right; left. now repeat split.
  - apply cross_None in En. destruct En as [Enb Ens].
    apply passive_inv in E.
    destruct E as [(H1 & H2 & H3 & H4 & E & Hcs) | [(H0 & H2 & H3 & H4 & E & Hcs) | [E _]]].
    + rewrite Hcs in Hin. rewrite app_assoc in Hin.
      apply in_app_single in Hin. destruct Hin as [Hin | Hin].
      { apply in_app_or in Hin. destruct Hin as [Hin | Hin];
          now apply not_in_cancel_if in Hin. }
      injection Hin as -> -> ->. right; right; left.
      assert (Hal : (Rmax 0 (aa - bb) <=? MAX_SPREAD_TO_CROSS) || hi = false).
      { destruct ((Rmax 0 (aa - bb) <=? MAX_SPREAD_TO_CROSS) || hi); [| reflexivity].
        apply Rltb_true in H2, H3. apply Rleb_true in H4.
        rewrite H2, H3, H4 in Enb. discriminate. }
      repeat split; trivial.
      rewrite HR. apply f_equal. rewrite E. unfold passive_buy. cbv zeta.
      replace (1 <=? buy_qty s (fair_value s - aa) (0.5 * (bb + aa))) with true
        by (symmetry; cmp_true).
      reflexivity.
    + rewrite Hcs in Hin. rewrite app_assoc in Hin.
      apply in_app_single in Hin. destruct Hin as [Hin | Hin].
      { apply in_app_or in Hin. destruct Hin as [Hin | Hin];
          now apply not_in_cancel_if in Hin. }
      injection Hin as -> -> ->. right; right; right.
      assert (Hal : (Rmax 0 (aa - bb) <=? MAX_SPREAD_TO_CROSS) || hi = false).
      { destruct ((Rmax 0 (aa - bb) <=? MAX_SPREAD_TO_CROSS) || hi); [| reflexivity].
        apply Rltb_true in H2, H3. apply Rleb_true in H4.
        rewrite H2, H3, H4 in Ens. discriminate. }
      repeat split; trivial.
      rewrite HR. apply f_equal. rewrite E. unfold passive_sell. cbv zeta.
      replace (1 <=? sell_qty s (bb - fair_value s) (0.5 * (bb + aa))) with true
        by (symmetry; cmp_true).
      reflexivity.
    + now apply in_cancel_not_limit in Hin.
Qed.

(** ** Headroom of a single order (C5) *)

Lemma buy_qty_headroom s e md : pos s + buy_qty s e md <= MAX_POS.
Proof.
  unfold buy_qty. pose proof (Rmin_r (_size_for_edge s e md) (MAX_POS - pos s)). lra.
Qed.

Lemma sell_qty_headroom s e md : - MAX_POS <= pos s - sell_qty s e md.
Proof.
  unfold sell_qty. pose proof (Rmin_r (_size_for_edge s e md) (pos s + MAX_POS)). lra.
Qed.

Lemma Rabs_le_bounds a b : Rabs a <= b -> - b <= a <= b.
Proof.
  intros H. pose proof (Rle_abs a). pose proof (Rle_abs (- a)).
  rewrite Rabs_Ropp in *. lra.
Qed.

(** C5.  Every limit order an evaluation places, crossing or resting, has a
    quantity of at least 1 that is the sizing result clamped to the headroom
    left on its side: min(size, 800 - position) for a buy, min(size,
    position + 800) for a sell.  So the position after a full fill is at most
    800 (buy) or at least -800 (sell), and if the position was within the cap
    before, it is within the cap after. *)
Theorem single_order_within_cap now reply hi s side q px ioc :
  In (place_limit_order side TEAM_A q px ioc) (snd (_try_trade now reply hi s)) ->
  1 <= q /\
  (exists e md,
      q = Rmin (_size_for_edge s e md)
               (match side with BUY => MAX_POS - pos s | SELL => pos s + MAX_POS end)) /\
  match side with
  | BUY => pos s + q <= MAX_POS
  | SELL => - MAX_POS <= pos s - q
  end /\
  (Rabs (pos s) <= MAX_POS ->
   Rabs (match side with BUY => pos s + q | SELL => pos s - q end) <= MAX_POS).
Proof.
  intros Hin. apply limit_order_origin in Hin.
  destruct Hin as (bb & aa & _ & _ & _ & H). cbv zeta in H.
  assert (Hside :
    (side = BUY /\ 1 <= q /\ exists e md, q = buy_qty s e md) \/
    (side = SELL /\ 1 <= q /\ exists e md, q = sell_qty s e md)).
  { destruct H as [H | [H | [H | H]]].
    - destruct H as (-> & _ & _ & _ & _ & Hq & H1 & _). left. eauto.
    - destruct H as (-> & _ & _ & _ & _ & Hq & H1 & _). right. eauto.
    - destruct H as (-> & _ & _ & _ & _ & _ & Hq & H1 & _). left. eauto.
    - destruct H as (-> & _ & _ & _ & _ & Hq & H1 & _). right. eauto. }
  clear H.
  destruct Hside as [(-> & H1 & e & md & ->) | (-> & H1 & e & md & ->)].
  - pose proof (buy_qty_headroom s e md) as Hh.
    split; [exact H1 |]. split; [now exists e, md |]. split; [exact Hh |].
    intros Hp. apply Rabs_le. apply Rabs_le_bounds in Hp. lra.
  - pose proof (sell_qty_headroom s e md) as Hh.
    split; [exact H1 |]. split; [now exists e, md |]. split; [exact Hh |].
    intros Hp. apply Rabs_le. apply Rabs_le_bounds in Hp. lra.
Qed.

(** ** The passive stage (C7) *)

Lemma allow_false_spread hi bb aa :
  (Rmax 0 (aa - bb) <=? MAX_SPREAD_TO_CROSS) || hi = false ->
  MAX_SPREAD_TO_CROSS < aa - bb /\ hi = false.
Proof.
  intros H. apply orb_false_iff in H. destruct H as [H ->].
  apply Rleb_false in H. unfold MAX_SPREAD_TO_CROSS in *.
  split; [| reflexivity].
  destruct (Rle_dec 0 (aa - bb)).
  - rewrite Rmax_right in H by lra. exact H.
  - rewrite Rmax_left in H by lra. lra.
Qed.

Lemma new_handle_eq old r :
  new_handle old r
  = match r with
    | ReplyInt oid => if (0 <=? oid)%Z then Some oid else old
    | ReplyOther => old
    end.
Proof.
  unfold new_handle, valid_oid. destruct r as [oid |]; [| reflexivity].
  now destruct (0 <=? oid)%Z.
Qed.

(** C7.  In a state whose book prices are within [0, 100], a resting (non-IOC)
    limit order is placed only when [_fair] returned, no cross was allowed
    (spread above 2 and no high-impact flag), on the side whose edge is the
    larger, that edge being above the threshold and the position inside the
    cap on that side.  The order is sized like a crossing order and is at
    least 1.  The commands are then, in this order: [cancel_order] of the
    same-side working order if there is one, [cancel_order] of the
    opposite-side working order if there is one, and the order, priced 0.1
    above the best bid (buy) or 0.1 below the best ask (sell).  The opposite
    handle is cleared; the same-side handle becomes the returned identifier
    exactly when that is a non-negative int, and is kept as it was
    otherwise. *)
Theorem passive_order_rule now reply hi s side q px :
  book_in_range s ->
  In (place_limit_order side TEAM_A q px false) (snd (_try_trade now reply hi s)) ->
  exists bb aa fair,
    _best_bid s = Some bb /\ _best_ask s = Some aa /\ _fair s = Some fair /\
    MAX_SPREAD_TO_CROSS < aa - bb /\ hi = false /\
    let e_buy := fair - aa in
    let e_sell := bb - fair in
    let thr := _edge_threshold s in
    let r := _try_trade now reply hi s in
    match side with
    | BUY =>
        e_sell < e_buy /\ thr < e_buy /\ pos s < MAX_POS /\
        q = Rmin (_size_for_edge s e_buy (0.5 * (bb + aa))) (MAX_POS - pos s) /\
        1 <= q /\
        px = bb + PASSIVE_IMPROVE /\
        snd r = match _work_bid s with
                | Some oid => [cancel_order TEAM_A oid]
                | None => []
                end
                ++ match _work_ask s with
                   | Some oid => [cancel_order TEAM_A oid]
                   | None => []
                   end
                ++ [place_limit_order BUY TEAM_A q px false] /\
        _work_ask (fst r) = None /\
        _work_bid (fst r)
        = match reply BUY q px with
          | ReplyInt oid => if (0 <=? oid)%Z then Some oid else _work_bid s
          | ReplyOther => _work_bid s
          end
    | SELL =>
        e_buy < e_sell /\ thr < e_sell /\ - MAX_POS < pos s /\
        q = Rmin (_size_for_edge s e_sell (0.5 * (bb + aa))) (pos s + MAX_POS) /\
        1 <= q /\
        px = aa - PASSIVE_IMPROVE /\
        snd r = match _work_ask s with
                | Some oid => [cancel_order TEAM_A oid]
                | None => []
                end
                ++ match _work_bid s with
                   | Some oid => [cancel_order TEAM_A oid]
                   | None => []
                   end
                ++ [place_limit_order SELL TEAM_A q px false] /\
        _work_bid (fst r) = None /\
        _work_ask (fst r)
        = match reply SELL q px with
          | ReplyInt oid => if (0 <=? oid)%Z then Some oid else _work_ask s
          | ReplyOther => _work_ask s
          end
    end.
Proof.
  intros Hrange Hin. apply limit_order_origin in Hin.
  destruct Hin as (bb & aa & Hbb & Haa & Hfair & H). cbv zeta in H.
  exists bb, aa, (fair_value s).
  split; [exact Hbb |]. split; [exact Haa |]. split; [exact Hfair |].
  pose proof (best_bid_in_range s bb Hrange Hbb) as Rb.
  pose proof (best_ask_in_range s aa Hrange Haa) as Ra.
  pose proof (edge_threshold_pos s) as Hthr.
  destruct H as [H | [H | [H | H]]].
  - destruct H as (_ & Hioc & _). discriminate.
  - destruct H as (_ & Hioc & _). discriminate.
  - destruct H as (-> & _ & Hal & H1 & H2 & H3 & Hq & Hq1 & Hpx & E).
    apply allow_false_spread in Hal. destruct Hal as [Hsp Hhi].
    split; [exact Hsp |]. split; [exact Hhi |]. cbv zeta.
    unfold MAX_SPREAD_TO_CROSS, PASSIVE_IMPROVE in *.
    rewrite clamp_price_id in Hpx by lra.
    rewrite E. cbn [effects fst snd set_work_bid set_work_ask _work_bid _work_ask].
    rewrite <- new_handle_eq.
    repeat split; trivial.
  - destruct H as (-> & _ & Hal & H2 & H3 & Hq & Hq1 & Hpx & E).
    apply allow_false_spread in Hal. destruct Hal as [Hsp Hhi].
    split; [exact Hsp |]. split; [exact Hhi |]. cbv zeta.
    unfold MAX_SPREAD_TO_CROSS, PASSIVE_IMPROVE in *.
    rewrite clamp_price_id in Hpx by lra.
    rewrite E. cbn [effects fst snd set_work_bid set_work_ask _work_bid _work_ask].
    rewrite <- new_handle_eq.
    repeat split; trivial. lra.
Qed.

(** ** Evaluating the engine on given states *)

Lemma edge_threshold_range s : 0.405 <= _edge_threshold s < 0.9.
Proof.
  rewrite edge_threshold_eq. unfold BASE_EDGE.
  pose proof (schedule_bounds (t s) 600 ltac:(lra)). lra.
Qed.

Lemma exp_7_large : 128 < exp 7.
Proof.
  pose proof (exp_ineq1 1 ltac:(lra)) as H1.
  assert (H2 : 4 < exp 2).
  { replace 2 with (1 + 1) by lra. rewrite exp_plus. nra. }
  assert (H4 : 16 < exp 4).
  { replace 4 with (2 + 2) by lra. rewrite exp_plus. nra. }
  replace 7 with (4 + (2 + 1)) by lra. rewrite !exp_plus.
  assert (8 < exp 2 * exp 1) by nra. nra.
Qed.

Lemma sigmoid_saturates x : 7 <= x -> 0.99 <= sigmoid_value x.
Proof.
  intros Hx. apply Rle_trans with (sigmoid_value 7); [| now apply sigmoid_le].
  unfold sigmoid_value. rewrite exp_Ropp.
  pose proof exp_7_large as H.
  assert (Hi : / exp 7 < / 128) by (apply Rinv_lt_contravar; nra).
  assert (Hp : 0 < / exp 7) by (apply Rinv_0_lt_compat; lra).
  apply Rmult_le_reg_r with (1 + / exp 7); [lra |].
  unfold Rdiv. rewrite Rmult_assoc, Rinv_l by lra. lra.
Qed.

(** With no time left and no momentum the logit is 0.18 * lead + 0.2; from a
    lead of 38 on the fair value is pinned at 99. *)
Lemma fair_saturated s :
  t s = 0 -> momentum s = 0 -> 38 <= lead s -> fair_value s = 99.
Proof.
  intros Ht Hm Hl. unfold fair_value, win_prob_value. cbv zeta. rewrite Ht, Hm.
  rewrite (Rmax_left 0 0) by lra.
  replace (0 / 60 + 1) with 1 by lra. rewrite sqrt_1.
  unfold HOME_ADV.
  set (x := 0.18 * (lead s * (1 / 1)) + 0.20 * (1 * (1 / 1)) + 0.10 * (0 * _)).
  assert (Hx : 7 <= x) by (unfold x; lra).
  pose proof (sigmoid_saturates x Hx).
  rewrite Rmin_left by lra. rewrite Rmax_right by lra. lra.
Qed.

(** A base size of at least 400 always hits the cap of 200. *)
Lemma size_for_edge_capped s e p :
  0 < p -> 400 <= size_base s p -> _size_for_edge s e p = 200.
Proof.
  intros Hp Hb. rewrite size_for_edge_eq by exact Hp.
  pose proof (edge_factor_bounds e). pose proof (urgency_bounds s).
  assert (200 <= size_base s p * edge_factor e) by nra.
  assert (200 <= size_base s p * edge_factor e * urgency s) by nra.
  apply Zfloor_IZR_eq. unfold MAX_POS. rewrite Rmin_right by lra. lra.
Qed.

(** A cross on the buy side, away from the last minute. *)
Lemma try_trade_cross_buy now reply hi s bb aa f :
  INIT_COOLDOWN <= now - _start s ->
  _best_bid s = Some bb -> _best_ask s = Some aa ->
  _fair s = Some f ->
  60 <= t s ->
  Rmax 0 (aa - bb) <= MAX_SPREAD_TO_CROSS ->
  _edge_threshold s < f - aa ->
  pos s < MAX_POS ->
  1 <= buy_qty s (f - aa) (0.5 * (bb + aa)) ->
  _try_trade now reply hi s
  = Returned
      (fst (_cancel_working s),
       snd (_cancel_working s)
         ++ [place_limit_order BUY TEAM_A (buy_qty s (f - aa) (0.5 * (bb + aa))) aa true]).
Proof.
  intros Hcool Hbb Haa Hfair Ht Hsp He Hp Hq. unfold _try_trade.
  replace (now - _start s <? INIT_COOLDOWN) with false by (symmetry; cmp_false).
  rewrite Hbb, Haa, (mid_of_bests s bb aa Hbb Haa), Hfair. cbv zeta.
  unfold late_unwind.
  replace (t s <? 60) with false by (symmetry; cmp_false).
  unfold cross.
  replace (Rmax 0 (aa - bb) <=? MAX_SPREAD_TO_CROSS) with true by (symmetry; cmp_true).
  replace (_edge_threshold s <? f - aa) with true by (symmetry; cmp_true).
  replace (pos s <? MAX_POS) with true by (symmetry; cmp_true).
  replace (1 <=? buy_qty s (f - aa) (0.5 * (bb + aa))) with true
    by (symmetry; cmp_true).
  reflexivity.
Qed.

(** A resting buy, flat, with a spread too wide to cross. *)
Lemma try_trade_passive_buy now reply s bb aa f :
  INIT_COOLDOWN <= now - _start s ->
  _best_bid s = Some bb -> _best_ask s = Some aa ->
  _fair s = Some f ->
  pos s = 0 ->
  MAX_SPREAD_TO_CROSS < aa - bb ->
  _edge_threshold s < f - aa ->
  1 <= buy_qty s (f - aa) (0.5 * (bb + aa)) ->
  _try_trade now reply false s
  = Returned (passive_buy reply s bb (0.5 * (bb + aa)) (f - aa)).
Proof.
  intros Hcool Hbb Haa Hfair Hp Hsp He Hq. unfold _try_trade.
  replace (now - _start s <? INIT_COOLDOWN) with false by (symmetry; cmp_false).
  rewrite Hbb, Haa, (mid_of_bests s bb aa Hbb Haa), Hfair. cbv zeta.
  pose proof (edge_threshold_pos s) as Hthr.
  unfold MAX_SPREAD_TO_CROSS, MAX_POS in *.
  assert (Hlate : late_unwind s bb aa f = None).
  { unfold late_unwind. rewrite Hp.
    replace (0.5 <? 0) with false by (symmetry; cmp_false).
    replace (0 <? -0.5) with false by (symmetry; cmp_false).
    cbn [andb]. now destruct (t s <? 60). }
  rewrite Hlate.
  replace (Rmax 0 (aa - bb) <=? 2) with false
    by (symmetry; apply Rleb_false; rewrite Rmax_right by lra; lra).
  unfold cross. cbn [orb andb].
  unfold passive.
  replace (bb - f <? f - aa) with true by (symmetry; cmp_true).
  replace (_edge_threshold s <? f - aa) with true by (symmetry; cmp_true).
  replace (pos s <? MAX_POS) with true by (symmetry; unfold MAX_POS; cmp_true).
  reflexivity.
Qed.

Lemma cheap_ask_trade :
  _try_trade 10 reply_1 false cheap_ask
  = Returned (cheap_ask, [place_limit_order BUY TEAM_A 200 0.05 true]).
Proof.
  assert (Hq : buy_qty cheap_ask (fair_value cheap_ask - 0.05) (0.5 * (0 + 0.05)) = 200).
  { unfold buy_qty. rewrite size_for_edge_capped.
    - cbn [cheap_ask with_book set_asks set_bids reset_state pos]. unfold MAX_POS. calc_R.
    - lra.
    - unfold size_base, RISK_PCT. cbn [cheap_ask with_book set_asks set_bids
        reset_state capital]. calc_R. }
  rewrite (try_trade_cross_buy 10 reply_1 false cheap_ask 0 0.05 (fair_value cheap_ask)).
  - rewrite Hq. reflexivity.
  - unfold INIT_COOLDOWN. cbn. lra.
  - apply best_bid_with_book.
  - apply best_ask_with_book.
  - apply fair_returns_ahead; cbn; lra.
  - cbn. unfold GAME_LEN2. lra.
  - unfold MAX_SPREAD_TO_CROSS. calc_R.
  - pose proof (fair_bounds cheap_ask). pose proof (edge_threshold_range cheap_ask). lra.
  - cbn. unfold MAX_POS. lra.
  - rewrite Hq. lra.
Qed.

(** With no time left, 100000 of capital and no position, an edge of 44 at
    a mid of 50 is sized 56. *)
Lemma buy_qty_56 s :
  t s = 0 -> capital s = 100000 -> pos s = 0 ->
  buy_qty s (99 - 55) (0.5 * (45 + 55)) = 56.
Proof.
  intros Ht Hc Hp. unfold buy_qty. rewrite size_for_edge_eq by lra.
  rewrite urgency_at_0 by exact Ht.
  unfold size_base, edge_factor, RISK_PCT, MAX_POS. rewrite Hc, Hp.
  replace (Rmax 1 (0.5 * (45 + 55))) with 50 by calc_R.
  replace (Rmax 1 (100000 * 0.007 / 50)) with 14 by calc_R.
  replace (Rmin 1.5 (Rabs (99 - 55) / 2)) with 1.5 by calc_R.
  replace (Rmin (14 * (0.5 + 1.5) * 2) (800 * 0.25)) with 56 by calc_R.
  rewrite (Zfloor_IZR_eq 56 56 eq_refl). calc_R.
Qed.

(** The resting buy of a flat strategy with no time left, fair value 99,
    bid 45 and ask 55. *)
Lemma resting_buy_56 s :
  _start s = 0 -> _best_bid s = Some 45 -> _best_ask s = Some 55 ->
  t s = 0 -> momentum s = 0 -> 38 <= lead s ->
  capital s = 100000 -> pos s = 0 ->
  _fair s = Some 99 /\
  _try_trade 10 reply_1 false s
  = Returned
      (set_work_bid (set_work_ask s None) (Some 1%Z),
       cancel_if (_work_bid s) ++ cancel_if (_work_ask s)
         ++ [place_limit_order BUY TEAM_A 56 (45 + PASSIVE_IMPROVE) false]).
Proof.
  intros Hst Hbb Haa Ht Hm Hl Hc Hp.
  assert (Hf : _fair s = Some 99).
  { rewrite <- (fair_saturated s Ht Hm Hl). apply fair_returns_ahead; lra. }
  split; [exact Hf |].
  pose proof (buy_qty_56 s Ht Hc Hp) as Hq.
  rewrite (try_trade_passive_buy 10 reply_1 s 45 55 99).
  - unfold passive_buy. cbv zeta. rewrite Hq.
    replace (1 <=? 56) with true by (symmetry; cmp_true).
    unfold PASSIVE_IMPROVE. rewrite clamp_price_id by lra. reflexivity.
  - unfold INIT_COOLDOWN. rewrite Hst. lra.
  - exact Hbb.
  - exact Haa.
  - exact Hf.
  - exact Hp.
  - unfold MAX_SPREAD_TO_CROSS. lra.
  - pose proof (edge_threshold_range s). lra.
  - rewrite Hq. lra.
Qed.

Lemma strong_lead_trade :
  _try_trade 10 reply_1 false strong_lead
  = Returned (set_work_bid strong_lead (Some 1%Z),
              [place_limit_order BUY TEAM_A 56 (45 + PASSIVE_IMPROVE) false]).
Proof.
  apply (resting_buy_56 strong_lead); try reflexivity.
  - apply best_bid_with_book.
  - apply best_ask_with_book.
  - cbn. lra.
Qed.

Lemma strong_lead_working_trade :
  _try_trade 10 reply_1 false strong_lead_working
  = Returned (set_work_bid strong_lead (Some 1%Z),
              [cancel_order TEAM_A 5; cancel_order TEAM_A 7;
               place_limit_order BUY TEAM_A 56 (45 + PASSIVE_IMPROVE) false]).
Proof.
  apply (resting_buy_56 strong_lead_working); try reflexivity.
  - exact (best_bid_with_book (set_game (at_time 0) 40 0 40 0 true) 45 55).
  - exact (best_ask_with_book (set_game (at_time 0) 40 0 40 0 true) 45 55).
  - cbn. lra.
Qed.

(** ** Where [math.exp] overflows (C8) *)

Lemma exp_INR_mult n x : exp (INR n * x) = exp x ^ n.
Proof.
  induction n as [| n IH].
  - cbn. rewrite Rmult_0_l. apply exp_0.
  - rewrite S_INR, Rmult_plus_distr_r, Rmult_1_l, exp_plus, IH.
    cbn [pow]. apply Rmult_comm.
Qed.

Lemma exp_1_lower : 2637 / 1000 <= exp 1.
Proof.
  replace 1 with (INR 16 * / 16) by (cbn; lra).
  rewrite exp_INR_mult.
  apply Rle_trans with ((17 / 16) ^ 16).
  - cbn [pow]. lra.
  - apply pow_incr. split; [lra |].
    left. pose proof (exp_ineq1 (/ 16) ltac:(lra)). lra.
Qed.

Lemma pow_2_1024_lt : 2 ^ 1024 < (2637 / 1000) ^ 734.
Proof.
  apply Rmult_lt_reg_r with (1000 ^ 734).
  - apply pow_lt. lra.
  - rewrite <- (Rpow_mult_distr (2637 / 1000) 1000 734).
    replace (2637 / 1000 * 1000) with 2637 by lra.
    rewrite !pow_IZR, <- mult_IZR. apply IZR_lt.
    vm_compute. reflexivity.
Qed.

Lemma exp_734_large : 2 ^ 1024 < exp 734.
Proof.
  apply Rlt_le_trans with ((2637 / 1000) ^ 734); [apply pow_2_1024_lt |].
  replace (exp 734) with (exp (INR 734 * 1)).
  2:{ f_equal. rewrite INR_IZR_INZ. change (Z.of_nat 734) with 734%Z. lra. }
  rewrite exp_INR_mult. apply pow_incr.
  split; [lra | apply exp_1_lower].
Qed.

Lemma float_max_lt : FLOAT_MAX < 2 ^ 1024.
Proof.
  unfold FLOAT_MAX. rewrite <- (tech_pow_Rmult 2 1023).
  assert (0 < 2 ^ 1023) by (apply pow_lt; lra).
  assert (0 < / 2 ^ 52) by (apply Rinv_0_lt_compat, pow_lt; lra).
  nra.
Qed.

(** [math.exp] overflows from 734 on (the exact bound is about 709.78). *)
Lemma math_exp_overflows x : 734 <= x -> math_exp x = None.
Proof.
  intros Hx. unfold math_exp.
  replace (FLOAT_MAX <? exp x) with true; [reflexivity |].
  symmetry. apply Rltb_true.
  pose proof exp_734_large. pose proof float_max_lt.
  assert (exp 734 <= exp x); [| lra].
  destruct Hx as [Hlt | <-]; [left; now apply exp_increasing | right; reflexivity].
Qed.

Lemma fair_raises s : logit s <= -734 -> _fair s = None.
Proof.
  intros H. unfold _fair, _win_prob. cbv zeta. fold (logit s).
  unfold _sigmoid. rewrite math_exp_overflows by lra. reflexivity.
Qed.

Lemma fair_saturated_logit s : 7 <= logit s -> fair_value s = 99.
Proof.
  intros Hx. unfold fair_value, win_prob_value. cbv zeta. fold (logit s).
  pose proof (sigmoid_saturates (logit s) Hx).
  rewrite Rmin_left by lra. rewrite Rmax_right by lra. lra.
Qed.

(** The scale factor of [_win_prob] with 30 units left. *)
Lemma time_scale_30 : 0.816 <= 1 / sqrt (30 / 60 + 1) <= 1.
Proof.
  assert (Hu : sqrt (30 / 60 + 1) <= 1.225).
  { rewrite <- (sqrt_square 1.225) by lra. apply sqrt_le_1_alt. lra. }
  assert (Hl : 1 <= sqrt (30 / 60 + 1)).
  { rewrite <- sqrt_1 at 1. apply sqrt_le_1_alt. lra. }
  split.
  - apply Rle_trans with (1 / 1.225); [lra |].
    unfold Rdiv. rewrite !Rmult_1_l. apply Rinv_le_contravar; lra.
  - unfold Rdiv. rewrite Rmult_1_l. rewrite <- Rinv_1 at 2.
    apply Rinv_le_contravar; lra.
Qed.

Lemma logit_30 s :
  t s = 30 -> momentum s = 0 ->
  logit s = (0.18 * lead s + 0.2) * (1 / sqrt (30 / 60 + 1)).
Proof.
  intros Ht Hm. unfold logit, HOME_ADV. cbv zeta. rewrite Ht, Hm.
  rewrite (Rmax_left 30 0) by lra. lra.
Qed.

(** An evaluation that gets as far as [_fair] ends with what [_fair] raises. *)
Lemma try_trade_raises now reply hi s bb aa :
  INIT_COOLDOWN <= now - _start s ->
  _best_bid s = Some bb -> _best_ask s = Some aa -> _fair s = None ->
  _try_trade now reply hi s = Raised (s, []).
Proof.
  intros Hcool Hbb Haa Hf. unfold _try_trade.
  replace (now - _start s <? INIT_COOLDOWN) with false by (symmetry; cmp_false).
  now rewrite Hbb, Haa, (mid_of_bests s bb aa Hbb Haa), Hf.
Qed.

Lemma first_event_state h a s :
  _seen_event s = false ->
  t (update_scores h a (infer_time (Some 30) s)) = 30 /\
  lead (update_scores h a (infer_time (Some 30) s)) = IZR (h - a) /\
  momentum (update_scores h a (infer_time (Some 30) s)) = 0.
Proof.
  intros Hs.
  pose proof (infer_time_frame (Some 30) s) as F. cbv zeta in F.
  destruct F as (_ & _ & _ & _ & _ & _ & _ & Hseen & _).
  pose proof (update_scores_frame h a (infer_time (Some 30) s)) as G. cbv zeta in G.
  destruct G as (_ & _ & _ & _ & _ & Ht & _).
  split; [| split].
  - rewrite Ht, infer_time_cases. unfold GAME_LEN1.
    now replace (30 <=? 2400 + 1) with true by (symmetry; cmp_true).
  - unfold update_scores. rewrite Hseen, Hs. reflexivity.
  - unfold update_scores. rewrite Hseen, Hs. reflexivity.
Qed.

Lemma deficit_state_fields :
  t deficit_state = 30 /\ lead deficit_state = -5000 /\ momentum deficit_state = 0.
Proof.
  destruct (first_event_state 0 5000 open_book eq_refl) as (Ht & Hl & Hm).
  fold deficit_state in Ht, Hl, Hm.
  split; [exact Ht |]. split; [| exact Hm].
  rewrite Hl. change (IZR (0 - 5000)) with (IZR (-5000)). lra.
Qed.

Lemma deficit_state_fair : _fair deficit_state = None.
Proof.
  destruct deficit_state_fields as (Ht & Hl & Hm).
  pose proof time_scale_30 as Hsc.
  apply fair_raises. rewrite (logit_30 deficit_state Ht Hm), Hl. nra.
Qed.

Lemma deficit_event_raises :
  on_game_event_update 10 reply_1 deficit_event open_book = Raised (deficit_state, []).
Proof.
  destruct deficit_state_fields as (Ht & _).
  unfold on_game_event_update, deficit_event. cbv zeta.
  cbn [plain_event event_type time_seconds home_score away_score].
  change (String.eqb "SCORE" "END_GAME") with false. cbv iota. fold deficit_state.
  replace (t deficit_state <=? CLOSE_OUT_BUFFER) with false
    by (symmetry; apply Rleb_false; rewrite Ht; unfold CLOSE_OUT_BUFFER; lra).
  pose proof (infer_time_frame (Some 30) open_book) as F. cbv zeta in F.
  destruct F as (Fb & Fa & _ & _ & Fs & _).
  pose proof (update_scores_frame 0 5000 (infer_time (Some 30) open_book)) as G.
  cbv zeta in G. fold deficit_state in G. destruct G as (Gb & Ga & _ & _ & Gs & _).
  apply try_trade_raises with (bb := 45) (aa := 55).
  - rewrite Gs, Fs. unfold INIT_COOLDOWN. cbn. lra.
  - unfold _best_bid. rewrite Gb, Fb. apply (best_bid_with_book (reset_state 0) 45 55).
  - unfold _best_ask. rewrite Ga, Fa. apply (best_ask_with_book (reset_state 0) 45 55).
  - exact deficit_state_fair.
Qed.

(** C8.  The claim fails on the code.  A freshly reset strategy receives a
    snapshot with a bid of 45 and an ask of 55, and then a SCORE event with
    scores 0-5000 and 30 units left.  The logit is about -734.7, so
    [math.exp] overflows: [_fair] raises instead of returning a value
    between 0 and 100, and the callback ends with the OverflowError, time
    and scores stored and no command issued.  With the scores the other way
    round [_fair] returns 99.  So [_fair] does not return a value strictly
    between 0 and 100 in every state the callbacks reach. *)
Theorem fair_raises_on_large_deficit :
  fst (on_orderbook_snapshot 0 reply_1 TEAM_A [(45, 1)] [(55, 1)] (reset_state 0))
  = open_book /\
  t deficit_state = 30 /\ lead deficit_state = -5000 /\ momentum deficit_state = 0 /\
  _fair deficit_state = None /\
  on_game_event_update 10 reply_1 deficit_event open_book = Raised (deficit_state, []) /\
  _fair (update_scores 5000 0 (infer_time (Some 30) open_book)) = Some 99 /\
  ~ (forall s, exists f, _fair s = Some f /\ 0 < f < 100).
Proof.
  destruct deficit_state_fields as (Ht & Hl & Hm).
  destruct (first_event_state 5000 0 open_book eq_refl) as (Ht' & Hl' & Hm').
  set (s' := update_scores 5000 0 (infer_time (Some 30) open_book)) in *.
  pose proof time_scale_30 as Hsc.
  split; [| split; [exact Ht | split; [exact Hl | split; [exact Hm |]]]].
  - unfold on_orderbook_snapshot. cbn [Ticker_eqb negb]. unfold _try_trade.
    replace (0 - _start _ <? INIT_COOLDOWN) with true
      by (symmetry; apply Rltb_true; unfold INIT_COOLDOWN; cbn; lra).
    cbn [effects fst]. unfold apply_snapshot, load_side. cbn [fold_left fst snd].
    replace (MIN_QTY_LVL <=? 1) with true
      by (symmetry; apply Rleb_true; unfold MIN_QTY_LVL; lra).
    rewrite !clamp_price_id by lra. reflexivity.
  - split; [exact deficit_state_fair |]. split; [exact deficit_event_raises |]. split.
    + rewrite <- (fair_saturated_logit s').
      * apply fair_returns. rewrite (logit_30 s' Ht' Hm'), Hl'.
        change (IZR (5000 - 0)) with (IZR 5000). nra.
      * rewrite (logit_30 s' Ht' Hm'), Hl'.
        change (IZR (5000 - 0)) with (IZR 5000). nra.
    + intros H. destruct (H deficit_state) as (f & Hs & _).
      rewrite deficit_state_fair in Hs. discriminate.
Qed.

(** ** The statements on concrete inputs *)

(** A SCORE event reporting 2000 against the quiet book runs the evaluation. *)
Lemma callbacks_control_flow_witness :
  event_type (plain_event "SCORE" 2 0 (Some 2000)) <> "END_GAME"%string /\
  CLOSE_OUT_BUFFER
  < t (infer_time (time_seconds (plain_event "SCORE" 2 0 (Some 2000))) quiet_book) /\
  on_game_event_update 10 reply_1 (plain_event "SCORE" 2 0 (Some 2000)) quiet_book
  = _try_trade 10 reply_1
      (high_impact_of (plain_event "SCORE" 2 0 (Some 2000))
         (update_scores 2 0 (infer_time (Some 2000) quiet_book)))
      (update_scores 2 0 (infer_time (Some 2000) quiet_book)).
Proof.
  assert (H1 : event_type (plain_event "SCORE" 2 0 (Some 2000)) <> "END_GAME"%string)
    by discriminate.
  assert (H2 : CLOSE_OUT_BUFFER
               < t (infer_time (time_seconds (plain_event "SCORE" 2 0 (Some 2000)))
                               quiet_book)).
  { cbn [plain_event time_seconds]. rewrite infer_time_cases.
    unfold GAME_LEN1, CLOSE_OUT_BUFFER.
    replace (2000 <=? 2400 + 1) with true by (symmetry; cmp_true). lra. }
  split; [exact H1 |]. split; [exact H2 |].
  exact (proj1 (proj2 (proj2 (callbacks_control_flow 10 reply_1 quiet_book)))
           (plain_event "SCORE" 2 0 (Some 2000)) H1 H2).
Defined.

(** Sizing an edge of 2 at reference price 50 with no time left. *)
Lemma size_for_edge_characterised_witness :
  0 < 50 /\
  _size_for_edge (at_time 0) 2 50
  = IZR (Zfloor (Rmin (size_base (at_time 0) 50 * edge_factor 2 * urgency (at_time 0))
                      (MAX_POS * 0.25))).
Proof.
  assert (H : 0 < 50) by lra.
  split; [exact H |].
  exact (proj1 (proj2 (size_for_edge_characterised (at_time 0) 2 50)) H).
Defined.

(** A reported 2500 against a stored 2600: only the longer format is plausible. *)
Lemma time_inference_rule_witness :
  time_seconds (plain_event "SCORE" 2 0 (Some 2500)) = Some 2500 /\
  event_type (plain_event "SCORE" 2 0 (Some 2500)) <> "END_GAME"%string /\
  GAME_LEN1 + 1 < 2500 <= GAME_LEN2 + 1 /\
  t (fst (on_game_event_update 10 reply_1 (plain_event "SCORE" 2 0 (Some 2500))
                               (at_time 2600)))
  = Rmax (t (at_time 2600)) 2500.
Proof.
  assert (H1 : event_type (plain_event "SCORE" 2 0 (Some 2500)) <> "END_GAME"%string)
    by discriminate.
  assert (H2 : GAME_LEN1 + 1 < 2500 <= GAME_LEN2 + 1)
    by (unfold GAME_LEN1, GAME_LEN2; lra).
  split; [reflexivity |]. split; [exact H1 |]. split; [exact H2 |].
  exact (proj1 (proj2 (time_inference_rule 10 reply_1
                         (plain_event "SCORE" 2 0 (Some 2500)) (at_time 2600) 2500
                         eq_refl H1)) H2).
Defined.

(** A buy fill of 1 on a flat account with both handles set. *)
Lemma account_update_handles_witness :
  0 < pos (fst (on_account_update TEAM_A BUY 50 1 99950 working_both)) /\
  _work_bid (fst (on_account_update TEAM_A BUY 50 1 99950 working_both)) = None /\
  _work_ask (fst (on_account_update TEAM_A BUY 50 1 99950 working_both))
  = _work_ask working_both /\
  snd (on_account_update TEAM_A BUY 50 1 99950 working_both)
  = [cancel_order TEAM_A 5].
Proof.
  pose proof (account_update_handles TEAM_A BUY 50 1 99950 working_both) as H.
  cbv zeta in H. destruct H as (Hp & _ & Hpos & _).
  assert (H0 : 0 < pos (fst (on_account_update TEAM_A BUY 50 1 99950 working_both))).
  { rewrite Hp. cbn. lra. }
  split; [exact H0 |]. exact (Hpos H0).
Defined.

(** The IOC buy of 200 against an ask of 0.05, from flat. *)
Lemma single_order_within_cap_witness :
  In (place_limit_order BUY TEAM_A 200 0.05 true)
     (snd (_try_trade 10 reply_1 false cheap_ask)) /\
  1 <= 200 /\
  pos cheap_ask + 200 <= MAX_POS /\
  (Rabs (pos cheap_ask) <= MAX_POS -> Rabs (pos cheap_ask + 200) <= MAX_POS).
Proof.
  assert (H : In (place_limit_order BUY TEAM_A 200 0.05 true)
                 (snd (_try_trade 10 reply_1 false cheap_ask))).
  { rewrite cheap_ask_trade. now left. }
  split; [exact H |].
  destruct (single_order_within_cap 10 reply_1 false cheap_ask BUY 200 0.05 true H)
    as (H1 & _ & H2 & H3).
  split; [exact H1 |]. split; [exact H2 | exact H3].
Defined.

(** A FOUL event without a time, 1.5 units left, long 5 with working orders
    5 and 7: both are cancelled, then one market sell of 5. *)
Lemma close_out_on_game_event_witness :
  event_type (plain_event "FOUL" 3 2 None) <> "END_GAME"%string /\
  t (infer_time (time_seconds (plain_event "FOUL" 3 2 None)) late_long_working)
  <= CLOSE_OUT_BUFFER /\
  snd (on_game_event_update 10 reply_1 (plain_event "FOUL" 3 2 None) late_long_working)
  = [cancel_order TEAM_A 5; cancel_order TEAM_A 7; place_market_order SELL TEAM_A 5] /\
  pos (fst (on_game_event_update 10 reply_1 (plain_event "FOUL" 3 2 None)
                                 late_long_working))
  = 5.
Proof.
  assert (H1 : event_type (plain_event "FOUL" 3 2 None) <> "END_GAME"%string)
    by discriminate.
  assert (H2 : t (infer_time (time_seconds (plain_event "FOUL" 3 2 None))
                             late_long_working)
               <= CLOSE_OUT_BUFFER)
    by (unfold CLOSE_OUT_BUFFER; cbn; lra).
  split; [exact H1 |]. split; [exact H2 |].
  pose proof (close_out_on_game_event 10 reply_1 (plain_event "FOUL" 3 2 None)
                late_long_working H1 H2) as H.
  cbv zeta in H. destruct H as (Hc & _ & _ & _ & _ & Hp & _).
  split.
  - rewrite Hc.
    cbn [late_long_working late_long set_account at_time set_t reset_state pos
         set_work_bid set_work_ask _work_bid _work_ask cancel_if app].
    replace (1 <=? Rabs 5) with true
      by (symmetry; apply Rleb_true; rewrite Rabs_pos_eq; lra).
    replace (0 <? 5) with true by (symmetry; apply Rltb_true; lra).
    rewrite (Zfloor_IZR_eq 5 (Rabs 5)) by (rewrite Rabs_pos_eq; lra).
    reflexivity.
  - rewrite Hp. reflexivity.
Defined.

(** Working orders 5 (buy) and 7 (sell), spread 10 and fair value 99: both
    are cancelled, same side first, and a buy of 56 rests at 45.1. *)
Lemma passive_order_rule_witness :
  book_in_range strong_lead_working /\
  In (place_limit_order BUY TEAM_A 56 (45 + PASSIVE_IMPROVE) false)
     (snd (_try_trade 10 reply_1 false strong_lead_working)) /\
  snd (_try_trade 10 reply_1 false strong_lead_working)
  = [cancel_order TEAM_A 5; cancel_order TEAM_A 7;
     place_limit_order BUY TEAM_A 56 (45 + PASSIVE_IMPROVE) false] /\
  _work_ask (fst (_try_trade 10 reply_1 false strong_lead_working)) = None /\
  _work_bid (fst (_try_trade 10 reply_1 false strong_lead_working)) = Some 1%Z.
Proof.
  assert (H1 : book_in_range strong_lead_working).
  { split; cbn; repeat constructor; cbn; lra. }
  assert (H2 : In (place_limit_order BUY TEAM_A 56 (45 + PASSIVE_IMPROVE) false)
                  (snd (_try_trade 10 reply_1 false strong_lead_working))).
  { rewrite strong_lead_working_trade. right; right; now left. }
  split; [exact H1 |]. split; [exact H2 |].
  destruct (passive_order_rule 10 reply_1 false strong_lead_working BUY 56
              (45 + PASSIVE_IMPROVE) H1 H2)
    as (bb & aa & fair & _ & _ & _ & _ & _ & H).
  cbv zeta in H. destruct H as (_ & _ & _ & _ & _ & _ & Hcs & Hwa & Hwb).
  split; [exact Hcs |]. split; [exact Hwa | exact Hwb].
Defined.

(** The threshold with no time left against the threshold at 600 units. *)
Lemma edge_threshold_schedule_witness :
  t (at_time 0) <= t (at_time 600) /\
  _edge_threshold (at_time 0) <= _edge_threshold (at_time 600).
Proof.
  assert (H : t (at_time 0) <= t (at_time 600)) by (cbn; lra).
  split; [exact H |].
  exact (proj1 edge_threshold_schedule (at_time 0) (at_time 600) H).
Defined.

(** Two END_GAME events in a row, the first while long 5. *)
Lemma end_game_twice_witness :
  event_type (plain_event "END_GAME" 101 99 (Some 0)) = "END_GAME"%string /\
  fst (on_game_event_update 100 reply_1 (plain_event "END_GAME" 101 99 (Some 0))
                            late_long) = reset_state 100 /\
  on_game_event_update 101 reply_1 (plain_event "END_GAME" 101 99 (Some 0))
                       (reset_state 100) = Returned (reset_state 101, []).
Proof.
  assert (H : event_type (plain_event "END_GAME" 101 99 (Some 0)) = "END_GAME"%string)
    by reflexivity.
  split; [exact H |].
  destruct (end_game_twice 100 101 reply_1 reply_1 _ _ late_long H H)
    as (_ & H1 & H2 & _).
  split; [exact H1 | exact H2].
Defined.

(** * Further properties of the code *)

(** ** Price clamping *)

Lemma clamp_price_mono p q : p <= q -> _clamp_price p <= _clamp_price q.
Proof.
  intros H. unfold _clamp_price.
  apply Rle_min_compat_l. now apply Rle_max_compat_l.
Qed.

(** X1.  [_clamp_price] always lands in [0, 100], leaves prices of that range
    alone, sends anything below to 0 and anything above to 100, is monotone
    and clamping twice is clamping once. *)
Theorem clamp_price_props (p q : R) :
  0 <= _clamp_price p <= 100 /\
  _clamp_price (_clamp_price p) = _clamp_price p /\
  (0 <= p <= 100 -> _clamp_price p = p) /\
  (p <= 0 -> _clamp_price p = 0) /\
  (100 <= p -> _clamp_price p = 100) /\
  (p <= q -> _clamp_price p <= _clamp_price q).
Proof.
  split; [apply clamp_price_range |].
  split; [apply clamp_price_id, clamp_price_range |].
  split; [apply clamp_price_id |].
  split; [| split].
  - intros H. unfold _clamp_price. calc_R.
  - intros H. unfold _clamp_price. calc_R.
  - apply clamp_price_mono.
Qed.

(** ** Dict lookups after a write *)

Lemma dict_get_set_same d p q : dict_get (dict_set d p q) p = Some q.
Proof.
  induction d as [| [k q'] d IH]; cbn.
  - now rewrite Reqb_refl.
  - destruct (Reqb k p) eqn:E; cbn; rewrite E; [reflexivity | exact IH].
Qed.

Lemma dict_get_set_other d p q p' :
  p' <> p -> dict_get (dict_set d p q) p' = dict_get d p'.
Proof.
  intros Hne. induction d as [| [k q'] d IH]; cbn.
  - replace (Reqb p p') with false; [reflexivity |].
    symmetry. apply Reqb_false. congruence.
  - destruct (Reqb k p) eqn:E; cbn.
    + apply Reqb_true in E. subst k.
      replace (Reqb p p') with false; [reflexivity |].
      symmetry. apply Reqb_false. congruence.
    + destruct (Reqb k p'); [reflexivity | exact IH].
Qed.

Lemma dict_get_pop_same d p : dict_get (dict_pop d p) p = None.
Proof.
  unfold dict_pop. induction d as [| [k q'] d IH]; cbn; [reflexivity |].
  destruct (Reqb k p) eqn:E; cbn; [exact IH |]. now rewrite E.
Qed.

Lemma dict_get_pop_other d p p' :
  p' <> p -> dict_get (dict_pop d p) p' = dict_get d p'.
Proof.
  intros Hne. unfold dict_pop. induction d as [| [k q'] d IH]; cbn; [reflexivity |].
  destruct (Reqb k p) eqn:E; cbn.
  - apply Reqb_true in E. subst k.
    replace (Reqb p p') with false; [exact IH |].
    symmetry. apply Reqb_false. congruence.
  - destruct (Reqb k p'); [reflexivity | exact IH].
Qed.

Lemma apply_update_books side q p s :
  side_book side (apply_update side q p s)
  = (if q <=? 0 then dict_pop (side_book side s) (_clamp_price p)
     else dict_set (side_book side s) (_clamp_price p) q) /\
  side_book (opposite side) (apply_update side q p s) = side_book (opposite side) s.
Proof.
  unfold apply_update. cbv zeta. destruct side; destruct (q <=? 0); split; reflexivity.
Qed.

Lemma on_orderbook_update_books now reply ticker side q p s side' :
  side_book side' (fst (on_orderbook_update now reply ticker side q p s))
  = side_book side' (apply_update side q p s).
Proof.
  unfold on_orderbook_update. destruct ticker. cbn [Ticker_eqb negb].
  destruct (try_trade_frame now reply false (apply_update side q p s)) as (Hb & Ha & _).
  destruct side'; cbn [side_book]; assumption.
Qed.

(** X2.  After a book delta for [side] at price [p]: a positive quantity is
    what a lookup at the clamped price returns, a quantity of 0 or less
    leaves no level there, every other price of that side reads as before,
    and the other side of the book is untouched. *)
Theorem book_update_lookup now reply ticker side q p s (p' : R) :
  let s' := fst (on_orderbook_update now reply ticker side q p s) in
  (0 < q -> dict_get (side_book side s') (_clamp_price p) = Some q) /\
  (q <= 0 -> dict_get (side_book side s') (_clamp_price p) = None) /\
  (p' <> _clamp_price p ->
   dict_get (side_book side s') p' = dict_get (side_book side s) p') /\
  side_book (opposite side) s' = side_book (opposite side) s.
Proof.
  intros s'. unfold s'. clear s'. rewrite !on_orderbook_update_books.
  destruct (apply_update_books side q p s) as [-> ->].
  split; [| split; [| split]].
  - intros H. replace (q <=? 0) with false by (symmetry; cmp_false).
    apply dict_get_set_same.
  - intros H. replace (q <=? 0) with true by (symmetry; cmp_true).
    apply dict_get_pop_same.
  - intros H. destruct (q <=? 0).
    + now apply dict_get_pop_other.
    + now apply dict_get_set_other.
  - reflexivity.
Qed.

(** ** Best prices *)

Lemma insert_asc_in x l : forall y, In y (x :: l) -> In y (insert_asc x l).
Proof.
  induction l as [| z l IH]; cbn; intros y H; [exact H |].
  destruct (x <=? z); cbn; [exact H |].
  destruct H as [<- | [<- | H]].
  - right. apply IH. now left.
  - now left.
  - right. apply IH. now right.
Qed.

Lemma sorted_in x l : In x l -> In x (sorted l).
Proof.
  induction l as [| y l IH]; cbn; [trivial |].
  intros [<- | H]; apply insert_asc_in; [now left | right; auto].
Qed.

Lemma insert_asc_ascending x l : ascending l -> ascending (insert_asc x l).
Proof.
  induction l as [| z l IH]; cbn; intros H.
  - split; [intros y [] | exact I].
  - destruct H as [Hz Hl]. destruct (x <=? z) eqn:E; reflect_cmp; cbn.
    + split; [| split; assumption].
      intros y [<- | Hy]; [exact E |]. specialize (Hz y Hy). lra.
    + split; [| now apply IH].
      intros y Hy. apply in_insert_asc in Hy. destruct Hy as [-> | Hy]; [lra | auto].
Qed.

Lemma sorted_ascending l : ascending (sorted l).
Proof.
  induction l as [| x l IH]; cbn; [exact I | now apply insert_asc_ascending].
Qed.

Lemma find_app_split {A} (f : A -> bool) l1 l2 :
  find f (l1 ++ l2) = match find f l1 with Some x => Some x | None => find f l2 end.
Proof.
  induction l1 as [| a l1 IH]; cbn; [reflexivity |]. now destruct (f a).
Qed.

(** The first hit in an ascending list is the least hit. *)
Lemma find_ascending_least f l p :
  ascending l -> find f l = Some p ->
  forall x, In x l -> f x = true -> p <= x.
Proof.
  induction l as [| a l IH]; cbn; [discriminate |].
  intros [Ha Hl] Hf x Hx Hfx. destruct (f a) eqn:E.
  - injection Hf as <-. destruct Hx as [<- | Hx]; [lra | auto].
  - destruct Hx as [<- | Hx]; [congruence |]. now apply IH.
Qed.

(** The first hit in the reversed list is the greatest hit. *)
Lemma find_rev_greatest f l p :
  ascending l -> find f (rev l) = Some p ->
  forall x, In x l -> f x = true -> x <= p.
Proof.
  induction l as [| a l IH]; cbn [rev]; [discriminate |].
  intros [Ha Hl] Hf x Hx Hfx. rewrite find_app_split in Hf.
  destruct (find f (rev l)) as [p' |] eqn:E.
  - injection Hf as <-.
    destruct Hx as [<- | Hx]; [| now apply IH].
    apply Ha. apply find_some in E. destruct E as [E _]. now apply in_rev.
  - cbn in Hf. destruct (f a) eqn:Efa; [| discriminate]. injection Hf as <-.
    destruct Hx as [<- | Hx]; [lra |].
    pose proof (find_none _ _ E x) as Hn. rewrite <- in_rev in Hn.
    specialize (Hn Hx). congruence.
Qed.

Lemma dict_get_in_keys d p q : dict_get d p = Some q -> In p (keys d).
Proof.
  induction d as [| [k q'] d IH]; cbn; [discriminate |].
  destruct (Reqb k p) eqn:E.
  - apply Reqb_true in E. now left.
  - intros H. right. now apply IH.
Qed.

Lemma live_level_iff d p :
  live_level d p = true <-> exists q, dict_get d p = Some q /\ MIN_QTY_LVL <= q.
Proof.
  unfold live_level. destruct (dict_get d p) as [q |]; split.
  - intros H. apply Rleb_true in H. eauto.
  - intros (q' & [= <-] & H). now apply Rleb_true.
  - discriminate.
  - intros (q' & H & _). discriminate.
Qed.

Lemma best_bid_eq s :
  _best_bid s = find (live_level (_bids s)) (rev (sorted (keys (_bids s)))).
Proof. unfold _best_bid. now destruct (_bids s). Qed.

Lemma best_ask_eq s :
  _best_ask s = find (live_level (_asks s)) (sorted (keys (_asks s))).
Proof. unfold _best_ask. now destruct (_asks s). Qed.

(** X3.  The best bid, when there is one, is a bid level holding at least
    [MIN_QTY_LVL], and no bid level holding that much has a higher price.
    There is none exactly when every bid level holds less (in particular on
    an empty side). *)
Theorem best_bid_highest s :
  (forall bb, _best_bid s = Some bb ->
     (exists q, dict_get (_bids s) bb = Some q /\ MIN_QTY_LVL <= q) /\
     (forall p q, dict_get (_bids s) p = Some q -> MIN_QTY_LVL <= q -> p <= bb)) /\
  (_best_bid s = None <->
   forall p q, dict_get (_bids s) p = Some q -> q < MIN_QTY_LVL).
Proof.
  rewrite best_bid_eq. split.
  - intros bb H. split.
    + apply find_some in H. now apply live_level_iff.
    + intros p q Hq Hmin.
      apply (find_rev_greatest _ _ _ (sorted_ascending _) H).
      * apply sorted_in. now apply dict_get_in_keys with q.
      * apply live_level_iff. eauto.
  - split.
    + intros H p q Hq.
      assert (Hin : In p (rev (sorted (keys (_bids s))))).
      { rewrite <- in_rev. apply sorted_in. now apply dict_get_in_keys with q. }
      pose proof (find_none _ _ H p Hin) as Hn. unfold live_level in Hn.
      rewrite Hq in Hn. now apply Rleb_false in Hn.
    + intros H. destruct (find _ _) as [bb |] eqn:E; [| reflexivity].
      apply find_some in E. destruct E as [_ E].
      apply live_level_iff in E. destruct E as (q & Hq & Hmin).
      specialize (H bb q Hq). lra.
Qed.

(** X4.  The best ask, when there is one, is an ask level holding at least
    [MIN_QTY_LVL], and no ask level holding that much has a lower price.
    There is none exactly when every ask level holds less. *)
Theorem best_ask_lowest s :
  (forall aa, _best_ask s = Some aa ->
     (exists q, dict_get (_asks s) aa = Some q /\ MIN_QTY_LVL <= q) /\
     (forall p q, dict_get (_asks s) p = Some q -> MIN_QTY_LVL <= q -> aa <= p)) /\
  (_best_ask s = None <->
   forall p q, dict_get (_asks s) p = Some q -> q < MIN_QTY_LVL).
Proof.
  rewrite best_ask_eq. split.
  - intros aa H. split.
    + apply find_some in H. now apply live_level_iff.
    + intros p q Hq Hmin.
      apply (find_ascending_least _ _ _ (sorted_ascending _) H).
      * apply sorted_in. now apply dict_get_in_keys with q.
      * apply live_level_iff. eauto.
  - split.
    + intros H p q Hq.
      assert (Hin : In p (sorted (keys (_asks s)))).
      { apply sorted_in. now apply dict_get_in_keys with q. }
      pose proof (find_none _ _ H p Hin) as Hn. unfold live_level in Hn.
      rewrite Hq in Hn. now apply Rleb_false in Hn.
    + intros H. destruct (find _ _) as [aa |] eqn:E; [| reflexivity].
      apply find_some in E. destruct E as [_ E].
      apply live_level_iff in E. destruct E as (q & Hq & Hmin).
      specialize (H aa q Hq). lra.
Qed.

(** ** Snapshots *)

Lemma load_side_lookup_gen levels : forall d p,
  dict_get (fold_left (fun d pq => if MIN_QTY_LVL <=? snd pq
                                   then dict_set d (_clamp_price (fst pq)) (snd pq)
                                   else d) levels d) p
  = match find (snapshot_hit p) (rev levels) with
    | Some pq => Some (snd pq)
    | None => dict_get d p
    end.
Proof.
  induction levels as [| a l IH]; intros d p; cbn [fold_left rev]; [reflexivity |].
  rewrite IH, find_app_split.
  destruct (find (snapshot_hit p) (rev l)); [reflexivity |].
  cbn [find]. unfold snapshot_hit.
  destruct (MIN_QTY_LVL <=? snd a); cbn [andb]; [| reflexivity].
  destruct (Reqb (_clamp_price (fst a)) p) eqn:E.
  - apply Reqb_true in E. subst p. apply dict_get_set_same.
  - apply Reqb_false in E. apply dict_get_set_other. congruence.
Qed.

Lemma load_side_lookup levels p :
  dict_get (load_side levels) p
  = option_map snd (find (snapshot_hit p) (rev levels)).
Proof.
  unfold load_side. rewrite load_side_lookup_gen.
  now destruct (find (snapshot_hit p) (rev levels)).
Qed.

Lemma on_orderbook_snapshot_books now reply ticker bids asks s :
  _bids (fst (on_orderbook_snapshot now reply ticker bids asks s)) = load_side bids /\
  _asks (fst (on_orderbook_snapshot now reply ticker bids asks s)) = load_side asks.
Proof.
  unfold on_orderbook_snapshot. destruct ticker. cbn [Ticker_eqb negb].
  destruct (try_trade_frame now reply false (apply_snapshot bids asks s))
    as (Hb & Ha & _).
  now rewrite Hb, Ha.
Qed.

(** X5.  After a snapshot the book holds nothing of the previous one: a lookup
    at [p] on either side returns the quantity of the last entry of that
    side's list, among those with quantity at least [MIN_QTY_LVL] whose price
    clamps to [p], and nothing if there is no such entry.  So every level
    found holds at least [MIN_QTY_LVL] at a price within [0, 100]. *)
Theorem snapshot_lookup now reply ticker bids asks s side p :
  let s' := fst (on_orderbook_snapshot now reply ticker bids asks s) in
  let levels := match side with BUY => bids | SELL => asks end in
  dict_get (side_book side s') p
  = option_map snd (find (snapshot_hit p) (rev levels)) /\
  (forall q, dict_get (side_book side s') p = Some q ->
             MIN_QTY_LVL <= q /\ 0 <= p <= 100 /\
             exists p0, In (p0, q) levels /\ _clamp_price p0 = p).
Proof.
  intros s' levels.
  assert (E : dict_get (side_book side s') p
              = option_map snd (find (snapshot_hit p) (rev levels))).
  { unfold s', levels.
    destruct (on_orderbook_snapshot_books now reply ticker bids asks s) as [Hb Ha].
    destruct side; cbn [side_book]; rewrite ?Hb, ?Ha; apply load_side_lookup. }
  split; [exact E |].
  intros q Hq. rewrite E in Hq.
  destruct (find (snapshot_hit p) (rev levels)) as [[p0 q0] |] eqn:F; [| discriminate].
  cbn in Hq. injection Hq as ->.
  apply find_some in F. destruct F as [Hin F]. unfold snapshot_hit in F. cbn in F.
  apply andb_true_iff in F. destruct F as [F1 F2].
  apply Rleb_true in F1. apply Reqb_true in F2.
  split; [exact F1 |]. split; [rewrite <- F2; apply clamp_price_range |].
  exists p0. split; [now apply in_rev | exact F2].
Qed.

(** ** What every reachable state satisfies *)

Lemma in_keys_dict_set d p q x :
  In x (keys (dict_set d p q)) -> x = p \/ In x (keys d).
Proof.
  induction d as [| [k q'] d IH]; cbn.
  - intros [<- | []]. now left.
  - destruct (Reqb k p); cbn.
    + intros [<- | H]; right; [now left | now right].
    + intros [<- | H]; [right; now left |].
      destruct (IH H) as [-> | H']; [now left | right; now right].
Qed.

Lemma side_ok_nil : side_ok [].
Proof. split; constructor. Qed.

Lemma side_ok_set d p q :
  side_ok d -> 0 <= p <= 100 -> 0 < q -> side_ok (dict_set d p q).
Proof.
  intros [Hnd Hall] Hp Hq. split.
  - clear Hall. induction d as [| [k q'] d IH]; cbn.
    + constructor; [intros [] | constructor].
    + inversion Hnd as [| ? ? Hk Hd]; subst.
      destruct (Reqb k p) eqn:E; cbn; [exact Hnd |].
      constructor; [| now apply IH].
      intros Hin. apply in_keys_dict_set in Hin. destruct Hin as [-> | Hin].
      * apply Reqb_false in E. congruence.
      * contradiction.
  - clear Hnd. induction d as [| [k q'] d IH]; cbn.
    + constructor; [now split | constructor].
    + inversion Hall as [| ? ? Hk Hd]; subst. cbn in Hk.
      destruct (Reqb k p); constructor; cbn; auto. now split.
Qed.

Lemma side_ok_pop d p : side_ok d -> side_ok (dict_pop d p).
Proof.
  intros [Hnd Hall]. unfold dict_pop. split.
  - clear Hall. induction d as [| [k q'] d IH]; cbn; [constructor |].
    inversion Hnd as [| ? ? Hk Hd]; subst.
    destruct (negb (Reqb k p)); cbn; [| now apply IH].
    constructor; [| now apply IH].
    intros Hin. apply Hk. unfold keys in *. apply in_map_iff in Hin.
    destruct Hin as (kv & <- & Hin). apply filter_In in Hin.
    apply in_map. tauto.
  - rewrite Forall_forall in *. intros kv Hin. apply filter_In in Hin. now apply Hall.
Qed.

Lemma side_ok_load levels : side_ok (load_side levels).
Proof.
  unfold load_side.
  assert (H : forall d, side_ok d ->
    side_ok (fold_left (fun d pq => if MIN_QTY_LVL <=? snd pq
                                    then dict_set d (_clamp_price (fst pq)) (snd pq)
                                    else d) levels d)).
  { induction levels as [| pq levels IH]; cbn; intros d Hd; [exact Hd |].
    apply IH. destruct (MIN_QTY_LVL <=? snd pq) eqn:E; [| exact Hd].
    apply Rleb_true in E. unfold MIN_QTY_LVL in E.
    apply side_ok_set; [exact Hd | apply clamp_price_range | lra]. }
  apply H, side_ok_nil.
Qed.

Lemma state_ok_frame s s' : same_but_handles s s' -> state_ok s -> state_ok s'.
Proof.
  intros (Hb & Ha & _ & _ & Ht & Hh & Haw & Hl & _) (H1 & H2 & H3 & H4).
  unfold state_ok. now rewrite Hb, Ha, Ht, Hh, Haw, Hl.
Qed.

Lemma state_ok_reset now : state_ok (reset_state now).
Proof.
  repeat split; try constructor; cbn; unfold GAME_LEN2; lra.
Qed.

Lemma infer_time_bound ts s :
  t s <= GAME_LEN2 + 1 -> t (infer_time ts s) <= GAME_LEN2 + 1.
Proof.
  intros H. destruct ts as [x |]; [| exact H].
  rewrite infer_time_cases. unfold GAME_LEN1, GAME_LEN2 in *.
  destruct (x <=? 2400 + 1) eqn:E1; reflect_cmp; [lra |].
  destruct (x <=? 2880 + 1) eqn:E2; reflect_cmp; [| exact H].
  apply Rmax_lub; lra.
Qed.

Lemma state_ok_scores h a ts s :
  state_ok s -> state_ok (update_scores h a (infer_time ts s)).
Proof.
  intros (H1 & H2 & H3 & H4).
  destruct (update_scores_frame h a (infer_time ts s)) as (Fb & Fa & _ & _ & _ & Ft & _).
  destruct (infer_time_frame ts s) as (Gb & Ga & _).
  unfold state_ok. rewrite Fb, Fa, Gb, Ga, Ft.
  split; [exact H1 |]. split; [exact H2 |]. split; [now apply infer_time_bound |].
  unfold update_scores. now destruct (_seen_event (infer_time ts s)).
Qed.

Lemma deliver_state_ok d s : state_ok s -> state_ok (fst (deliver d s)).
Proof.
  intros Hs. unfold deliver. destruct (event d) as [tk sd q p | tk sd q p | tk sd p q c | e | tk bids asks].
  - exact Hs.
  - unfold on_orderbook_update. destruct tk. cbn [Ticker_eqb negb].
    eapply state_ok_frame; [apply try_trade_frame |].
    destruct Hs as (H1 & H2 & H3 & H4). unfold apply_update. cbv zeta.
    pose proof (clamp_price_range p) as Hp.
    destruct sd; destruct (q <=? 0) eqn:E; reflect_cmp; repeat split; cbn;
      try apply side_ok_pop; try apply side_ok_set; try apply H1; try apply H2;
      trivial; lra.
  - rewrite on_account_update_eq. cbn [effects]. exact Hs.
  - unfold on_game_event_update. cbv zeta.
    pose proof (state_ok_scores (home_score e) (away_score e) (time_seconds e) s Hs) as H2.
    set (s2 := update_scores _ _ _) in *.
    destruct (String.eqb (event_type e) "END_GAME").
    + destruct (_flatten_all s2). apply state_ok_reset.
    + destruct (t s2 <=? CLOSE_OUT_BUFFER).
      * eapply state_ok_frame; [apply flatten_all_frame | exact H2].
      * eapply state_ok_frame; [apply try_trade_frame | exact H2].
  - unfold on_orderbook_snapshot. destruct tk. cbn [Ticker_eqb negb].
    eapply state_ok_frame; [apply try_trade_frame |].
    destruct Hs as (H1 & H2 & H3 & H4).
    repeat split; cbn; try apply side_ok_load; trivial.
Qed.

Lemma run_state_ok ds : forall s, state_ok s -> state_ok (fst (run ds s)).
Proof.
  induction ds as [| d ds IH]; intros s Hs; cbn; [exact Hs |].
  pose proof (deliver_state_ok d s Hs) as H1.
  destruct (effects (deliver d s)) as [s1 c1]. cbn in H1.
  specialize (IH s1 H1). now destruct (run ds s1).
Qed.

(** X6.  Whatever callbacks the platform calls after construction, with
    whatever arguments, clock readings and placement answers: no price occurs
    twice on a side, every stored price is within [0, 100] and every stored
    quantity is positive, the stored remaining time is at most 2881, and the
    lead is the home score minus the away score. *)
Theorem reachable_state_ok (now0 : R) (ds : list Delivery) :
  let s := fst (run ds (reset_state now0)) in
  NoDup (keys (_bids s)) /\ NoDup (keys (_asks s)) /\
  Forall (fun kv => 0 <= fst kv <= 100 /\ 0 < snd kv) (_bids s) /\
  Forall (fun kv => 0 <= fst kv <= 100 /\ 0 < snd kv) (_asks s) /\
  t s <= GAME_LEN2 + 1 /\
  lead s = IZR (home s - away s).
Proof.
  intros s.
  destruct (run_state_ok ds (reset_state now0) (state_ok_reset now0))
    as ([H1 H2] & [H3 H4] & H5 & H6).
  fold s in H1, H2, H3, H4, H5, H6. repeat split; assumption.
Qed.

(** ** Who changes the account *)

Lemma game_event_account now reply e s :
  event_type e <> "END_GAME"%string ->
  pos (fst (on_game_event_update now reply e s)) = pos s /\
  capital (fst (on_game_event_update now reply e s)) = capital s.
Proof.
  intros Hty. unfold on_game_event_update. cbv zeta.
  apply String.eqb_neq in Hty. rewrite Hty.
  destruct (update_scores_frame (home_score e) (away_score e)
              (infer_time (time_seconds e) s)) as (_ & _ & Fc & Fp & _).
  destruct (infer_time_frame (time_seconds e) s) as (_ & _ & Gc & Gp & _).
  set (s2 := update_scores _ _ _) in *.
  destruct (t s2 <=? CLOSE_OUT_BUFFER).
  - destruct (flatten_all_frame s2) as (_ & _ & Hc & Hp & _).
    cbn [effects]. rewrite Hc, Hp, Fc, Fp. now split.
  - destruct (try_trade_frame now reply (high_impact_of e s2) s2) as (_ & _ & Hc & Hp & _).
    rewrite Hc, Hp, Fc, Fp. now split.
Qed.

(** X7.  Position and capital are written by the account callback only: a
    trade print, a book delta, a snapshot and a game event other than
    END_GAME leave both as they were, whatever orders they place. *)
Theorem account_written_by_fills_only (d : Delivery) (s : Strategy) :
  match event d with
  | AccountUpdate _ _ _ _ _ => False
  | GameEventUpdate e => event_type e <> "END_GAME"%string
  | _ => True
  end ->
  pos (fst (deliver d s)) = pos s /\ capital (fst (deliver d s)) = capital s.
Proof.
  unfold deliver.
  destruct (event d) as [tk sd q p | tk sd q p | tk sd p q c | e | tk bids asks];
    intros H.
  - now split.
  - unfold on_orderbook_update. destruct tk. cbn [Ticker_eqb negb].
    destruct (try_trade_frame (clock d) (answer d) false (apply_update sd q p s))
      as (_ & _ & Hc & Hp & _).
    rewrite Hc, Hp. unfold apply_update. cbv zeta.
    destruct sd; destruct (q <=? 0); now split.
  - destruct H.
  - now apply game_event_account.
  - unfold on_orderbook_snapshot. destruct tk. cbn [Ticker_eqb negb].
    destruct (try_trade_frame (clock d) (answer d) false (apply_snapshot bids asks s))
      as (_ & _ & Hc & Hp & _).
    rewrite Hc, Hp. now split.
Qed.

(** ** Flattening *)

Lemma floor_ge_1 x : 1 <= x -> 1 <= IZR (Zfloor x).
Proof. intros H. apply IZR_le. apply Zfloor_lub. exact H. Qed.

(** X8.  [_flatten_all] clears both handles and places at most one order, a
    market order.  That order is on the closing side, for a whole number of
    units, at least 1, and filling it in full leaves a position smaller than
    1 in magnitude. *)
Theorem flatten_all_closes s :
  let r := _flatten_all s in
  _work_bid (fst r) = None /\ _work_ask (fst r) = None /\
  (List.length (orders (snd r)) <= 1)%nat /\
  Forall (fun c => is_limit c = false) (snd r) /\
  (forall side q,
      In (place_market_order side TEAM_A q) (snd r) ->
      side = (if 0 <? pos s then SELL else BUY) /\
      1 <= q /\ (exists n : Z, q = IZR n) /\
      Rabs (pos s + match side with BUY => q | SELL => - q end) < 1).
Proof.
  intros r. unfold r. clear r. rewrite flatten_all_eq. cbn [fst snd].
  split; [reflexivity |]. split; [reflexivity |].
  assert (Hc : forall w, orders (cancel_if w) = [])
    by (intros [w |]; reflexivity).
  split; [| split].
  - unfold orders in *. rewrite !filter_app, !Hc. cbn [app].
    destruct (1 <=? Rabs (pos s)); cbn; lia.
  - apply Forall_app. split; [| apply Forall_app; split].
    + destruct (_work_bid s); repeat constructor.
    + destruct (_work_ask s); repeat constructor.
    + destruct (1 <=? Rabs (pos s)); repeat constructor.
  - intros side q Hin.
    apply in_app_or in Hin. destruct Hin as [Hin | Hin];
      [destruct (_work_bid s); cbn in Hin; [destruct Hin as [? | []]; discriminate | destruct Hin] |].
    apply in_app_or in Hin. destruct Hin as [Hin | Hin];
      [destruct (_work_ask s); cbn in Hin; [destruct Hin as [? | []]; discriminate | destruct Hin] |].
    destruct (1 <=? Rabs (pos s)) eqn:E; [| destruct Hin].
    destruct Hin as [Hin | []]. injection Hin as <- <-.
    apply Rleb_true in E.
    pose proof (Zfloor_bound (Rabs (pos s))) as Hb.
    split; [reflexivity |]. split; [now apply floor_ge_1 |].
    split; [now exists (Zfloor (Rabs (pos s))) |].
    destruct (0 <? pos s) eqn:Hp; reflect_cmp.
    + rewrite (Rabs_pos_eq (pos s)) in * by lra. apply Rabs_def1; lra.
    + rewrite (Rabs_left1 (pos s)) in * by lra. apply Rabs_def1; lra.
Qed.

(** X9.  Cancelling or flattening twice in a row cancels nothing the second
    time; but as no fill has arrived in between, the second flatten places
    the same market order again. *)
Theorem flatten_twice s :
  _cancel_working (fst (_cancel_working s)) = (fst (_cancel_working s), []) /\
  fst (_flatten_all (fst (_flatten_all s))) = fst (_flatten_all s) /\
  snd (_flatten_all (fst (_flatten_all s))) = orders (snd (_flatten_all s)).
Proof.
  split; [reflexivity |]. rewrite !flatten_all_eq. cbn [fst snd].
  split; [reflexivity |].
  cbn [set_work_ask set_work_bid pos _work_bid _work_ask cancel_if app].
  unfold orders. rewrite !filter_app.
  assert (Hc : forall w, filter (fun c => negb (is_cancel c)) (cancel_if w) = [])
    by (intros [w |]; reflexivity).
  rewrite !Hc. cbn [app].
  now destruct (1 <=? Rabs (pos s)).
Qed.

(** ** What one callback may send *)

Lemma late_unwind_single s bb aa fair cs :
  late_unwind s bb aa fair = Some cs ->
  exists side q, cs = [place_market_order side TEAM_A q].
Proof.
  unfold late_unwind.
  destruct (t s <? 60); [| discriminate].
  destruct ((0.5 <? pos s) && (fair <? bb)); [intros [= <-]; eauto |].
  destruct ((pos s <? -0.5) && (aa <? fair)); [intros [= <-]; eauto | discriminate].
Qed.

Lemma orders_cancel_if w : orders (cancel_if w) = [].
Proof. now destruct w. Qed.

Lemma orders_app a b : orders (a ++ b) = orders a ++ orders b.
Proof. apply filter_app. Qed.

Lemma orders_cancels cs : Forall (fun c => is_cancel c = true) cs -> orders cs = [].
Proof.
  induction 1 as [| c cs Hc _ IH]; [reflexivity |].
  unfold orders in *. cbn. now rewrite Hc.
Qed.

Lemma in_cancel_if oid w : In (cancel_order TEAM_A oid) (cancel_if w) -> w = Some oid.
Proof.
  destruct w as [o |]; cbn; [| intros []]. intros [[= ->] | []]. reflexivity.
Qed.

Lemma orders_cancel_working s : orders (snd (_cancel_working s)) = [].
Proof. cbn. now rewrite orders_app, !orders_cancel_if. Qed.

(** One evaluation places at most one order. *)
Lemma try_trade_orders now reply hi s :
  (List.length (orders (snd (_try_trade now reply hi s))) <= 1)%nat.
Proof.
  destruct (effects (_try_trade now reply hi s)) as [s' cmds] eqn:E. cbn [snd].
  apply try_trade_inv in E.
  destruct E as [[_ ->] | (bb & aa & _ & _ & _ & [[E _] | [[_ E] | (_ & _ & E)]])].
  - cbn. lia.
  - apply late_unwind_single in E. destruct E as (side & q & ->). cbn. lia.
  - apply cross_Some in E.
    destruct E as (_ & _ & [(_ & _ & _ & ->) | (_ & _ & _ & ->)]);
      rewrite orders_app, orders_cancel_working; cbn; lia.
  - apply passive_inv in E.
    destruct E as [(_ & _ & _ & _ & _ & ->) | [(_ & _ & _ & _ & _ & ->) | [Hc _]]].
    + rewrite !orders_app, !orders_cancel_if. cbn. lia.
    + rewrite !orders_app, !orders_cancel_if. cbn. lia.
    + rewrite orders_cancels by exact Hc. cbn. lia.
Qed.

Lemma in_cancel_working oid s :
  In (cancel_order TEAM_A oid) (snd (_cancel_working s)) ->
  _work_bid s = Some oid \/ _work_ask s = Some oid.
Proof.
  cbn. intros H. apply in_app_or in H.
  destruct H as [H | H]; apply in_cancel_if in H; auto.
Qed.

Lemma passive_cancels_tracked reply s bb aa md e_buy e_sell thr oid :
  In (cancel_order TEAM_A oid) (snd (passive reply s bb aa md e_buy e_sell thr)) ->
  _work_bid s = Some oid \/ _work_ask s = Some oid.
Proof.
  unfold passive, passive_buy, passive_sell. cbv zeta.
  destruct ((e_sell <? e_buy) && (thr <? e_buy) && (pos s <? MAX_POS)).
  - destruct (1 <=? buy_qty s e_buy md); cbn [snd]; [| intros []].
    intros H. apply in_app_or in H. destruct H as [H | H];
      [apply in_cancel_if in H; auto |].
    apply in_app_or in H. destruct H as [H | [H | []]];
      [apply in_cancel_if in H; auto | discriminate].
  - destruct ((thr <? e_sell) && (- MAX_POS <? pos s)).
    + destruct (1 <=? sell_qty s e_sell md); cbn [snd]; [| intros []].
      intros H. apply in_app_or in H. destruct H as [H | H];
        [apply in_cancel_if in H; auto |].
      apply in_app_or in H. destruct H as [H | [H | []]];
        [apply in_cancel_if in H; auto | discriminate].
    + apply in_cancel_working.
Qed.

(** One evaluation cancels tracked orders only. *)
Lemma try_trade_cancels_tracked now reply hi s oid :
  In (cancel_order TEAM_A oid) (snd (_try_trade now reply hi s)) ->
  _work_bid s = Some oid \/ _work_ask s = Some oid.
Proof.
  destruct (effects (_try_trade now reply hi s)) as [s' cmds] eqn:E. cbn [snd].
  apply try_trade_inv in E.
  destruct E as [[_ ->] | (bb & aa & _ & _ & _ & [[E _] | [[_ E] | (_ & _ & E)]])].
  - intros [].
  - apply late_unwind_single in E. destruct E as (side & q & ->).
    intros [H | []]. discriminate.
  - apply cross_Some in E.
    destruct E as (_ & _ & [(_ & _ & _ & ->) | (_ & _ & _ & ->)]);
      intros H; apply in_app_or in H;
      (destruct H as [H | [H | []]]; [now apply in_cancel_working | discriminate]).
  - intros H. apply passive_cancels_tracked with (reply := reply) (bb := bb) (aa := aa)
      (md := 0.5 * (bb + aa)) (e_buy := fair_value s - aa) (e_sell := bb - fair_value s)
      (thr := _edge_threshold s).
    now rewrite E.
Qed.

Lemma game_state_handles h a ts s :
  _work_bid (update_scores h a (infer_time ts s)) = _work_bid s /\
  _work_ask (update_scores h a (infer_time ts s)) = _work_ask s.
Proof.
  destruct (update_scores_frame h a (infer_time ts s))
    as (_ & _ & _ & _ & _ & _ & -> & ->).
  destruct (infer_time_frame ts s) as (_ & _ & _ & _ & _ & -> & -> & _).
  now split.
Qed.

Lemma flatten_all_orders s : (List.length (orders (snd (_flatten_all s))) <= 1)%nat.
Proof.
  rewrite flatten_all_eq. cbn [snd]. rewrite !orders_app, !orders_cancel_if.
  cbn [app]. destruct (1 <=? Rabs (pos s)); cbn; lia.
Qed.

(** X10.  No callback places more than one order per call: whatever the
    event, among the commands it issues at most one is not a cancel. *)
Theorem one_order_per_callback (d : Delivery) (s : Strategy) :
  (List.length (orders (snd (deliver d s))) <= 1)%nat.
Proof.
  unfold deliver.
  destruct (event d) as [tk sd q p | tk sd q p | tk sd p q c | e | tk bids asks].
  - cbn. lia.
  - unfold on_orderbook_update. destruct tk. cbn [Ticker_eqb negb].
    apply try_trade_orders.
  - rewrite on_account_update_eq. cbn [effects]. cbn [snd]. rewrite orders_app.
    destruct (0 <? _), (_ <? 0); rewrite ?orders_cancel_if; cbn; lia.
  - unfold on_game_event_update. cbv zeta.
    set (s2 := update_scores _ _ _).
    pose proof (flatten_all_orders s2) as F.
    destruct (String.eqb (event_type e) "END_GAME").
    + destruct (_flatten_all s2) as [s3 cs]. exact F.
    + destruct (t s2 <=? CLOSE_OUT_BUFFER); [exact F | apply try_trade_orders].
  - unfold on_orderbook_snapshot. destruct tk. cbn [Ticker_eqb negb].
    apply try_trade_orders.
Qed.

(** X11.  A callback cancels only orders it tracks: every identifier in a
    cancel command was the working buy or the working sell handle when the
    callback started. *)
Theorem cancels_only_tracked (d : Delivery) (s : Strategy) (oid : Z) :
  In (cancel_order TEAM_A oid) (snd (deliver d s)) ->
  _work_bid s = Some oid \/ _work_ask s = Some oid.
Proof.
  unfold deliver.
  destruct (event d) as [tk sd q p | tk sd q p | tk sd p q c | e | tk bids asks].
  - intros [].
  - unfold on_orderbook_update. destruct tk. cbn [Ticker_eqb negb].
    intros H. apply try_trade_cancels_tracked in H.
    unfold apply_update in H. cbv zeta in H.
    destruct sd; destruct (q <=? 0); exact H.
  - rewrite on_account_update_eq. cbn [effects]. cbn [snd]. intros H.
    apply in_app_or in H. destruct H as [H | H].
    + destruct (0 <? _); [apply in_cancel_if in H; auto | destruct H].
    + destruct (_ <? 0); [apply in_cancel_if in H; auto | destruct H].
  - unfold on_game_event_update. cbv zeta.
    destruct (game_state_handles (home_score e) (away_score e) (time_seconds e) s)
      as [Hb Ha].
    set (s2 := update_scores _ _ _) in *.
    assert (Hflat : In (cancel_order TEAM_A oid) (snd (_flatten_all s2)) ->
                    _work_bid s = Some oid \/ _work_ask s = Some oid).
    { rewrite flatten_all_eq. cbn [snd]. rewrite Hb, Ha. intros H.
      apply in_app_or in H. destruct H as [H | H]; [apply in_cancel_if in H; auto |].
      apply in_app_or in H. destruct H as [H | H]; [apply in_cancel_if in H; auto |].
      destruct (1 <=? Rabs (pos s2)); [destruct H as [H | []]; discriminate | destruct H]. }
    destruct (String.eqb (event_type e) "END_GAME").
    + destruct (_flatten_all s2) as [s3 cs]. exact Hflat.
    + destruct (t s2 <=? CLOSE_OUT_BUFFER); [exact Hflat |].
      intros H. apply try_trade_cancels_tracked in H. now rewrite Hb, Ha in H.
  - unfold on_orderbook_snapshot. destruct tk. cbn [Ticker_eqb negb].
    intros H. now apply try_trade_cancels_tracked in H.
Qed.

(** ** When an evaluation does nothing *)

Lemma best_bid_dust s :
  (forall p q, dict_get (_bids s) p = Some q -> q < MIN_QTY_LVL) -> _best_bid s = None.
Proof.
  intros H. rewrite best_bid_eq.
  destruct (find _ _) as [bb |] eqn:E; [| reflexivity].
  apply find_some in E. destruct E as [_ E].
  apply live_level_iff in E. destruct E as (q & Hq & Hmin).
  specialize (H bb q Hq). lra.
Qed.

Lemma best_ask_dust s :
  (forall p q, dict_get (_asks s) p = Some q -> q < MIN_QTY_LVL) -> _best_ask s = None.
Proof.
  intros H. rewrite best_ask_eq.
  destruct (find _ _) as [aa |] eqn:E; [| reflexivity].
  apply find_some in E. destruct E as [_ E].
  apply live_level_iff in E. destruct E as (q & Hq & Hmin).
  specialize (H aa q Hq). lra.
Qed.

(** X12.  An evaluation issues no command and changes nothing while fewer
    than 3 clock units have passed since the last reset, or when one side of
    the book has no level holding at least [MIN_QTY_LVL] (an empty side, or
    dust only). *)
Theorem evaluation_idle now reply hi s :
  now - _start s < INIT_COOLDOWN \/
  (forall p q, dict_get (_bids s) p = Some q -> q < MIN_QTY_LVL) \/
  (forall p q, dict_get (_asks s) p = Some q -> q < MIN_QTY_LVL) ->
  _try_trade now reply hi s = Returned (s, []).
Proof.
  intros H. unfold _try_trade.
  destruct (now - _start s <? INIT_COOLDOWN) eqn:E; [reflexivity |].
  apply Rltb_false in E.
  destruct H as [H | [H | H]]; [lra | |].
  - now rewrite (best_bid_dust s H).
  - rewrite (best_ask_dust s H). now destruct (_best_bid s).
Qed.

(** ** Late-game unwind *)

(** X13.  In the last minute (t < 60), once the cooldown has passed, both
    best prices exist and [_fair] has returned: a long position above 0.5
    with the fair value below the best bid is answered by one market sell of
    floor(max(1, position/4))
    and nothing else, working orders and handles left as they are; the
    quantity is at least 1 and a full fill leaves a position between -0.5 and
    the old one.  The same holds mirrored for a short position below -0.5
    with the fair value above the best ask. *)
Theorem late_unwind_fires now reply hi s bb aa fair :
  INIT_COOLDOWN <= now - _start s ->
  _best_bid s = Some bb -> _best_ask s = Some aa ->
  _fair s = Some fair ->
  t s < 60 ->
  (0.5 < pos s -> fair < bb ->
   let q := IZR (Zfloor (Rmax 1 (pos s * 0.25))) in
   _try_trade now reply hi s = Returned (s, [place_market_order SELL TEAM_A q]) /\
   1 <= q /\ -0.5 < pos s - q < pos s) /\
  (pos s < -0.5 -> aa < fair ->
   let q := IZR (Zfloor (Rmax 1 (- pos s * 0.25))) in
   _try_trade now reply hi s = Returned (s, [place_market_order BUY TEAM_A q]) /\
   1 <= q /\ pos s < pos s + q < 0.5).
Proof.
  intros Hcool Hbb Haa Hfair Ht.
  assert (Hq : forall x, 0.5 < x ->
            1 <= IZR (Zfloor (Rmax 1 (x * 0.25))) /\
            -0.5 < x - IZR (Zfloor (Rmax 1 (x * 0.25))) < x).
  { intros x Hx.
    pose proof (Zfloor_bound (Rmax 1 (x * 0.25))) as Hb.
    pose proof (floor_ge_1 (Rmax 1 (x * 0.25)) (Rmax_l _ _)) as H1.
    split; [exact H1 |].
    destruct (Rle_dec (x * 0.25) 1) as [Hle | Hgt].
    - rewrite Rmax_left in * by lra. lra.
    - rewrite Rmax_right in * by lra. lra. }
  split.
  - intros Hp Hf q. split; [| apply (Hq (pos s) Hp)].
    unfold _try_trade.
    replace (now - _start s <? INIT_COOLDOWN) with false by (symmetry; cmp_false).
    rewrite Hbb, Haa, (mid_of_bests s bb aa Hbb Haa), Hfair. cbv zeta.
    unfold late_unwind.
    replace (t s <? 60) with true by (symmetry; cmp_true).
    replace (0.5 <? pos s) with true by (symmetry; cmp_true).
    replace (fair <? bb) with true by (symmetry; cmp_true).
    reflexivity.
  - intros Hp Hf q.
    destruct (Hq (- pos s) ltac:(lra)) as [H1 H2].
    split; [| split; [exact H1 | unfold q; lra]].
    unfold _try_trade.
    replace (now - _start s <? INIT_COOLDOWN) with false by (symmetry; cmp_false).
    rewrite Hbb, Haa, (mid_of_bests s bb aa Hbb Haa), Hfair. cbv zeta.
    unfold late_unwind.
    replace (t s <? 60) with true by (symmetry; cmp_true).
    replace (0.5 <? pos s) with false by (symmetry; cmp_false).
    replace (pos s <? -0.5) with true by (symmetry; cmp_true).
    replace (aa <? fair) with true by (symmetry; cmp_true).
    reflexivity.
Qed.

(** ** Sizes *)

Lemma raw_size_mono s e1 e2 p :
  Rabs e1 <= Rabs e2 ->
  size_base s p * edge_factor e1 * urgency s
  <= size_base s p * edge_factor e2 * urgency s.
Proof.
  intros He.
  pose proof (size_base_ge_1 s p). pose proof (urgency_bounds s).
  assert (edge_factor e1 <= edge_factor e2).
  { unfold edge_factor. apply Rplus_le_compat_l. apply Rle_min_compat_l. lra. }
  apply Rmult_le_compat_r; [lra |]. apply Rmult_le_compat_l; lra.
Qed.

Lemma size_for_edge_whole s e p :
  exists n : Z, _size_for_edge s e p = IZR n /\ (0 <= n <= 200)%Z.
Proof.
  destruct (Rle_dec p 0) as [Hp | Hp].
  - exists 0%Z. rewrite size_for_edge_nonpos by exact Hp. split; [reflexivity | lia].
  - rewrite size_for_edge_eq by lra.
    set (x := Rmin _ _). exists (Zfloor x). split; [reflexivity |].
    pose proof (raw_size_ge_half s e p).
    assert (Hx : 0 <= x <= 200).
    { unfold x, MAX_POS. split; [apply Rmin_glb; lra |].
      eapply Rle_trans; [apply Rmin_r | lra]. }
    split.
    + apply Zfloor_lub. apply Hx.
    + pose proof (Zfloor_bound x) as Hb.
      apply le_IZR. lra.
Qed.

(** X14.  [_size_for_edge] returns a whole number between 0 and 200; it
    depends on the edge through its magnitude only, and a larger magnitude
    never gives a smaller size. *)
Theorem size_for_edge_props s (e1 e2 p : R) :
  (exists n : Z, _size_for_edge s e1 p = IZR n /\ (0 <= n <= 200)%Z) /\
  _size_for_edge s (- e1) p = _size_for_edge s e1 p /\
  (Rabs e1 <= Rabs e2 -> _size_for_edge s e1 p <= _size_for_edge s e2 p).
Proof.
  split; [apply size_for_edge_whole |]. split.
  - unfold _size_for_edge. now rewrite Rabs_Ropp.
  - intros He. destruct (Rle_dec p 0) as [Hp | Hp].
    + rewrite !size_for_edge_nonpos by exact Hp. lra.
    + rewrite !size_for_edge_eq by lra.
      apply IZR_le, Zfloor_le. apply Rle_min_compat_r. now apply raw_size_mono.
Qed.

Lemma size_for_edge_le_cap s e p : 0 <= _size_for_edge s e p <= 200.
Proof.
  destruct (size_for_edge_whole s e p) as (n & -> & Hn).
  split; [apply (IZR_le 0) | apply (IZR_le n 200)]; lia.
Qed.

(** X15.  Every limit order of an evaluation is for at most 200 units (a
    quarter of the position limit).  An IOC buy is priced at the best ask and
    an IOC sell at the best bid; and in a book whose prices are within
    [0, 100] every limit price is within [0, 100]. *)
Theorem limit_order_bounds now reply hi s side q px ioc :
  In (place_limit_order side TEAM_A q px ioc) (snd (_try_trade now reply hi s)) ->
  q <= MAX_POS * 0.25 /\
  (ioc = true ->
   match side with BUY => _best_ask s = Some px | SELL => _best_bid s = Some px end) /\
  (book_in_range s -> 0 <= px <= 100).
Proof.
  intros Hin. apply limit_order_origin in Hin.
  destruct Hin as (bb & aa & Hbb & Haa & _ & H). cbv zeta in H.
  assert (Hcap : forall e md, buy_qty s e md <= MAX_POS * 0.25 /\
                              sell_qty s e md <= MAX_POS * 0.25).
  { intros e md. unfold buy_qty, sell_qty, MAX_POS.
    pose proof (size_for_edge_le_cap s e md).
    split; (eapply Rle_trans; [apply Rmin_l | lra]). }
  destruct H as [H | [H | [H | H]]].
  - destruct H as (-> & -> & _ & _ & _ & -> & _ & -> & _).
    split; [apply Hcap |]. split; [intros _; exact Haa |].
    intros Hr. now apply best_ask_in_range with s.
  - destruct H as (-> & -> & _ & _ & _ & -> & _ & -> & _).
    split; [apply Hcap |]. split; [intros _; exact Hbb |].
    intros Hr. now apply best_bid_in_range with s.
  - destruct H as (-> & -> & _ & _ & _ & _ & -> & _ & -> & _).
    split; [apply Hcap |]. split; [discriminate |].
    intros _. apply clamp_price_range.
  - destruct H as (-> & -> & _ & _ & _ & -> & _ & -> & _).
    split; [apply Hcap |]. split; [discriminate |].
    intros _. apply clamp_price_range.
Qed.

(** ** When an evaluation acts *)

Lemma late_unwind_none s bb aa fair :
  60 <= t s \/ Rabs (pos s) <= 0.5 -> late_unwind s bb aa fair = None.
Proof.
  intros H. unfold late_unwind.
  destruct (t s <? 60) eqn:E; [| reflexivity]. apply Rltb_true in E.
  destruct H as [H | H]; [lra |]. apply Rabs_le_bounds in H.
  replace (0.5 <? pos s) with false by (symmetry; cmp_false).
  replace (pos s <? -0.5) with false by (symmetry; cmp_false).
  reflexivity.
Qed.

Lemma try_trade_past_guards now reply hi s bb aa fair :
  INIT_COOLDOWN <= now - _start s ->
  _best_bid s = Some bb -> _best_ask s = Some aa ->
  _fair s = Some fair ->
  60 <= t s \/ Rabs (pos s) <= 0.5 ->
  _try_trade now reply hi s
  = Returned
      match cross s ((Rmax 0 (aa - bb) <=? MAX_SPREAD_TO_CROSS) || hi) bb aa
                  (0.5 * (bb + aa)) (fair - aa) (bb - fair) (_edge_threshold s) with
      | Some r => r
      | None => passive reply s bb aa (0.5 * (bb + aa)) (fair - aa) (bb - fair)
                        (_edge_threshold s)
      end.
Proof.
  intros Hcool Hbb Haa Hfair Hlate. unfold _try_trade.
  replace (now - _start s <? INIT_COOLDOWN) with false by (symmetry; cmp_false).
  rewrite Hbb, Haa, (mid_of_bests s bb aa Hbb Haa), Hfair. cbv zeta.
  rewrite late_unwind_none by exact Hlate.
  now destruct (cross s _ bb aa _ _ _ _).
Qed.

Lemma allow_cross_true hi bb aa :
  aa - bb <= MAX_SPREAD_TO_CROSS \/ hi = true ->
  (Rmax 0 (aa - bb) <=? MAX_SPREAD_TO_CROSS) || hi = true.
Proof.
  intros [H | ->]; [| apply orb_true_r].
  apply orb_true_iff. left. apply Rleb_true.
  unfold MAX_SPREAD_TO_CROSS in *. apply Rmax_lub; lra.
Qed.

Lemma allow_cross_false bb aa :
  MAX_SPREAD_TO_CROSS < aa - bb ->
  (Rmax 0 (aa - bb) <=? MAX_SPREAD_TO_CROSS) || false = false.
Proof.
  intros H. rewrite orb_false_r. apply Rleb_false.
  unfold MAX_SPREAD_TO_CROSS in *. rewrite Rmax_right by lra. exact H.
Qed.

(** X16.  Past the cooldown, with both best prices and the fair value that
    [_fair] returned, outside a late unwind
    (60 or more units left, or a position of at most 0.5 in magnitude), and
    with the spread at most 2 or the high-impact flag set: a buy edge above
    the threshold with headroom and a size of at least 1 cancels the working
    orders, clears both handles and sends one IOC buy at the best ask; in an
    uncrossed book the same holds for a sell edge, with an IOC sell at the
    best bid. *)
Theorem cross_fires now reply hi s bb aa fair :
  INIT_COOLDOWN <= now - _start s ->
  _best_bid s = Some bb -> _best_ask s = Some aa ->
  _fair s = Some fair ->
  60 <= t s \/ Rabs (pos s) <= 0.5 ->
  aa - bb <= MAX_SPREAD_TO_CROSS \/ hi = true ->
  (_edge_threshold s < fair - aa -> pos s < MAX_POS ->
   1 <= buy_qty s (fair - aa) (0.5 * (bb + aa)) ->
   _try_trade now reply hi s
   = Returned
       (set_work_ask (set_work_bid s None) None,
        cancel_if (_work_bid s) ++ cancel_if (_work_ask s)
          ++ [place_limit_order BUY TEAM_A
                (buy_qty s (fair - aa) (0.5 * (bb + aa))) aa true])) /\
  (bb <= aa -> _edge_threshold s < bb - fair -> - MAX_POS < pos s ->
   1 <= sell_qty s (bb - fair) (0.5 * (bb + aa)) ->
   _try_trade now reply hi s
   = Returned
       (set_work_ask (set_work_bid s None) None,
        cancel_if (_work_bid s) ++ cancel_if (_work_ask s)
          ++ [place_limit_order SELL TEAM_A
                (sell_qty s (bb - fair) (0.5 * (bb + aa))) bb true])).
Proof.
  intros Hcool Hbb Haa Hfair Hlate Hal.
  rewrite (try_trade_past_guards now reply hi s bb aa fair Hcool Hbb Haa Hfair Hlate).
  rewrite (allow_cross_true hi bb aa Hal).
  pose proof (edge_threshold_pos s) as Hthr.
  unfold cross, _cancel_working. cbn [andb].
  split.
  - intros He Hp Hq.
    replace (_edge_threshold s <? fair - aa) with true by (symmetry; cmp_true).
    replace (pos s <? MAX_POS) with true by (symmetry; cmp_true).
    replace (1 <=? buy_qty s (fair - aa) (0.5 * (bb + aa))) with true
      by (symmetry; cmp_true).
    cbn [andb]. now rewrite <- app_assoc.
  - intros Hba He Hp Hq.
    replace (_edge_threshold s <? fair - aa) with false by (symmetry; cmp_false).
    replace (_edge_threshold s <? bb - fair) with true by (symmetry; cmp_true).
    replace (- MAX_POS <? pos s) with true by (symmetry; cmp_true).
    replace (1 <=? sell_qty s (bb - fair) (0.5 * (bb + aa))) with true
      by (symmetry; cmp_true).
    cbn [andb]. now rewrite <- app_assoc.
Qed.

(** X17.  Under the same guards but with a spread above 2 and no high-impact
    flag, an edge above the threshold with headroom and a size of at least 1
    rests one passive order instead: 0.1 above the best bid for a buy edge,
    0.1 below the best ask for a sell edge (clamped to [0, 100]), after
    cancelling whatever is working on either side. *)
Theorem passive_rests now reply s bb aa fair :
  INIT_COOLDOWN <= now - _start s ->
  _best_bid s = Some bb -> _best_ask s = Some aa ->
  _fair s = Some fair ->
  60 <= t s \/ Rabs (pos s) <= 0.5 ->
  MAX_SPREAD_TO_CROSS < aa - bb ->
  (_edge_threshold s < fair - aa -> pos s < MAX_POS ->
   1 <= buy_qty s (fair - aa) (0.5 * (bb + aa)) ->
   snd (_try_trade now reply false s)
   = cancel_if (_work_bid s) ++ cancel_if (_work_ask s)
       ++ [place_limit_order BUY TEAM_A
             (buy_qty s (fair - aa) (0.5 * (bb + aa)))
             (_clamp_price (bb + PASSIVE_IMPROVE)) false]) /\
  (_edge_threshold s < bb - fair -> - MAX_POS < pos s ->
   1 <= sell_qty s (bb - fair) (0.5 * (bb + aa)) ->
   snd (_try_trade now reply false s)
   = cancel_if (_work_ask s) ++ cancel_if (_work_bid s)
       ++ [place_limit_order SELL TEAM_A
             (sell_qty s (bb - fair) (0.5 * (bb + aa)))
             (_clamp_price (aa - PASSIVE_IMPROVE)) false]).
Proof.
  intros Hcool Hbb Haa Hfair Hlate Hsp.
  rewrite (try_trade_past_guards now reply false s bb aa fair Hcool Hbb Haa Hfair Hlate).
  rewrite (allow_cross_false bb aa Hsp).
  pose proof (edge_threshold_pos s) as Hthr.
  unfold MAX_SPREAD_TO_CROSS in Hsp.
  unfold cross. cbn [andb]. unfold passive, passive_buy, passive_sell. cbv zeta.
  split.
  - intros He Hp Hq.
    replace (bb - fair <? fair - aa) with true by (symmetry; cmp_true).
    replace (_edge_threshold s <? fair - aa) with true by (symmetry; cmp_true).
    replace (pos s <? MAX_POS) with true by (symmetry; cmp_true).
    replace (1 <=? buy_qty s (fair - aa) (0.5 * (bb + aa))) with true
      by (symmetry; cmp_true).
    reflexivity.
  - intros He Hp Hq.
    replace (bb - fair <? fair - aa) with false by (symmetry; cmp_false).
    replace (_edge_threshold s <? bb - fair) with true by (symmetry; cmp_true).
    replace (- MAX_POS <? pos s) with true by (symmetry; cmp_true).
    replace (1 <=? sell_qty s (bb - fair) (0.5 * (bb + aa))) with true
      by (symmetry; cmp_true).
    reflexivity.
Qed.

(** X18.  Under the same guards, when on each side the edge is at most the
    threshold or the position has no headroom, the evaluation only cancels:
    each working order is cancelled, both handles are cleared, and no order
    is placed. *)
Theorem no_edge_cancels now reply hi s bb aa fair :
  INIT_COOLDOWN <= now - _start s ->
  _best_bid s = Some bb -> _best_ask s = Some aa ->
  _fair s = Some fair ->
  60 <= t s \/ Rabs (pos s) <= 0.5 ->
  fair - aa <= _edge_threshold s \/ MAX_POS <= pos s ->
  bb - fair <= _edge_threshold s \/ pos s <= - MAX_POS ->
  _try_trade now reply hi s
  = Returned (set_work_ask (set_work_bid s None) None,
              cancel_if (_work_bid s) ++ cancel_if (_work_ask s)).
Proof.
  intros Hcool Hbb Haa Hfair Hlate Hb Hs.
  rewrite (try_trade_past_guards now reply hi s bb aa fair Hcool Hbb Haa Hfair Hlate).
  assert (Eb : (_edge_threshold s <? fair - aa) && (pos s <? MAX_POS) = false).
  { destruct Hb as [Hb | Hb].
    - replace (_edge_threshold s <? fair - aa) with false by (symmetry; cmp_false).
      reflexivity.
    - replace (pos s <? MAX_POS) with false by (symmetry; cmp_false).
      apply andb_false_r. }
  assert (Es : (_edge_threshold s <? bb - fair) && (- MAX_POS <? pos s) = false).
  { destruct Hs as [Hs | Hs].
    - replace (_edge_threshold s <? bb - fair) with false by (symmetry; cmp_false).
      reflexivity.
    - replace (- MAX_POS <? pos s) with false by (symmetry; cmp_false).
      apply andb_false_r. }
  unfold cross, passive.
  destruct ((Rmax 0 (aa - bb) <=? MAX_SPREAD_TO_CROSS) || hi);
    destruct (bb - fair <? fair - aa);
    destruct (_edge_threshold s <? fair - aa);
    destruct (pos s <? MAX_POS); try discriminate Eb;
    destruct (_edge_threshold s <? bb - fair);
    destruct (- MAX_POS <? pos s); try discriminate Es;
    reflexivity.
Qed.

(** ** Scores and momentum *)

Lemma update_scores_fields h a s :
  let s' := update_scores h a s in
  home s' = h /\ away s' = a /\ lead s' = IZR (h - a) /\ _seen_event s' = true /\
  momentum s'
  = if _seen_event s then (1 - 0.2) * momentum s + 0.2 * (IZR (h - a) - lead s) else 0.
Proof. unfold update_scores. destruct (_seen_event s); cbn; repeat split. Qed.

(** X19.  After a game event other than END_GAME the scores are those of the
    event, the lead is their difference, and an event has been seen.  The
    first event after a reset sets the momentum to 0; every later one sets it
    to 0.8 times the old momentum plus 0.2 times the change of the lead,
    which lies between the old momentum and that change. *)
Theorem momentum_update now reply e s :
  event_type e <> "END_GAME"%string ->
  let s' := fst (on_game_event_update now reply e s) in
  let dlead := IZR (home_score e - away_score e) - lead s in
  home s' = home_score e /\ away s' = away_score e /\
  lead s' = IZR (home_score e - away_score e) /\
  _seen_event s' = true /\
  (_seen_event s = false -> momentum s' = 0) /\
  (_seen_event s = true ->
   momentum s' = 0.8 * momentum s + 0.2 * dlead /\
   Rmin (momentum s) dlead <= momentum s' <= Rmax (momentum s) dlead).
Proof.
  intros Hty s' dlead.
  set (s1 := infer_time (time_seconds e) s).
  set (s2 := update_scores (home_score e) (away_score e) s1).
  assert (F : same_but_handles s2 s').
  { unfold s', on_game_event_update. cbv zeta.
    apply String.eqb_neq in Hty. rewrite Hty. fold s1. fold s2.
    destruct (t s2 <=? CLOSE_OUT_BUFFER);
      [apply flatten_all_frame | apply try_trade_frame]. }
  destruct F as (_ & _ & _ & _ & _ & Fh & Fa & Fl & Fm & Fs & _).
  destruct (update_scores_fields (home_score e) (away_score e) s1)
    as (Uh & Ua & Ul & Us & Um).
  fold s2 in Uh, Ua, Ul, Us, Um.
  destruct (infer_time_frame (time_seconds e) s)
    as (_ & _ & _ & _ & _ & _ & _ & Gs & Gl & Gm).
  fold s1 in Gs, Gl, Gm.
  rewrite Fh, Fa, Fl, Fm, Fs, Uh, Ua, Ul, Us, Um, Gs, Gl, Gm.
  split; [reflexivity |]. split; [reflexivity |]. split; [reflexivity |].
  split; [reflexivity |]. split.
  - intros Hs. now rewrite Hs.
  - intros Hs. rewrite Hs. fold dlead.
    split; [lra |].
    destruct (Rle_dec (momentum s) dlead).
    + rewrite Rmin_left, Rmax_right by lra. lra.
    + rewrite Rmin_right, Rmax_left by lra. lra.
Qed.

(** ** More on the fair value *)

Lemma time_scale_le_1 x : 1 / sqrt (Rmax x 0 / 60 + 1) <= 1.
Proof.
  pose proof (Rmax_r x 0) as Hx.
  assert (H1 : 1 <= sqrt (Rmax x 0 / 60 + 1)).
  { rewrite <- sqrt_1 at 1. apply sqrt_le_1; lra. }
  apply Rmult_le_reg_r with (sqrt (Rmax x 0 / 60 + 1)); [lra |].
  unfold Rdiv. rewrite Rmult_assoc, Rinv_l by lra. lra.
Qed.

Lemma time_scale_mono x y :
  x <= y -> 1 / sqrt (Rmax y 0 / 60 + 1) <= 1 / sqrt (Rmax x 0 / 60 + 1).
Proof.
  intros Hxy.
  pose proof (Rmax_r x 0) as Hx. pose proof (Rmax_r y 0) as Hy.
  assert (Hm : Rmax x 0 <= Rmax y 0) by (apply Rle_max_compat_r; exact Hxy).
  assert (Hs : sqrt (Rmax x 0 / 60 + 1) <= sqrt (Rmax y 0 / 60 + 1))
    by (apply sqrt_le_1; lra).
  assert (Hp : 0 < sqrt (Rmax x 0 / 60 + 1)) by (apply sqrt_lt_R0; lra).
  unfold Rdiv. rewrite !Rmult_1_l. apply Rinv_le_contravar; assumption.
Qed.

Lemma sigmoid_above_half x : 0 < x -> 1 / 2 < sigmoid_value x.
Proof.
  intros Hx. unfold sigmoid_value.
  assert (He : exp (- x) < 1) by (rewrite <- exp_0; apply exp_increasing; lra).
  pose proof (exp_pos (- x)) as Hp.
  assert (Hi : / 2 < / (1 + exp (- x))) by (apply Rinv_lt_contravar; nra).
  unfold Rdiv. lra.
Qed.

Lemma sigmoid_small x : 0 <= x <= 0.2 -> sigmoid_value x <= 1 / 1.8.
Proof.
  intros Hx. unfold sigmoid_value.
  pose proof (exp_ineq1_le (- x)) as He.
  unfold Rdiv. rewrite !Rmult_1_l. apply Rinv_le_contravar; lra.
Qed.

(** The logit when there is no momentum. *)
Lemma win_prob_no_momentum s :
  momentum s = 0 ->
  win_prob_value s
  = Rmax 0.01 (Rmin 0.99
      (sigmoid_value ((0.18 * lead s + 0.20) * (1 / sqrt (Rmax (t s) 0 / 60 + 1))))).
Proof.
  intros Hm. unfold win_prob_value, HOME_ADV. cbv zeta. rewrite Hm.
  do 3 f_equal. lra.
Qed.

Lemma logit_no_momentum s :
  momentum s = 0 ->
  logit s = (0.18 * lead s + 0.20) * (1 / sqrt (Rmax (t s) 0 / 60 + 1)).
Proof. intros Hm. unfold logit, HOME_ADV. cbv zeta. rewrite Hm. lra. Qed.

Lemma fair_value_tied s :
  lead s = 0 -> momentum s = 0 -> 50 < fair_value s < 56.
Proof.
  intros Hl Hm. unfold fair_value. rewrite win_prob_no_momentum by exact Hm. rewrite Hl.
  pose proof (time_scale_pos (t s)) as Hp.
  pose proof (time_scale_le_1 (t s)) as H1.
  set (sc := 1 / sqrt (Rmax (t s) 0 / 60 + 1)) in *.
  pose proof (sigmoid_above_half ((0.18 * 0 + 0.20) * sc) ltac:(lra)) as Hlo.
  pose proof (sigmoid_small ((0.18 * 0 + 0.20) * sc) ltac:(lra)) as Hhi.
  assert (1 / 1.8 < 0.56) by lra.
  rewrite Rmin_right by lra. rewrite Rmax_right by lra. lra.
Qed.

Lemma fair_value_sharpens s1 s2 :
  momentum s1 = 0 -> momentum s2 = 0 -> lead s1 = lead s2 -> t s1 <= t s2 ->
  (0 <= 0.18 * lead s1 + 0.20 -> fair_value s2 <= fair_value s1) /\
  (0.18 * lead s1 + 0.20 <= 0 -> fair_value s1 <= fair_value s2).
Proof.
  intros Hm1 Hm2 Hl Ht. unfold fair_value.
  rewrite !win_prob_no_momentum by assumption. rewrite <- Hl.
  pose proof (time_scale_mono (t s1) (t s2) Ht) as Hsc.
  set (c1 := 1 / sqrt (Rmax (t s1) 0 / 60 + 1)) in *.
  set (c2 := 1 / sqrt (Rmax (t s2) 0 / 60 + 1)) in *.
  split; intros Hc.
  - assert (H : (0.18 * lead s1 + 0.20) * c2 <= (0.18 * lead s1 + 0.20) * c1)
      by (apply Rmult_le_compat_l; lra).
    apply sigmoid_le in H.
    apply Rmult_le_compat_l; [lra |].
    apply Rle_max_compat_l. now apply Rle_min_compat_l.
  - assert (H : (0.18 * lead s1 + 0.20) * c1 <= (0.18 * lead s1 + 0.20) * c2) by nra.
    apply sigmoid_le in H.
    apply Rmult_le_compat_l; [lra |].
    apply Rle_max_compat_l. now apply Rle_min_compat_l.
Qed.

(** Where [_fair] returns, it returns for every larger logit too. *)
Lemma fair_returns_above s1 s2 f1 :
  _fair s1 = Some f1 -> logit s1 <= logit s2 -> _fair s2 = Some (fair_value s2).
Proof.
  rewrite !fair_cases. intros H1 Hl.
  destruct (FLOAT_MAX <? exp (- logit s1)) eqn:E1; [discriminate |].
  apply Rltb_false in E1.
  replace (FLOAT_MAX <? exp (- logit s2)) with false; [reflexivity |].
  symmetry. apply Rltb_false.
  assert (exp (- logit s2) <= exp (- logit s1)); [| lra].
  destruct Hl as [Hlt | ->]; [left; apply exp_increasing; lra | right; reflexivity].
Qed.

(** X20.  With the score tied and no momentum, whatever the remaining time,
    [_fair] returns, and the fair value is above 50 (the home advantage) and
    below 56. *)
Theorem fair_tied_game s :
  lead s = 0 -> momentum s = 0 -> exists f, _fair s = Some f /\ 50 < f < 56.
Proof.
  intros Hl Hm. exists (fair_value s). split.
  - apply fair_returns_ahead; lra.
  - now apply fair_value_tied.
Qed.

(** X21.  With no momentum and the same lead, less remaining time moves the
    fair value away from the centre.  When the home side is level or ahead,
    or one point behind (0.18 * lead + 0.2 >= 0), [_fair] returns in both
    states and the value with less time left is not the smaller one.  When
    0.18 * lead + 0.2 <= 0 and [_fair] returns with less time left, it
    returns with more time left too, and that value is not the smaller
    one. *)
Theorem fair_sharpens_late s1 s2 :
  momentum s1 = 0 -> momentum s2 = 0 -> lead s1 = lead s2 -> t s1 <= t s2 ->
  (0 <= 0.18 * lead s1 + 0.20 ->
   exists f1 f2, _fair s1 = Some f1 /\ _fair s2 = Some f2 /\ f2 <= f1) /\
  (0.18 * lead s1 + 0.20 <= 0 ->
   forall f1, _fair s1 = Some f1 ->
              exists f2, _fair s2 = Some f2 /\ f1 <= f2).
Proof.
  intros Hm1 Hm2 Hl Ht.
  destruct (fair_value_sharpens s1 s2 Hm1 Hm2 Hl Ht) as [Hup Hdown].
  pose proof (time_scale_pos (t s1)) as Hp1.
  pose proof (time_scale_pos (t s2)) as Hp2.
  pose proof (time_scale_mono (t s1) (t s2) Ht) as Hsc.
  pose proof (logit_no_momentum s1 Hm1) as L1.
  pose proof (logit_no_momentum s2 Hm2) as L2.
  rewrite <- Hl in L2.
  split; intros Hc.
  - exists (fair_value s1), (fair_value s2).
    split; [| split; [| now apply Hup]]; apply fair_returns.
    + rewrite L1. apply Rmult_le_pos; lra.
    + rewrite L2. apply Rmult_le_pos; lra.
  - intros f1 Hf1. exists (fair_value s2). split.
    + apply (fair_returns_above s1 s2 f1 Hf1). rewrite L1, L2. nra.
    + rewrite (fair_Some s1 f1 Hf1). now apply Hdown.
Qed.

(** X25.  Where [_fair] returns, its value is within [1, 99]; and it then
    returns in every state with the same remaining time, a lead at least as
    large and a momentum at least as large, with a value at least as
    large. *)
Theorem fair_monotone_where_returned s1 s2 f1 :
  _fair s1 = Some f1 ->
  t s1 = t s2 -> lead s1 <= lead s2 -> momentum s1 <= momentum s2 ->
  1 <= f1 <= 99 /\
  exists f2, _fair s2 = Some f2 /\ f1 <= f2 <= 99.
Proof.
  intros Hf1 Ht Hl Hm.
  split; [now apply fair_Some_bounds with s1 |].
  exists (fair_value s2). split; [| split].
  - apply (fair_returns_above s1 s2 f1 Hf1). now apply logit_mono.
  - rewrite (fair_Some s1 f1 Hf1). unfold fair_value.
    pose proof (win_prob_mono s1 s2 Ht Hl Hm). lra.
  - apply fair_bounds.
Qed.

(** ** Callbacks that raise *)



(** ** High-impact evaluations *)

(** X22.  An evaluation flagged high-impact never rests a passive order, and
    neither does one that sees a spread of at most 2: every limit order they
    place is immediate-or-cancel. *)
Theorem resting_needs_wide_spread now reply hi s side q px ioc :
  In (place_limit_order side TEAM_A q px ioc) (snd (_try_trade now reply hi s)) ->
  (hi = true -> ioc = true) /\
  (forall bb aa, _best_bid s = Some bb -> _best_ask s = Some aa ->
                 aa - bb <= MAX_SPREAD_TO_CROSS -> ioc = true).
Proof.
  intros Hin. apply limit_order_origin in Hin.
  destruct Hin as (bb & aa & Hbb & Haa & _ & H). cbv zeta in H.
  assert (Hcase : ioc = true \/
                  (MAX_SPREAD_TO_CROSS < aa - bb /\ hi = false)).
  { destruct H as [H | [H | [H | H]]].
    - left. tauto.
    - left. tauto.
    - right. apply allow_false_spread. tauto.
    - right. apply allow_false_spread. tauto. }
  split.
  - intros ->. destruct Hcase as [-> | [_ Hf]]; [reflexivity | discriminate].
  - intros bb' aa' Hbb' Haa' Hsp.
    rewrite Hbb in Hbb'. rewrite Haa in Haa'.
    injection Hbb' as <-. injection Haa' as <-.
    destruct Hcase as [-> | [Hw _]]; [reflexivity | lra].
Qed.

(** ** END_GAME *)

(** X23.  An END_GAME event always ends in the reset state, and its commands
    are the flatten of the state before it: a cancel for each working order,
    then, if the position is at least 1 in magnitude, one market order on the
    closing side for the floor of that magnitude.  The scores and the time
    the event carries are discarded. *)
Theorem end_game_flattens_then_resets now reply e s :
  event_type e = "END_GAME"%string ->
  on_game_event_update now reply e s
  = Returned
      (reset_state now,
       cancel_if (_work_bid s) ++ cancel_if (_work_ask s)
         ++ (if 1 <=? Rabs (pos s)
             then [place_market_order (if 0 <? pos s then SELL else BUY) TEAM_A
                                      (IZR (Zfloor (Rabs (pos s))))]
             else [])).
Proof.
  intros Hty. rewrite end_game_resets by exact Hty. rewrite flatten_all_eq.
  cbn [snd].
  destruct (game_state_handles (home_score e) (away_score e) (time_seconds e) s)
    as [-> ->].
  destruct (update_scores_frame (home_score e) (away_score e)
              (infer_time (time_seconds e) s)) as (_ & _ & _ & -> & _).
  destruct (infer_time_frame (time_seconds e) s) as (_ & _ & _ & -> & _).
  reflexivity.
Qed.

(** ** Fills *)

(** X24.  A buy fill followed by a sell fill of the same quantity brings the
    position back to where it was, and the capital is the figure reported
    last.  An account update never sets a handle: each handle afterwards is
    the one before or none. *)
Theorem account_round_trip tk p1 p2 q c1 c2 s :
  let s1 := fst (on_account_update tk BUY p1 q c1 s) in
  let s2 := fst (on_account_update tk SELL p2 q c2 s1) in
  pos s2 = pos s /\ capital s2 = c2 /\
  (_work_bid s1 = _work_bid s \/ _work_bid s1 = None) /\
  (_work_ask s1 = _work_ask s \/ _work_ask s1 = None).
Proof.
  intros s1 s2. unfold s2, s1. rewrite !on_account_update_eq. cbn [effects].
  cbn [fst pos capital _work_bid _work_ask].
  split; [lra |]. split; [reflexivity |].
  split; [destruct (0 <? _) | destruct (_ <? 0)]; auto.
Qed.

(** ** The further properties on concrete inputs *)

Lemma cheap_ask_qty :
  buy_qty cheap_ask (fair_value cheap_ask - 0.05) (0.5 * (0 + 0.05)) = 200.
Proof.
  unfold buy_qty. rewrite size_for_edge_capped.
  - cbn [cheap_ask with_book set_asks set_bids reset_state pos]. unfold MAX_POS. calc_R.
  - lra.
  - unfold size_base, RISK_PCT. cbn [cheap_ask with_book set_asks set_bids
      reset_state capital]. calc_R.
Qed.

Lemma strong_lead_fair : fair_value strong_lead = 99.
Proof. apply fair_saturated; cbn; lra. Qed.

Lemma strong_lead_qty :
  buy_qty strong_lead (99 - 55) (0.5 * (45 + 55)) = 56.
Proof. now apply buy_qty_56. Qed.

Lemma strong_lead_returns : _fair strong_lead = Some 99.
Proof. rewrite <- strong_lead_fair. apply fair_returns_ahead; cbn; lra. Qed.

Lemma working_both_fill :
  snd (on_account_update TEAM_A BUY 50 1 99950 working_both) = [cancel_order TEAM_A 5].
Proof.
  rewrite on_account_update_eq. cbn [effects].
  cbn [snd pos _work_ask _work_bid working_both set_work_ask set_work_bid reset_state].
  replace (0 <? 0 + 1) with true by (symmetry; cmp_true).
  replace (0 + 1 <? 0) with false by (symmetry; cmp_false).
  reflexivity.
Qed.

Lemma late_long_flatten :
  snd (_flatten_all late_long) = [place_market_order SELL TEAM_A 5].
Proof.
  rewrite flatten_all_eq.
  cbn [snd late_long set_account at_time set_t reset_state pos _work_bid _work_ask
       cancel_if app].
  replace (1 <=? Rabs 5) with true
    by (symmetry; apply Rleb_true; rewrite Rabs_pos_eq; lra).
  replace (0 <? 5) with true by (symmetry; apply Rltb_true; lra).
  rewrite (Zfloor_IZR_eq 5 (Rabs 5)) by (rewrite Rabs_pos_eq; lra).
  reflexivity.
Qed.

(** A price of 150 is clamped to 100. *)
Lemma clamp_price_props_witness : 100 <= 150 /\ _clamp_price 150 = 100.
Proof.
  assert (H : 100 <= 150) by lra.
  destruct (clamp_price_props 150 200) as (_ & _ & _ & _ & Hc & _).
  split; [exact H | exact (Hc H)].
Defined.

(** A bid of 5 at 150 on an empty book is found at 100. *)
Lemma book_update_lookup_witness :
  0 < 5 /\
  dict_get (side_book BUY (fst (on_orderbook_update 10 reply_1 TEAM_A BUY 5 150
                                                    (reset_state 0))))
           (_clamp_price 150) = Some 5.
Proof.
  assert (H : 0 < 5) by lra.
  destruct (book_update_lookup 10 reply_1 TEAM_A BUY 5 150 (reset_state 0) 40)
    as (Hc & _).
  split; [exact H | exact (Hc H)].
Defined.

(** The single bid of 45 is the best bid. *)
Lemma best_bid_highest_witness :
  _best_bid (with_book (reset_state 0) 45 55) = Some 45 /\
  exists q, dict_get (_bids (with_book (reset_state 0) 45 55)) 45 = Some q
            /\ MIN_QTY_LVL <= q.
Proof.
  assert (H : _best_bid (with_book (reset_state 0) 45 55) = Some 45)
    by apply best_bid_with_book.
  split; [exact H |].
  exact (proj1 (proj1 (best_bid_highest (with_book (reset_state 0) 45 55)) 45 H)).
Defined.

(** The single ask of 55 is the best ask. *)
Lemma best_ask_lowest_witness :
  _best_ask (with_book (reset_state 0) 45 55) = Some 55 /\
  exists q, dict_get (_asks (with_book (reset_state 0) 45 55)) 55 = Some q
            /\ MIN_QTY_LVL <= q.
Proof.
  assert (H : _best_ask (with_book (reset_state 0) 45 55) = Some 55)
    by apply best_ask_with_book.
  split; [exact H |].
  exact (proj1 (proj1 (best_ask_lowest (with_book (reset_state 0) 45 55)) 55 H)).
Defined.

(** A snapshot with a bid of 3 at 150 and dust at 40: the bid is found at 100. *)
Lemma snapshot_lookup_witness :
  dict_get (side_book BUY (fst (on_orderbook_snapshot 10 reply_1 TEAM_A
                                  [(150, 3); (40, 0.5)] [] (reset_state 0)))) 100
  = Some 3 /\
  MIN_QTY_LVL <= 3 /\ 0 <= 100 <= 100.
Proof.
  destruct (snapshot_lookup 10 reply_1 TEAM_A [(150, 3); (40, 0.5)] []
              (reset_state 0) BUY 100) as [He Hc].
  assert (H : dict_get (side_book BUY (fst (on_orderbook_snapshot 10 reply_1 TEAM_A
                          [(150, 3); (40, 0.5)] [] (reset_state 0)))) 100 = Some 3).
  { rewrite He. cbn [rev app find]. unfold snapshot_hit, MIN_QTY_LVL. cbn [fst snd].
    replace (1 <=? 0.5) with false by (symmetry; cmp_false).
    replace (1 <=? 3) with true by (symmetry; cmp_true).
    cbn [andb].
    replace (Reqb (_clamp_price 150) 100) with true; [reflexivity |].
    symmetry. apply Reqb_true. unfold _clamp_price. calc_R. }
  split; [exact H |].
  destruct (Hc 3 H) as (H1 & H2 & _). split; [exact H1 | exact H2].
Defined.

(** A SCORE event leaves position and capital of a long account alone. *)
Lemma account_written_by_fills_only_witness :
  event_type (plain_event "SCORE" 2 0 None) <> "END_GAME"%string /\
  pos (fst (deliver (mkDelivery 10 reply_1 (GameEventUpdate (plain_event "SCORE" 2 0 None)))
                    late_long)) = pos late_long /\
  capital (fst (deliver (mkDelivery 10 reply_1
                           (GameEventUpdate (plain_event "SCORE" 2 0 None)))
                        late_long)) = capital late_long.
Proof.
  assert (H : event_type (plain_event "SCORE" 2 0 None) <> "END_GAME"%string)
    by discriminate.
  split; [exact H |].
  exact (account_written_by_fills_only
           (mkDelivery 10 reply_1 (GameEventUpdate (plain_event "SCORE" 2 0 None)))
           late_long H).
Defined.

(** Flattening a long position of 5 sells 5 and leaves nothing. *)
Lemma flatten_all_closes_witness :
  In (place_market_order SELL TEAM_A 5) (snd (_flatten_all late_long)) /\
  1 <= 5 /\ Rabs (pos late_long + - 5) < 1.
Proof.
  assert (H : In (place_market_order SELL TEAM_A 5) (snd (_flatten_all late_long))).
  { rewrite late_long_flatten. now left. }
  destruct (flatten_all_closes late_long) as (_ & _ & _ & _ & Hc).
  destruct (Hc SELL 5 H) as (_ & H1 & _ & H2).
  split; [exact H |]. split; [exact H1 | exact H2].
Defined.

(** The cancel sent on a buy fill is for the tracked buy order 5. *)
Lemma cancels_only_tracked_witness :
  In (cancel_order TEAM_A 5)
     (snd (deliver (mkDelivery 10 reply_1 (AccountUpdate TEAM_A BUY 50 1 99950))
                   working_both)) /\
  (_work_bid working_both = Some 5%Z \/ _work_ask working_both = Some 5%Z).
Proof.
  assert (H : In (cancel_order TEAM_A 5)
                 (snd (deliver (mkDelivery 10 reply_1
                                  (AccountUpdate TEAM_A BUY 50 1 99950))
                               working_both))).
  { unfold deliver. cbn [event]. rewrite working_both_fill. now left. }
  split; [exact H |].
  exact (cancels_only_tracked _ working_both 5 H).
Defined.

(** One clock unit after the reset the quiet book is not evaluated. *)
Lemma evaluation_idle_witness :
  1 - _start quiet_book < INIT_COOLDOWN /\
  _try_trade 1 reply_1 false quiet_book = Returned (quiet_book, []).
Proof.
  assert (H : 1 - _start quiet_book < INIT_COOLDOWN)
    by (unfold INIT_COOLDOWN; cbn; lra).
  split; [exact H |].
  exact (evaluation_idle 1 reply_1 false quiet_book (or_introl H)).
Defined.

(** Long 10 with 30 units left and the bid above any fair value: a market sell. *)
Lemma late_unwind_fires_witness :
  _fair closing_long = Some (fair_value closing_long) /\
  t closing_long < 60 /\ 0.5 < pos closing_long /\ fair_value closing_long < 99.5 /\
  _try_trade 10 reply_1 false closing_long
  = Returned
      (closing_long,
       [place_market_order SELL TEAM_A (IZR (Zfloor (Rmax 1 (pos closing_long * 0.25))))]).
Proof.
  assert (H0 : INIT_COOLDOWN <= 10 - _start closing_long)
    by (unfold INIT_COOLDOWN; cbn; lra).
  assert (Hf : _fair closing_long = Some (fair_value closing_long))
    by (apply fair_returns_ahead; cbn; lra).
  assert (H1 : t closing_long < 60) by (cbn; lra).
  assert (H2 : 0.5 < pos closing_long) by (cbn; lra).
  assert (H3 : fair_value closing_long < 99.5)
    by (pose proof (fair_bounds closing_long); lra).
  split; [exact Hf |]. split; [exact H1 |]. split; [exact H2 |]. split; [exact H3 |].
  exact (proj1 (proj1 (late_unwind_fires 10 reply_1 false closing_long 99.5 100
                         (fair_value closing_long) H0
                         (best_bid_with_book _ _ _) (best_ask_with_book _ _ _) Hf H1)
                      H2 H3)).
Defined.

(** An edge of 2 is never sized below an edge of 1. *)
Lemma size_for_edge_props_witness :
  Rabs 1 <= Rabs 2 /\ _size_for_edge (at_time 0) 1 50 <= _size_for_edge (at_time 0) 2 50.
Proof.
  assert (H : Rabs 1 <= Rabs 2) by (rewrite !Rabs_pos_eq; lra).
  split; [exact H |].
  exact (proj2 (proj2 (size_for_edge_props (at_time 0) 1 2 50)) H).
Defined.

(** The IOC buy against the cheap ask: 200 units at the best ask. *)
Lemma limit_order_bounds_witness :
  In (place_limit_order BUY TEAM_A 200 0.05 true)
     (snd (_try_trade 10 reply_1 false cheap_ask)) /\
  200 <= MAX_POS * 0.25 /\ _best_ask cheap_ask = Some 0.05.
Proof.
  assert (H : In (place_limit_order BUY TEAM_A 200 0.05 true)
                 (snd (_try_trade 10 reply_1 false cheap_ask))).
  { rewrite cheap_ask_trade. now left. }
  destruct (limit_order_bounds 10 reply_1 false cheap_ask BUY 200 0.05 true H)
    as (H1 & H2 & _).
  split; [exact H |]. split; [exact H1 | exact (H2 eq_refl)].
Defined.

(** The cheap ask is crossed. *)
Lemma cross_fires_witness :
  INIT_COOLDOWN <= 10 - _start cheap_ask /\
  _fair cheap_ask = Some (fair_value cheap_ask) /\
  0.05 - 0 <= MAX_SPREAD_TO_CROSS /\
  _edge_threshold cheap_ask < fair_value cheap_ask - 0.05 /\
  pos cheap_ask < MAX_POS /\
  _try_trade 10 reply_1 false cheap_ask
  = Returned
      (set_work_ask (set_work_bid cheap_ask None) None,
       cancel_if (_work_bid cheap_ask) ++ cancel_if (_work_ask cheap_ask)
         ++ [place_limit_order BUY TEAM_A
               (buy_qty cheap_ask (fair_value cheap_ask - 0.05) (0.5 * (0 + 0.05)))
               0.05 true]).
Proof.
  assert (H0 : INIT_COOLDOWN <= 10 - _start cheap_ask)
    by (unfold INIT_COOLDOWN; cbn; lra).
  assert (Hf : _fair cheap_ask = Some (fair_value cheap_ask))
    by (apply fair_returns_ahead; cbn; lra).
  assert (H1 : 60 <= t cheap_ask \/ Rabs (pos cheap_ask) <= 0.5)
    by (left; cbn; unfold GAME_LEN2; lra).
  assert (H2 : 0.05 - 0 <= MAX_SPREAD_TO_CROSS) by (unfold MAX_SPREAD_TO_CROSS; lra).
  assert (H3 : _edge_threshold cheap_ask < fair_value cheap_ask - 0.05).
  { pose proof (fair_bounds cheap_ask). pose proof (edge_threshold_range cheap_ask). lra. }
  assert (H4 : pos cheap_ask < MAX_POS) by (cbn; unfold MAX_POS; lra).
  assert (H5 : 1 <= buy_qty cheap_ask (fair_value cheap_ask - 0.05) (0.5 * (0 + 0.05)))
    by (rewrite cheap_ask_qty; lra).
  split; [exact H0 |]. split; [exact Hf |]. split; [exact H2 |]. split; [exact H3 |].
  split; [exact H4 |].
  exact (proj1 (cross_fires 10 reply_1 false cheap_ask 0 0.05 (fair_value cheap_ask) H0
                  (best_bid_with_book _ _ _) (best_ask_with_book _ _ _) Hf H1
                  (or_introl H2)) H3 H4 H5).
Defined.

(** With a spread of 10 the strong lead rests a buy. *)
Lemma passive_rests_witness :
  MAX_SPREAD_TO_CROSS < 55 - 45 /\
  _fair strong_lead = Some 99 /\
  _edge_threshold strong_lead < 99 - 55 /\
  snd (_try_trade 10 reply_1 false strong_lead)
  = cancel_if (_work_bid strong_lead) ++ cancel_if (_work_ask strong_lead)
      ++ [place_limit_order BUY TEAM_A
            (buy_qty strong_lead (99 - 55) (0.5 * (45 + 55)))
            (_clamp_price (45 + PASSIVE_IMPROVE)) false].
Proof.
  assert (H0 : INIT_COOLDOWN <= 10 - _start strong_lead)
    by (unfold INIT_COOLDOWN; cbn; lra).
  assert (H1 : 60 <= t strong_lead \/ Rabs (pos strong_lead) <= 0.5)
    by (right; cbn; rewrite Rabs_R0; lra).
  assert (H2 : MAX_SPREAD_TO_CROSS < 55 - 45) by (unfold MAX_SPREAD_TO_CROSS; lra).
  assert (H3 : _edge_threshold strong_lead < 99 - 55).
  { pose proof (edge_threshold_range strong_lead). lra. }
  assert (H4 : pos strong_lead < MAX_POS) by (cbn; unfold MAX_POS; lra).
  assert (H5 : 1 <= buy_qty strong_lead (99 - 55) (0.5 * (45 + 55)))
    by (rewrite strong_lead_qty; lra).
  split; [exact H2 |]. split; [exact strong_lead_returns |]. split; [exact H3 |].
  exact (proj1 (passive_rests 10 reply_1 strong_lead 45 55 99 H0
                  (best_bid_with_book _ _ _) (best_ask_with_book _ _ _)
                  strong_lead_returns H1 H2)
               H3 H4 H5).
Defined.

(** Bid 0 and ask 100 leave no edge: both working orders are cancelled. *)
Lemma no_edge_cancels_witness :
  _fair quiet_book = Some (fair_value quiet_book) /\
  fair_value quiet_book - 100 <= _edge_threshold quiet_book /\
  0 - fair_value quiet_book <= _edge_threshold quiet_book /\
  _try_trade 10 reply_1 false quiet_book
  = Returned (set_work_ask (set_work_bid quiet_book None) None,
              [cancel_order TEAM_A 5; cancel_order TEAM_A 7]).
Proof.
  assert (H0 : INIT_COOLDOWN <= 10 - _start quiet_book)
    by (unfold INIT_COOLDOWN; cbn; lra).
  assert (Hf : _fair quiet_book = Some (fair_value quiet_book))
    by (apply fair_returns_ahead; cbn; lra).
  assert (H1 : 60 <= t quiet_book \/ Rabs (pos quiet_book) <= 0.5)
    by (left; cbn; unfold GAME_LEN2; lra).
  pose proof (fair_bounds quiet_book) as Hb.
  pose proof (edge_threshold_range quiet_book) as Ht.
  assert (H2 : fair_value quiet_book - 100 <= _edge_threshold quiet_book) by lra.
  assert (H3 : 0 - fair_value quiet_book <= _edge_threshold quiet_book) by lra.
  split; [exact Hf |]. split; [exact H2 |]. split; [exact H3 |].
  exact (no_edge_cancels 10 reply_1 false quiet_book 0 100 (fair_value quiet_book) H0
           (best_bid_with_book _ _ _) (best_ask_with_book _ _ _) Hf H1
           (or_introl H2) (or_introl H3)).
Defined.

(** The first event after a reset leaves the momentum at 0. *)
Lemma momentum_update_witness :
  event_type (plain_event "SCORE" 2 0 None) <> "END_GAME"%string /\
  _seen_event (reset_state 0) = false /\
  momentum (fst (on_game_event_update 10 reply_1 (plain_event "SCORE" 2 0 None)
                                      (reset_state 0))) = 0.
Proof.
  assert (H : event_type (plain_event "SCORE" 2 0 None) <> "END_GAME"%string)
    by discriminate.
  destruct (momentum_update 10 reply_1 (plain_event "SCORE" 2 0 None) (reset_state 0) H)
    as (_ & _ & _ & _ & Hm & _).
  split; [exact H |]. split; [reflexivity | exact (Hm eq_refl)].
Defined.

(** Right after a reset the fair value is between 50 and 56. *)
Lemma fair_tied_game_witness :
  lead (reset_state 0) = 0 /\ momentum (reset_state 0) = 0 /\
  exists f, _fair (reset_state 0) = Some f /\ 50 < f < 56.
Proof.
  split; [reflexivity |]. split; [reflexivity |].
  exact (fair_tied_game (reset_state 0) eq_refl eq_refl).
Defined.

(** Five points ahead: the fair value with no time left is at least the one
    with 600 units left. *)
Lemma fair_sharpens_late_witness :
  t (set_game (at_time 0) 5 0 5 0 true) <= t (set_game (at_time 600) 5 0 5 0 true) /\
  0 <= 0.18 * lead (set_game (at_time 0) 5 0 5 0 true) + 0.20 /\
  exists f1 f2,
    _fair (set_game (at_time 0) 5 0 5 0 true) = Some f1 /\
    _fair (set_game (at_time 600) 5 0 5 0 true) = Some f2 /\ f2 <= f1.
Proof.
  assert (H1 : t (set_game (at_time 0) 5 0 5 0 true)
               <= t (set_game (at_time 600) 5 0 5 0 true)) by (cbn; lra).
  assert (H2 : 0 <= 0.18 * lead (set_game (at_time 0) 5 0 5 0 true) + 0.20)
    by (cbn; lra).
  split; [exact H1 |]. split; [exact H2 |].
  exact (proj1 (fair_sharpens_late (set_game (at_time 0) 5 0 5 0 true)
                  (set_game (at_time 600) 5 0 5 0 true) eq_refl eq_refl eq_refl H1) H2).
Defined.

(** Leads of 10 and 12 with 600 units left. *)
Lemma fair_monotone_where_returned_witness :
  _fair (set_game (at_time 600) 10 0 10 0 true)
  = Some (fair_value (set_game (at_time 600) 10 0 10 0 true)) /\
  lead (set_game (at_time 600) 10 0 10 0 true)
  <= lead (set_game (at_time 600) 12 0 12 0 true) /\
  exists f2, _fair (set_game (at_time 600) 12 0 12 0 true) = Some f2 /\
             fair_value (set_game (at_time 600) 10 0 10 0 true) <= f2 <= 99.
Proof.
  assert (Hf : _fair (set_game (at_time 600) 10 0 10 0 true)
               = Some (fair_value (set_game (at_time 600) 10 0 10 0 true)))
    by (apply fair_returns_ahead; cbn; lra).
  assert (Hl : lead (set_game (at_time 600) 10 0 10 0 true)
               <= lead (set_game (at_time 600) 12 0 12 0 true)) by (cbn; lra).
  assert (Hm : momentum (set_game (at_time 600) 10 0 10 0 true)
               <= momentum (set_game (at_time 600) 12 0 12 0 true)) by (cbn; lra).
  split; [exact Hf |]. split; [exact Hl |].
  exact (proj2 (fair_monotone_where_returned
                  (set_game (at_time 600) 10 0 10 0 true)
                  (set_game (at_time 600) 12 0 12 0 true) _ Hf eq_refl Hl Hm)).
Defined.


(** The resting buy of the strong lead: the spread is not within 2. *)
Lemma resting_needs_wide_spread_witness :
  In (place_limit_order BUY TEAM_A 56 (45 + PASSIVE_IMPROVE) false)
     (snd (_try_trade 10 reply_1 false strong_lead)) /\
  ~ 55 - 45 <= MAX_SPREAD_TO_CROSS.
Proof.
  assert (H : In (place_limit_order BUY TEAM_A 56 (45 + PASSIVE_IMPROVE) false)
                 (snd (_try_trade 10 reply_1 false strong_lead))).
  { rewrite strong_lead_trade. now left. }
  split; [exact H |]. intros Hsp.
  destruct (resting_needs_wide_spread 10 reply_1 false strong_lead BUY 56
              (45 + PASSIVE_IMPROVE) false H) as [_ Hc].
  specialize (Hc 45 55 (best_bid_with_book _ _ _) (best_ask_with_book _ _ _) Hsp).
  discriminate Hc.
Defined.

(** END_GAME while long 5: the state is reset whatever the event carries. *)
Lemma end_game_flattens_then_resets_witness :
  event_type (plain_event "END_GAME" 101 99 (Some 0)) = "END_GAME"%string /\
  fst (on_game_event_update 10 reply_1 (plain_event "END_GAME" 101 99 (Some 0)) late_long)
  = reset_state 10.
Proof.
  assert (H : event_type (plain_event "END_GAME" 101 99 (Some 0)) = "END_GAME"%string)
    by reflexivity.
  split; [exact H |].
  exact (f_equal (fun o : Outcome => fst o)
                 (end_game_flattens_then_resets 10 reply_1
                    (plain_event "END_GAME" 101 99 (Some 0)) late_long H)).
Defined.

End Kwokker.
